(** * Acma Insights client: a Rocq model of the dashboard client code

    The development embeds the client-side logic of the supplier dashboard
    (insight list mutation, the two API client modules, the streaming chat
    driver, the chat widget's stream callbacks and the early returns of the
    dashboard views) and proves the properties its design document states
    about them.

    Conventions.
    - A JavaScript string is a [string]: the sequence of its code units
      (units below 256; the delimiter and prefix logic only involves ASCII).
    - A JavaScript value that comes out of [JSON.parse] is a [value]; numbers
      are the integer-valued ones ([Z]), which is all the modelled code
      inspects (truthiness and printing).
    - Code that may throw a TypeError returns an [option] ([None]: it
      throws); asynchronous functions return the settled state of their
      promise ([promise]), and a stream is run over the results its reads
      settle to.
    - React state is passed explicitly: a setter is a function on the
      component's state, and a handler reads what its render captured.
    - Platform functions the repository does not define ([JSON.parse],
      [JSON.stringify]) are section variables. *)

From Stdlib Require Import String Ascii ZArith List Bool Lia.
From stdpp Require Import gmap strings list fin_maps pretty.
From Equations Require Import Equations.

Set Warnings "-register-all".
Local Open Scope string_scope.

(** ** JavaScript values *)

Inductive value :=
| VUndef
| VNull
| VBool (b : bool)
| VNum (n : Z)
| VStr (s : string)
| VArr (items : list value)
| VObj (props : list (string * value)).

(** Truthiness ([!!v]). *)
Definition truthy (v : value) : bool :=
  match v with
  | VUndef | VNull => false
  | VBool b => b
  | VNum n => negb (n =? 0)%Z
  | VStr s => negb (String.eqb s "")
  | VArr _ | VObj _ => true
  end.

(** [a || b]. *)
Definition js_or (a b : value) : value := if truthy a then a else b.

(** Own property lookup in an object literal's property list. *)
Fixpoint assoc (k : string) (props : list (string * value)) : option value :=
  match props with
  | [] => None
  | (k', v) :: rest => if String.eqb k' k then Some v else assoc k rest
  end.

(** [o?.k] for a property name [k] that is not a member of any built-in
    prototype ("detail", "data", "timeSeries", ...): [undefined] unless [o]
    is an object that has the property. *)
Definition opt_get (o : value) (k : string) : value :=
  match o with
  | VObj props => default VUndef (assoc k props)
  | _ => VUndef
  end.

(** [typeof v === 'object'] (which also holds of [null]). *)
Definition typeof_object (v : value) : bool :=
  match v with VNull | VArr _ | VObj _ => true | _ => false end.

(** [a === b] for values that are not one and the same object or array:
    two objects or arrays are different references, so only primitives
    are strictly equal.  (A value compared with a copy of its own
    reference is outside this definition; the statements that compare
    suppliers assume primitive ones.) *)
Definition strict_eq (a b : value) : bool :=
  match a, b with
  | VUndef, VUndef | VNull, VNull => true
  | VBool x, VBool y => Bool.eqb x y
  | VNum x, VNum y => Z.eqb x y
  | VStr x, VStr y => String.eqb x y
  | _, _ => false
  end.

(** Whether converting [v] to a primitive, as [String(v)], [Number(v)],
    [new Error(v)] and the property key [o[v]] do, throws a TypeError.  A
    parsed object converts through [Object.prototype.toString] unless it
    has a field of its own named [toString], which is never callable: then
    [valueOf] does not give a primitive either and the conversion throws.
    An array converts through [join], which converts every element other
    than [null]. *)
Fixpoint ToPrimitive_throws (v : value) : bool :=
  match v with
  | VObj props =>
      match assoc "toString" props with Some _ => true | None => false end
  | VArr items => existsb ToPrimitive_throws items
  | _ => false
  end.

(** The values [ToString] below prints as the code does: those whose
    conversion does not throw and whose numbers are below 10^21 in
    magnitude, which print in decimal notation. *)
Fixpoint printable (v : value) : bool :=
  match v with
  | VNum n => (Z.abs n <? 10 ^ 21)%Z
  | VArr items => forallb printable items
  | VObj props =>
      match assoc "toString" props with Some _ => false | None => true end
  | _ => true
  end.

(** [String(v)] for parsed JSON that is [printable]: arrays join their
    elements with commas (printing [null] as the empty string), plain
    objects print as "[object Object]". *)
Fixpoint ToString (v : value) : string :=
  match v with
  | VUndef => "undefined"
  | VNull => "null"
  | VBool b => if b then "true" else "false"
  | VNum n => pretty n
  | VStr s => s
  | VArr items =>
      String.concat ","
        (map (λ x, match x with VUndef | VNull => "" | _ => ToString x end) items)
  | VObj _ => "[object Object]"
  end.

(** [obj[k] = v] on a property list: overwrite in place or append. *)
Fixpoint set_prop (k : string) (v : value) (props : list (string * value))
    : list (string * value) :=
  match props with
  | [] => [(k, v)]
  | (k', v') :: rest =>
      if String.eqb k' k then (k, v) :: rest else (k', v') :: set_prop k v rest
  end.

(** The own enumerable properties copied by [{...v}]. *)
Definition spread (v : value) : list (string * value) :=
  match v with
  | VObj props => props
  | VArr items => imap (λ i x, (pretty i, x)) items
  | VStr s => imap (λ i c, (pretty i, VStr (String c ""))) (list_ascii_of_string s)
  | _ => []
  end.

(** ** JavaScript strings *)

Module JsString.

Definition LF : ascii := "010"%char.

(** The frame delimiter ['\n\n']. *)
Definition sep : string := String LF (String LF "").

(** White space and line terminators among the modelled code units. *)
Definition isWhiteSpace (c : ascii) : bool :=
  let n := nat_of_ascii c in
  (Nat.leb 9 n && Nat.leb n 13) || Nat.eqb n 32 || Nat.eqb n 160.

Fixpoint startsWith (needle s : string) : bool :=
  match needle, s with
  | "", _ => true
  | String a needle', String b s' => Ascii.eqb a b && startsWith needle' s'
  | String _ _, "" => false
  end.

(** [s.indexOf(needle)]; [None] is JavaScript's [-1]. *)
Fixpoint indexOf (needle s : string) : option nat :=
  if startsWith needle s then Some 0
  else match s with
       | "" => None
       | String _ rest => S <$> indexOf needle rest
       end.

(** [s.slice(0, n)]. *)
Fixpoint slice_to (n : nat) (s : string) : string :=
  match n, s with
  | S n', String c rest => String c (slice_to n' rest)
  | _, _ => ""
  end.

(** [s.slice(n)]. *)
Fixpoint slice_from (n : nat) (s : string) : string :=
  match n, s with
  | S n', String _ rest => slice_from n' rest
  | _, _ => s
  end.

Fixpoint trimStart (s : string) : string :=
  match s with
  | String c rest => if isWhiteSpace c then trimStart rest else s
  | "" => ""
  end.

Fixpoint trimEnd (s : string) : string :=
  match s with
  | String c rest =>
      match trimEnd rest with
      | "" => if isWhiteSpace c then "" else String c ""
      | kept => String c kept
      end
  | "" => ""
  end.

Definition trim (s : string) : string := trimEnd (trimStart s).

(** [s.split(d)] for a one-character delimiter. *)
Fixpoint split (d : ascii) (s : string) : list string :=
  match s with
  | "" => [""]
  | String c rest =>
      if Ascii.eqb c d then "" :: split d rest
      else match split d rest with
           | piece :: pieces => String c piece :: pieces
           | [] => [String c ""]
           end
  end.

(** [!s] for a string. *)
Definition isEmpty (s : string) : bool := String.eqb s "".

End JsString.

(** ** Errors, promises and the network *)

Module Net.

Record http_response := { resp_status : nat; resp_data : value }.

(** A thrown error object.  [err_response] and [err_request] are the
    fields axios attaches to its own errors; [new Error(msg)] has
    neither. *)
Record js_error := {
  err_name : string;
  err_message : string;
  err_response : option http_response;
  err_request : bool
}.

Definition new_Error (msg : string) : js_error :=
  {| err_name := "Error"; err_message := msg;
     err_response := None; err_request := false |}.

(** [error.toString()]. *)
Definition error_toString (e : js_error) : string :=
  if JsString.isEmpty (err_name e) then err_message e
  else if JsString.isEmpty (err_message e) then err_name e
  else err_name e +:+ ": " +:+ err_message e.

(** The settled state of a promise. *)
Inductive promise (A : Type) :=
| Resolved (a : A)
| Rejected (e : js_error).
Arguments Resolved {A} a.
Arguments Rejected {A} e.

(** What successive [reader.read()] calls settle to. *)
Inductive read_result :=
| ReadChunk (text : string)
| ReadDone
| ReadFail (err : js_error).

(** What [fetch] resolves to: [response.ok], [response.status], the
    settlement of [response.json()] and the reads of [response.body]
    ([None] when there is no body). *)
Record fetch_response := {
  f_ok : bool;
  f_status : nat;
  f_json : promise value;
  f_body : option (list read_result)
}.

End Net.

(** ** The first API module (the [api] object over bare axios) *)

Module LegacyApi.
Import Net.

(** Each method awaits one axios call, returns [response.data], and in
    its [catch] logs and rethrows the error it caught. *)
Definition request (r : promise http_response) : promise value :=
  match r with
  | Resolved response => Resolved (resp_data response)
  | Rejected error => Rejected error
  end.

Definition uploadAndProcessFile := request.
Definition generateMoreInsights := request.
Definition getSheetInsights := request.
Definition getDashboardData := request.

(** [saveFeedback] issues no request. *)
Definition saveFeedback : promise value :=
  Resolved (VObj [("success", VBool true)]).

End LegacyApi.

(** ** The second API module (the axios instance and [ApiService]) *)

Module ApiService.
Import Net.

(** The TypeError of converting an object that has no callable
    [toString] or [valueOf] to a primitive. *)
Definition conversion_TypeError : js_error :=
  {| err_name := "TypeError";
     err_message := "Cannot convert object to primitive value";
     err_response := None; err_request := false |}.

(** The response interceptor installed on the axios instance.
    [new Error(message)] converts a message that is not a string, which
    can throw. *)
Definition response_interceptor (r : promise http_response) : promise value :=
  match r with
  | Resolved response => Resolved (resp_data response)
  | Rejected error =>
      match err_response error with
      | Some response =>
          let message :=
            js_or (opt_get (resp_data response) "detail")
              (js_or (opt_get (resp_data response) "error")
                 (VStr "Server error occurred")) in
          if ToPrimitive_throws message then Rejected conversion_TypeError
          else Rejected (new_Error (ToString message))
      | None =>
          if err_request error
          then Rejected (new_Error "Network error - please check your connection")
          else Rejected (new_Error "An unexpected error occurred")
      end
  end.

(** [api.get], [api.post] and [api.delete]: one request through the
    interceptor. *)
Definition api_get := response_interceptor.
Definition api_post := response_interceptor.
Definition api_delete := response_interceptor.

(** [sanitizeChartData]. *)
Definition sanitizeChartData (chartData : value) : value :=
  if negb (truthy chartData) || negb (typeof_object chartData) then chartData
  else
    let sanitized := spread chartData in
    let title := default VUndef (assoc "title" sanitized) in
    if truthy title && typeof_object title && truthy (opt_get title "text")
    then VObj (set_prop "displayTitle" (opt_get title "text") sanitized)
    else match title with
         | VStr _ => VObj (set_prop "displayTitle" title sanitized)
         | _ => VObj sanitized
         end.

Definition suggested_actions : value :=
  VArr [VStr "How many days of work were lost due to an unsafe event?";
        VStr "Create a graph showing a trend of incidents reported in SR1, SR2, NR1 and NR2 for the last three months.";
        VStr "Which hazards are commonly occurring in all regions?";
        VStr "Are there any recurring patterns observed for the unsafe events reported this year?";
        VStr "Which region has reported the most number of unsafe events?"].

(** [startConversation] and [clearConversation] issue no request; the
    session id is built from the clock. *)
Definition startConversation (now : Z) : promise value :=
  Resolved (VObj [("success", VBool true);
                  ("session_id", VStr ("convbi_" +:+ pretty now));
                  ("message", VStr "Hello! I'm your AI Assistant. How can I assist you?")]).

Definition clearConversation : promise value :=
  Resolved (VObj [("success", VBool true);
                  ("message", VStr "Conversation cleared")]).

(** The methods that return the awaited axios call as it is. *)
Definition deleteChart := api_delete.
Definition getSupplierDashboardAnalytics := api_get.
Definition getSupplierGeneralInsights := api_get.
Definition generateSupplierAdditionalInsights := api_post.

(** The TypeError of reading a property of [null] or [undefined]. *)
Definition property_TypeError (target : value) (k : string) : js_error :=
  {| err_name := "TypeError";
     err_message := "Cannot read properties of " +:+ ToString target +:+
                    " (reading '" +:+ k +:+ "')";
     err_response := None; err_request := false |}.

(** An object literal [{ ...fields, ...response }]. *)
Definition with_spread (fields : list (string * value)) (response : value)
    : value :=
  VObj (fold_left (λ acc kv, set_prop kv.1 kv.2 acc) (spread response) fields).

(** [addChartToDashboard]: the body with a [success] flag in front. *)
Definition addChartToDashboard (r : promise http_response) : promise value :=
  match api_post r with
  | Rejected error => Rejected error
  | Resolved response =>
      match response with
      | VUndef | VNull => Rejected (property_TypeError response "status")
      | _ =>
          Resolved
            (with_spread
               [("success", VBool (strict_eq (opt_get response "status") (VStr "success")))]
               response)
      end
  end.

(** [getUserCharts]. *)
Definition getUserCharts (r : promise http_response) : promise value :=
  match api_get r with
  | Rejected error => Rejected error
  | Resolved response =>
      match response with
      | VUndef | VNull => Rejected (property_TypeError response "status")
      | _ =>
          Resolved
            (with_spread
               [("success", VBool (strict_eq (opt_get response "status") (VStr "success")));
                ("charts", js_or (opt_get response "charts") (VArr []))]
               response)
      end
  end.

(** The methods whose result is the interceptor's, as it is. *)
Definition direct_methods : list (promise http_response → promise value) :=
  [deleteChart; getSupplierDashboardAnalytics; getSupplierGeneralInsights;
   generateSupplierAdditionalInsights].

(** [uploadAndAnalyzeFile], over what [fetch] settled to. *)
Definition uploadAndAnalyzeFile (f : promise fetch_response) : promise value :=
  match f with
  | Rejected error => Rejected error
  | Resolved response =>
      if negb (f_ok response) then
        let message :=
          match f_json response with
          | Resolved errorData =>
              match errorData with
              | VUndef | VNull => VStr "File upload failed"
              | _ => js_or (opt_get errorData "detail") (VStr "File upload failed")
              end
          | Rejected _ => VStr "File upload failed"
          end in
        if ToPrimitive_throws message then Rejected conversion_TypeError
        else Rejected (new_Error (ToString message))
      else f_json response
  end.

Section Platform.
(** [JSON.parse] ([None]: it throws) and [JSON.stringify]. *)
Variable JSON_parse : string → option value.
Variable JSON_stringify : value → string.

(** [extractTextFromResponse]. *)
Definition extractTextFromResponse (response : value) : value :=
  match response with
  | VStr _ => response
  | VObj props =>
      match assoc "text" props, assoc "content" props, assoc "message" props with
      | Some text, _, _ => text
      | None, Some content, _ => content
      | None, None, Some message => message
      | None, None, None => VStr (JSON_stringify response)
      end
  | VArr _ => VStr (JSON_stringify response)
  | _ => VNull
  end.

(** What [this] is in a call of a method: the service, as in
    [ApiService.sendChatMessage(message)], or [undefined], as in a call of
    the function the module also exports by destructuring the service
    ([export const { sendChatMessage, ... } = apiService]). *)
Inductive receiver :=
| TheService
| Unbound.

(** [this.extractTextFromResponse(response)]: a TypeError when [this] is
    [undefined]. *)
Definition this_extractTextFromResponse (this : receiver) (response : value)
    : js_error + value :=
  match this with
  | TheService => inr (extractTextFromResponse response)
  | Unbound => inl (property_TypeError VUndef "extractTextFromResponse")
  end.

(** The [catch] block of [sendChatMessage]; a throw inside it rejects the
    promise. *)
Definition sendChatMessage_catch (this : receiver) (error : js_error)
    : promise value :=
  match this_extractTextFromResponse this (VStr (err_message error)) with
  | inl thrown => Rejected thrown
  | inr text =>
      Resolved
        (VObj [("success", VBool false);
               ("message",
                 js_or text
                       (VStr "Sorry, I encountered an error processing your request. Please try again."));
               ("error", js_or text (VStr (error_toString error)))])
  end.

(** [sendChatMessage], called on [this], over what the [/chat] request
    settled to. *)
Definition sendChatMessage (this : receiver) (r : promise http_response)
    : promise value :=
  match api_post r with
  | Resolved response =>
      let dataContext :=
        match opt_get response "query_result" with
        | VStr text => default VNull (JSON_parse text)
        | query_result => if truthy query_result then query_result else VNull
        end in
      let chartData :=
        let visualization_data := opt_get response "visualization_data" in
        if truthy visualization_data then
          match this with
          | Unbound => VNull
          | TheService =>
              match visualization_data with
              | VStr text =>
                  match JSON_parse text with
                  | Some rawChartData => sanitizeChartData rawChartData
                  | None => VNull
                  end
              | rawChartData => sanitizeChartData rawChartData
              end
          end
        else VNull in
      match this_extractTextFromResponse this (opt_get response "final_answer") with
      | inl thrown => sendChatMessage_catch this thrown
      | inr text =>
          Resolved
            (VObj [("success", VBool true);
                   ("message", js_or text (VStr "No response available"));
                   ("data_context", dataContext);
                   ("chart_data", chartData);
                   ("sql_query", js_or (opt_get response "sql_query") VNull);
                   ("suggested_actions", suggested_actions)])
      end
  | Rejected error => sendChatMessage_catch this error
  end.

End Platform.

End ApiService.

(** ** The streaming chat driver ([startChatStream]) *)

Module Stream.
Import Net JsString.

Definition inspect {A} (a : A) : {b | a = b} := exist _ a eq_refl.

Lemma indexOf_sep_bound (buffer : string) (i : nat) :
  indexOf sep buffer = Some i → (i + 2 <= String.length buffer)%nat.
Proof.
  revert i. induction buffer as [|c b IH]; intros i H; [discriminate|].
  cbn [indexOf] in H. destruct (startsWith sep (String c b)) eqn:E.
  - injection H as <-.
    destruct b; [cbn in E; rewrite andb_false_r in E; discriminate|cbn; lia].
  - destruct (indexOf sep b) eqn:E2; [|discriminate]. cbn in H.
    injection H as <-. specialize (IH _ eq_refl). cbn. lia.
Qed.

Lemma slice_from_length (n : nat) (s : string) :
  String.length (slice_from n s) = (String.length s - n)%nat.
Proof. revert s. induction n; intros [|c s]; cbn; auto. Qed.

Section Driver.
(** The state the two callbacks act on. *)
Context {S : Type}.
(** [JSON.parse]; [None] when it throws. *)
Variable JSON_parse : string → option value.
(** [onEvent], when given: the state it leaves and whether it threw. *)
Variable onEvent : option (value → S → S * bool).
(** [onError], when given. *)
Variable onError : option (js_error → S → S).

(** The callbacks' state together with the [console.warn] log (the
    [jsonStr] of each 'SSE parse error'). *)
Definition world : Type := S * list string.

Definition warn (jsonStr : string) (w : world) : world :=
  (w.1, (w.2 ++ [jsonStr])%list).

(** The body of the inner loop after [if (!sseChunk) continue]. *)
Definition dispatch (sseChunk : string) (w : world) : world :=
  match find (startsWith "data: ") (split LF sseChunk) with
  | None => w
  | Some dataLine =>
      let jsonStr := slice_from 6 dataLine in
      match JSON_parse jsonStr with
      | None => warn jsonStr w
      | Some evt =>
          match onEvent with
          | None => w
          | Some callback =>
              let r := callback evt w.1 in
              if r.2 then warn jsonStr (r.1, w.2) else (r.1, w.2)
          end
      end
  end.

(** One iteration of [while ((sepIndex = buffer.indexOf('\n\n')) !== -1)]
    on the frame before the delimiter. *)
Definition on_frame (frame : string) (w : world) : world :=
  let sseChunk := trim frame in
  if isEmpty sseChunk then w else dispatch sseChunk w.

(** The inner [while] loop: the state and the buffer it leaves. *)
Equations? drain (buffer : string) (w : world) : world * string
    by wf (String.length buffer) lt :=
  drain buffer w with inspect (indexOf sep buffer) := {
    | exist _ None _ => (w, buffer)
    | exist _ (Some sepIndex) Hsep =>
        drain (slice_from (sepIndex + 2) buffer)
              (on_frame (slice_to sepIndex buffer) w) }.
Proof.
  apply indexOf_sep_bound in Hsep.
  pose proof (slice_from_length (sepIndex + 2) buffer). lia.
Qed.

(** How the outer [while (true)] loop ends: [done], a rejected
    [reader.read()], or still awaiting a read. *)
Inductive loop_end :=
| LoopDone
| LoopThrew (err : js_error)
| LoopPending.

(** The outer loop over the settled reads; each chunk is the text
    [decoder.decode(value, { stream: true })] returns for it. *)
Fixpoint read_loop (reads : list read_result) (buffer : string) (w : world)
    : world * loop_end :=
  match reads with
  | [] => (w, LoopPending)
  | ReadDone :: _ => (w, LoopDone)
  | ReadFail err :: _ => (w, LoopThrew err)
  | ReadChunk text :: rest =>
      let r := drain (buffer +:+ text) w in
      read_loop rest r.2 r.1
  end.

(** The [try] block of [run]: the state it reaches and what it threw. *)
Definition run_try (f : promise fetch_response) (w : world)
    : world * option js_error :=
  match f with
  | Rejected err => (w, Some err)
  | Resolved resp =>
      match f_ok resp, f_body resp with
      | true, Some reads =>
          let r := read_loop reads "" w in
          (r.1, match r.2 with LoopThrew err => Some err | _ => None end)
      | _, _ =>
          (w, Some (new_Error ("Stream failed with status " +:+ pretty (f_status resp))))
      end
  end.

(** [run]: the [try] block, then [catch (err) { if (onError) onError(err) }]. *)
Definition run (f : promise fetch_response) (w : world) : world :=
  let r := run_try f w in
  match r.2, onError with
  | Some err, Some callback => (callback err r.1.1, r.1.2)
  | _, _ => r.1
  end.

End Driver.

(** [startChatStream(message, onEvent, onError)], over what [fetch] and
    the reads settle to. *)
Definition startChatStream {S} := @run S.

(** A response whose body streams the given reads. *)
Definition streaming (status : nat) (json : promise value)
    (reads : list read_result) : promise fetch_response :=
  Resolved {| f_ok := true; f_status := status; f_json := json;
              f_body := Some reads |}.

(** *** The text decoder *)

Section Decoder.
(** The bytes a [TextDecoder] holds back between calls. *)
Context {D : Type}.
(** [decoder.decode(value, { stream: true })]: the decoder afterwards and
    the text it returns. *)
Variable decode : D → list Byte.byte → D * string.

(** The texts of successive reads. *)
Fixpoint decode_reads (d : D) (values : list (list Byte.byte)) : list string :=
  match values with
  | [] => []
  | bytes :: rest =>
      let r := decode d bytes in r.2 :: decode_reads r.1 rest
  end.

(** What streaming mode promises: decoding nothing returns nothing, and
    decoding in two calls returns the text of decoding at once. *)
Definition streaming_decoder : Prop :=
  (∀ d, decode d [] = (d, "")) ∧
  (∀ d a b, decode d (a ++ b)%list =
            ((decode (decode d a).1 b).1,
             (decode d a).2 +:+ (decode (decode d a).1 b).2)).

End Decoder.

(** A decoder for bodies of one-byte characters: it holds nothing back. *)
Definition decode_bytes (d : unit) (bytes : list Byte.byte) : unit * string :=
  (d, string_of_list_byte bytes).

(** *** Callbacks that record their calls *)

Inductive callback_call :=
| EventCall (evt : value)
| ErrorCall (err : js_error).

Definition is_EventCall (c : callback_call) : bool :=
  match c with EventCall _ => true | ErrorCall _ => false end.

Definition record_event
    : option (value → list callback_call → list callback_call * bool) :=
  Some (λ evt calls, ((calls ++ [EventCall evt])%list, false)).

Definition record_error
    : option (js_error → list callback_call → list callback_call) :=
  Some (λ err calls, (calls ++ [ErrorCall err])%list).

(** The calls a stream makes to its two callbacks, in order. *)
Definition calls (JSON_parse : string → option value)
    (f : promise fetch_response) : list callback_call :=
  (startChatStream JSON_parse record_event record_error f ([], [])).1.

(** The [console.warn] log of a stream. *)
Definition warnings (JSON_parse : string → option value)
    (f : promise fetch_response) : list string :=
  (startChatStream JSON_parse record_event record_error f ([], [])).2.

(** *** Frames as the protocol describes them *)

(** A frame is well formed when it has a [data: ] line holding JSON; it
    is malformed when that line is not JSON, or when it has no such
    line. *)
Inductive frame_kind :=
| WellFormed (evt : value)
| NotJson (jsonStr : string)
| NoDataLine.

Definition classify (JSON_parse : string → option value) (frame : string)
    : frame_kind :=
  match find (startsWith "data: ") (split LF (trim frame)) with
  | None => NoDataLine
  | Some dataLine =>
      match JSON_parse (slice_from 6 dataLine) with
      | Some evt => WellFormed evt
      | None => NotJson (slice_from 6 dataLine)
      end
  end.

(** The events of the well-formed frames, in order. *)
Definition events_of (JSON_parse : string → option value)
    (frames : list string) : list value :=
  flat_map (λ frame, match classify JSON_parse frame with
                     | WellFormed evt => [evt]
                     | _ => []
                     end) frames.

(** The texts that are not JSON, in order. *)
Definition rejects_of (JSON_parse : string → option value)
    (frames : list string) : list string :=
  flat_map (λ frame, match classify JSON_parse frame with
                     | NotJson jsonStr => [jsonStr]
                     | _ => []
                     end) frames.

(** A frame's text can be delimited: followed by the delimiter, the
    first delimiter found is that one. *)
Definition delimitable (frame : string) : bool :=
  match indexOf sep (frame +:+ String LF "") with
  | None => true
  | Some _ => false
  end.

(** The body of a stream of frames, each followed by the delimiter. *)
Definition serialize (frames : list string) : string :=
  String.concat "" (map (λ frame, frame +:+ sep) frames).

(** A stand-in for [JSON.parse] in examples: the listed texts parse to
    the values given, every other text is rejected. *)
Definition parse_table (table : list (string * value)) (text : string)
    : option value :=
  assoc text table.

End Stream.

(** ** The chat widget ([ChatBot]) *)

Module ChatBot.
Import Net JsString.

Record ChatMessage := {
  id : Z;
  role : string;
  content : value;
  timestamp : Z;
  data_context : value;
  chart_data : value;
  isError : bool
}.

(** The component's state, with what it hands to the platform: the texts
    scheduled for [speakText], the questions given to [startChatStream],
    and the clock [Date.now()] reads. *)
Record state := {
  messages : list ChatMessage;
  isLoading : bool;
  isTyping : bool;
  progressSteps : list value;
  hasNewMessage : bool;
  speech : list value;
  streams : list string;
  now : Z
}.

(** What a handler's closure captured at the render it belongs to. *)
Record render := {
  r_isLoading : bool;
  r_isOpen : bool;
  r_speechEnabled : bool
}.

Definition setMessages (f : list ChatMessage → list ChatMessage) (st : state) : state :=
  {| messages := f (messages st); isLoading := isLoading st;
     isTyping := isTyping st; progressSteps := progressSteps st;
     hasNewMessage := hasNewMessage st; speech := speech st;
     streams := streams st; now := now st |}.

Definition setIsLoading (b : bool) (st : state) : state :=
  {| messages := messages st; isLoading := b;
     isTyping := isTyping st; progressSteps := progressSteps st;
     hasNewMessage := hasNewMessage st; speech := speech st;
     streams := streams st; now := now st |}.

Definition setIsTyping (b : bool) (st : state) : state :=
  {| messages := messages st; isLoading := isLoading st;
     isTyping := b; progressSteps := progressSteps st;
     hasNewMessage := hasNewMessage st; speech := speech st;
     streams := streams st; now := now st |}.

Definition setProgressSteps (f : list value → list value) (st : state) : state :=
  {| messages := messages st; isLoading := isLoading st;
     isTyping := isTyping st; progressSteps := f (progressSteps st);
     hasNewMessage := hasNewMessage st; speech := speech st;
     streams := streams st; now := now st |}.

Definition setHasNewMessage (b : bool) (st : state) : state :=
  {| messages := messages st; isLoading := isLoading st;
     isTyping := isTyping st; progressSteps := progressSteps st;
     hasNewMessage := b; speech := speech st;
     streams := streams st; now := now st |}.

(** [setTimeout(() => speakText(text), 500)]. *)
Definition scheduleSpeech (text : value) (st : state) : state :=
  {| messages := messages st; isLoading := isLoading st;
     isTyping := isTyping st; progressSteps := progressSteps st;
     hasNewMessage := hasNewMessage st; speech := (speech st ++ [text])%list;
     streams := streams st; now := now st |}.

(** A call of [ApiService.startChatStream(messageText, ...)]. *)
Definition openStream (messageText : string) (st : state) : state :=
  {| messages := messages st; isLoading := isLoading st;
     isTyping := isTyping st; progressSteps := progressSteps st;
     hasNewMessage := hasNewMessage st; speech := speech st;
     streams := (streams st ++ [messageText])%list; now := now st |}.

Definition labelMap : list (string * value) :=
  [("intent_classification", VStr "Understanding your request");
   ("greeting", VStr "Responding");
   ("text_to_sql", VStr "Finding the right data");
   ("execute_sql_query", VStr "Pulling data");
   ("summarizer", VStr "Summarizing insights");
   ("clarification_agent", VStr "Need more details");
   ("visualization", VStr "Building chart")].

(** The message the 'final' branch builds. *)
Definition aiMessage (clock : Z) (data : value) : ChatMessage :=
  let streamedAnswer := js_or (opt_get data "final_answer") (VStr "") in
  let streamedChart := js_or (opt_get data "visualization_data") VNull in
  {| id := clock + 1;
     role := "assistant";
     content := js_or streamedAnswer (VStr "No response message");
     timestamp := clock;
     data_context := js_or (opt_get data "query_result") VNull;
     chart_data := ApiService.sanitizeChartData streamedChart;
     isError := false |}.

(** The event callback [handleSendMessage] gives to [startChatStream],
    for events on which the lookup [labelMap[node]] stays within the
    literal ([ChatBotLabels.own_lookup] below): the node is then made a
    property key without throwing, and the key is looked up among the
    literal's own keys.  What the callback does to the transcript, the
    flags and the streams does not depend on the lookup. *)
Definition onStreamEvent (r : render) (evt : value) (st : state) : state :=
  if strict_eq (opt_get evt "type") (VStr "node_update") then
    let st := setIsTyping true st in
    let node := js_or (opt_get evt "node") (opt_get (opt_get evt "data") "node") in
    if truthy node then
      let label := js_or (default VUndef (assoc (ToString node) labelMap)) node in
      setProgressSteps
        (λ prev, if strict_eq (default VUndef (last prev)) label then prev
                 else (prev ++ [label])%list) st
    else st
  else if strict_eq (opt_get evt "type") (VStr "final") then
    let data := js_or (opt_get evt "data") (VObj []) in
    let streamedAnswer := js_or (opt_get data "final_answer") (VStr "") in
    let st := setMessages (λ prev, (prev ++ [aiMessage (now st) data])%list) st in
    let st := if r_speechEnabled r && truthy streamedAnswer
              then scheduleSpeech streamedAnswer st else st in
    let st := if negb (r_isOpen r) then setHasNewMessage true st else st in
    setProgressSteps (λ _, []) (setIsLoading false (setIsTyping false st))
  else st.

Definition streamErrorMessage (clock : Z) : ChatMessage :=
  {| id := clock + 1;
     role := "assistant";
     content := VStr "Sorry, the stream encountered an error. Please try again.";
     timestamp := clock;
     data_context := VUndef;
     chart_data := VUndef;
     isError := true |}.

(** The error callback [handleSendMessage] gives to [startChatStream]. *)
Definition onStreamError (err : js_error) (st : state) : state :=
  let st := setMessages (λ prev, (prev ++ [streamErrorMessage (now st)])%list) st in
  setProgressSteps (λ _, []) (setIsLoading false (setIsTyping false st)).

Definition userMessage (clock : Z) (messageText : string) : ChatMessage :=
  {| id := clock;
     role := "user";
     content := VStr messageText;
     timestamp := clock;
     data_context := VUndef;
     chart_data := VUndef;
     isError := false |}.

(** [handleSendMessage]; [startChatStream] itself does not throw, so the
    handler's [catch] is not reached. *)
Definition handleSendMessage (r : render) (messageText : string) (st : state)
    : state :=
  if isEmpty (trim messageText) || r_isLoading r then st
  else
    let st := setMessages (λ prev, (prev ++ [userMessage (now st) messageText])%list) st in
    let st := setProgressSteps (λ _, []) (setIsTyping true (setIsLoading true st)) in
    openStream messageText st.

(** The test of the 'final' branch, [evt?.type === 'final']. *)
Definition is_final (evt : value) : bool :=
  strict_eq (opt_get evt "type") (VStr "final").

(** What the 'final' branch reads, [evt.data || {}]. *)
Definition final_data (evt : value) : value :=
  js_or (opt_get evt "data") (VObj []).

(** The events of a stream delivered in order to the event callback. *)
Definition deliver (r : render) (events : list value) (st : state) : state :=
  fold_left (λ st evt, onStreamEvent r evt st) events st.

(** The stream a send opens, run with the widget's two callbacks.  On
    events with [ChatBotLabels.own_lookup] the event callback does not
    throw. *)
Definition chatStream (JSON_parse : string → option value) (r : render)
    (f : promise fetch_response) (st : state) : state * list string :=
  Stream.startChatStream JSON_parse
    (Some (λ evt st, (onStreamEvent r evt st, false)))
    (Some onStreamError) f (st, []).

End ChatBot.

(** ** The label lookup of the chat widget *)

Module ChatBotLabels.

(** The names of the members of [Object.prototype], which the literal
    [labelMap] inherits. *)
Definition inherited_names : list string :=
  ["constructor"; "__defineGetter__"; "__defineSetter__"; "hasOwnProperty";
   "__lookupGetter__"; "__lookupSetter__"; "isPrototypeOf";
   "propertyIsEnumerable"; "toString"; "valueOf"; "__proto__";
   "toLocaleString"].

(** [evt?.node || evt?.data?.node]. *)
Definition node_of (evt : value) : value :=
  js_or (opt_get evt "node") (opt_get (opt_get evt "data") "node").

(** The events on which [labelMap[node]] stays within the literal: the
    event is not a progress update, or it names no node, or its node can
    be made a property key and that key is not an inherited name. *)
Definition own_lookup (evt : value) : bool :=
  negb (strict_eq (opt_get evt "type") (VStr "node_update"))
  || negb (truthy (node_of evt))
  || (negb (ToPrimitive_throws (node_of evt))
      && negb (existsb (String.eqb (ToString (node_of evt))) inherited_names)).

End ChatBotLabels.

(** ** Reading properties of values that may be [null] *)

(** [o.k]: a TypeError ([None]) on [null] and [undefined]. *)
Definition member (o : value) (k : string) : option value :=
  match o with
  | VUndef | VNull => None
  | _ => Some (opt_get o k)
  end.

(** [Object.values(v)], the property list being in enumeration order. *)
Definition object_values (v : value) : list value :=
  match v with
  | VObj props => map snd props
  | VArr items => items
  | VStr s => map (λ c, VStr (String c "")) (list_ascii_of_string s)
  | _ => []
  end.

(** The receiver of [.map], [.forEach], [.find] and [.slice(..).map]: a
    parsed value has these methods only when it is an array; on anything
    else that is not [null] the call is a TypeError ([None]). *)
Definition as_array (v : value) : option (list value) :=
  match v with
  | VArr items => Some items
  | _ => None
  end.

(** *** Rankings the views can read *)

(** A ranking row whose supplier and average the charts can read: the
    row is not [null], and its [average] is not an object carrying a
    truthy [toFixed], which would be called, nor a value whose conversion
    to a number throws. *)
Definition row_ok (r : value) : bool :=
  match r with
  | VUndef | VNull => false
  | _ =>
      negb (truthy (opt_get (opt_get r "average") "toFixed"))
      && negb (ToPrimitive_throws (opt_get r "average"))
  end.

(** A ranking: absent, or an array of such rows. *)
Definition ranking_ok (list : value) : bool :=
  match list with
  | VUndef | VNull => true
  | VArr rows => forallb row_ok rows
  | _ => false
  end.

(** The [rankings] field: absent, or holding such rankings only. *)
Definition rankings_ok (rankings : value) : bool :=
  forallb ranking_ok (object_values rankings).

(** A ranking whose rows can be searched by supplier: absent, or an array
    without [null] entries. *)
Definition row_present (r : value) : bool :=
  match r with
  | VUndef | VNull => false
  | _ => true
  end.

Definition ranking_readable (list : value) : bool :=
  match list with
  | VUndef | VNull => true
  | VArr rows => forallb row_present rows
  | _ => false
  end.

Definition rankings_readable (rankings : value) : bool :=
  forallb ranking_readable (object_values rankings).

(** ** The dashboard page of the first client ([Dashboard]) *)

Module Dashboard.
Import Net.

Record state := {
  dashboardData : value;
  loading : bool;
  error : option string;
  availableSuppliers : list value;
  selectedSuppliers : list value
}.

Definition initial : state :=
  {| dashboardData := VNull; loading := true; error := None;
     availableSuppliers := []; selectedSuppliers := [] |}.

Definition setDashboardData (d : value) (st : state) : state :=
  {| dashboardData := d; loading := loading st; error := error st;
     availableSuppliers := availableSuppliers st;
     selectedSuppliers := selectedSuppliers st |}.

Definition setLoading (b : bool) (st : state) : state :=
  {| dashboardData := dashboardData st; loading := b; error := error st;
     availableSuppliers := availableSuppliers st;
     selectedSuppliers := selectedSuppliers st |}.

Definition setError (e : option string) (st : state) : state :=
  {| dashboardData := dashboardData st; loading := loading st; error := e;
     availableSuppliers := availableSuppliers st;
     selectedSuppliers := selectedSuppliers st |}.

Definition setSuppliers (suppliers : list value) (st : state) : state :=
  {| dashboardData := dashboardData st; loading := loading st;
     error := error st;
     availableSuppliers := suppliers;
     selectedSuppliers := take 3 suppliers |}.

(** [Object.keys(r).length > 0 ? r[Object.keys(r)[0]]?.map(item =>
    item.supplier) || [] : []]. *)
Definition firstRankingSuppliers (rankings : value) : option (list value) :=
  match object_values rankings with
  | [] => Some []
  | first :: _ =>
      match first with
      | VUndef | VNull => Some []
      | _ => items ← as_array first; mapM (λ item, member item "supplier") items
      end
  end.

(** The [try] block of [fetchDashboardData], over what
    [api.getDashboardData()] settled to: the state it reaches, and
    whether it threw. *)
Definition fetch_try (r : promise value) (st : state) : state * bool :=
  match r with
  | Rejected _ => (st, true)
  | Resolved response =>
      match member response "data" with
      | None => (st, true)
      | Some inner =>
          let data := js_or (opt_get inner "data") (js_or inner response) in
          let st := setDashboardData data st in
          match member data "rankings" with
          | None => (st, true)
          | Some rankings =>
              if truthy rankings then
                match firstRankingSuppliers rankings with
                | None => (st, true)
                | Some suppliers => (setSuppliers suppliers st, false)
                end
              else (st, false)
          end
      end
  end.

(** [fetchDashboardData]. *)
Definition fetchDashboardData (r : promise value) (st : state) : state :=
  let tried := fetch_try r (setError None (setLoading true st)) in
  let st := if tried.2
            then setError (Some "Failed to load dashboard data") tried.1
            else tried.1 in
  setLoading false st.

(** What the component returns: one of its three early returns, or the
    page body below them. *)
Inductive view :=
| LoadingSpinner
| ErrorAlert (message : string)
| NoDashboardData
| DashboardBody.

(** The early returns of the component function.  Nothing above them
    evaluates the fetched data. *)
Definition render (st : state) : view :=
  if loading st then LoadingSpinner
  else
    match error st with
    | Some message =>
        if negb (JsString.isEmpty message) then ErrorAlert message
        else if negb (truthy (dashboardData st))
                || negb (truthy (opt_get (dashboardData st) "timeSeries"))
             then NoDashboardData else DashboardBody
    | None =>
        if negb (truthy (dashboardData st))
           || negb (truthy (opt_get (dashboardData st) "timeSeries"))
        then NoDashboardData else DashboardBody
    end.

(** Mounting the page: the fetch, then the render that follows it. *)
Definition mounted (body : promise http_response) : view :=
  render (fetchDashboardData (LegacyApi.getDashboardData body) initial).

End Dashboard.

(** ** The charts component ([SupplierDashboardCharts]) *)

Module SupplierDashboardCharts.

(** [(rankings[kpiName] || [])] as the receiver of an array method. *)
Definition rows_of (rankings : value) (kpiName : string) : option (list value) :=
  as_array (js_or (opt_get rankings kpiName) (VArr [])).

(** [Number(r.average?.toFixed ? r.average.toFixed(2) : r.average) || 0]:
    only whether it throws is modelled (the number itself is a rendering
    of a float).  It throws when [r] is [null]; when [r.average] has a
    truthy [toFixed] that is not callable, which for parsed values means
    an object carrying that property; and when [Number] cannot convert
    [r.average] to a primitive.  (A number's own [toFixed] is callable and
    returns a string.) *)
Definition average_value (r : value) : option unit :=
  average ← member r "average";
  match average with
  | VObj props =>
      if truthy (default VUndef (assoc "toFixed" props)) then None
      else if ToPrimitive_throws average then None else Some ()
  | _ => if ToPrimitive_throws average then None else Some ()
  end.

(** [buildSupplierBar(kpiName)]: its labels. *)
Definition buildSupplierBar (rankings : value) (kpiName : string)
    : option (list value) :=
  rows ← rows_of rankings kpiName;
  let rows := take 12 rows in
  labels ← mapM (λ r, member r "supplier") rows;
  _ ← mapM average_value rows;
  Some labels.

(** [Array.from(new Set(..))]: first occurrences, up to [===]. *)
Fixpoint dedup (seen l : list value) : list value :=
  match l with
  | [] => []
  | x :: rest =>
      if existsb (strict_eq x) seen then dedup seen rest
      else x :: dedup (x :: seen) rest
  end.

(** The [allSuppliers] memo. *)
Definition allSuppliers (rankings : value) : option (list value) :=
  lists ← mapM (λ list, rows ← as_array (js_or list (VArr []));
                        mapM (λ r, member r "supplier") rows)
               (object_values (js_or rankings (VObj [])));
  Some (dedup [] (concat lists)).

Definition radarKpis : list string :=
  ["okDeliveryPercent"; "partsPerTrip"; "vehicleTAT"; "machineDowntimeHrs"; "accidents"].

(** [rows.find(r => r.supplier === supplier)]. *)
Fixpoint find_row (supplier : value) (rows : list value) : option value :=
  match rows with
  | [] => Some VUndef
  | r :: rest =>
      s ← member r "supplier";
      if strict_eq s supplier then Some r else find_row supplier rest
  end.

(** The [radarData] memo; of the series only the row lookups and the
    column reads can throw, the normalisation is arithmetic. *)
Definition radarData (rankings : value) (selectedSuppliers : list value)
    : option (list value) :=
  found ← mapM (λ k, rows ← rows_of rankings k;
                     mapM (λ r, member r "supplier") rows) radarKpis;
  let defaultSuppliers := take 5 (dedup [] (concat found)) in
  let suppliers := match selectedSuppliers with
                   | [] => defaultSuppliers
                   | _ => take 8 selectedSuppliers
                   end in
  _ ← mapM (λ supplier,
              _ ← mapM (λ k, rows ← rows_of rankings k; find_row supplier rows) radarKpis;
              mapM (λ k, rows ← rows_of rankings k;
                         mapM (λ r, member r "average") rows) radarKpis)
           suppliers;
  Some suppliers.

(** The [kpiComparisonOption] memo (its KPIs are the radar's). *)
Definition kpiComparisonOption (rankings : value)
    (selectedSuppliers all : list value) : option (list value) :=
  let suppliers := match selectedSuppliers with
                   | [] => take 5 all
                   | _ => selectedSuppliers
                   end in
  _ ← mapM (λ k, mapM (λ supplier, rows ← rows_of rankings k;
                                   find_row supplier rows) suppliers)
           radarKpis;
  Some suppliers.

(** The [supplierTrendOption] memo. *)
Definition supplierTrendOption (rankings : value)
    (selectedSuppliers all : list value) : option (list value) :=
  let suppliers := match selectedSuppliers with
                   | [] => take 5 all
                   | _ => take 8 selectedSuppliers
                   end in
  _ ← mapM (λ supplier, rows ← rows_of rankings "quantityShipped";
                        find_row supplier rows) suppliers;
  Some suppliers.

(** What the component returns: the early return, or the charts. *)
Inductive view :=
| LoadingAlert (text : string)
| ChartsBody.

(** The component function down to [if (isLoading) return ...]; [None]
    when evaluating it throws.  The reads of [summary], [metadata],
    [timeSeries] and [performanceMatrix] go through [?.] and cannot
    throw. *)
Definition render (data : value) (selectedSuppliers : list value)
    : option view :=
  let analytics := js_or (opt_get data "data") data in
  let isLoading := negb (truthy analytics)
                   || negb (truthy (opt_get analytics "summary"))
                   || negb (truthy (opt_get analytics "timeSeries")) in
  let rankings := js_or (opt_get analytics "rankings") (VObj []) in
  _ ← buildSupplierBar rankings "quantityShipped";
  _ ← buildSupplierBar rankings "partsPerTrip";
  _ ← buildSupplierBar rankings "vehicleTAT";
  _ ← buildSupplierBar rankings "machineDowntimeHrs";
  _ ← buildSupplierBar rankings "okDeliveryPercent";
  _ ← buildSupplierBar rankings "machineBreakdowns";
  all ← allSuppliers rankings;
  _ ← radarData rankings selectedSuppliers;
  _ ← buildSupplierBar rankings "trips";
  _ ← kpiComparisonOption rankings selectedSuppliers all;
  _ ← supplierTrendOption rankings selectedSuppliers all;
  if isLoading then Some (LoadingAlert "Loading supplier dashboard...")
  else Some ChartsBody.

End SupplierDashboardCharts.

(** ** Example data *)

Module Examples.
Import Net JsString.

(** JSON text written with ['] for the double quote. *)
Fixpoint dq (s : string) : string :=
  match s with
  | "" => ""
  | String c rest =>
      String (if Ascii.eqb c "'"%char then ascii_of_nat 34 else c) (dq rest)
  end.

Definition greeting_text : string := dq "{'type':'node_update','node':'greeting'}".
Definition greeting_event : value :=
  VObj [("type", VStr "node_update"); ("node", VStr "greeting")].

Definition summarizer_text : string := dq "{'type':'node_update','node':'summarizer'}".
Definition summarizer_event : value :=
  VObj [("type", VStr "node_update"); ("node", VStr "summarizer")].

Definition final_text : string := dq "{'type':'final','data':{'final_answer':'42 suppliers'}}".
Definition final_data : value := VObj [("final_answer", VStr "42 suppliers")].
Definition final_event : value :=
  VObj [("type", VStr "final"); ("data", final_data)].

(** What [JSON.parse] does on the texts of the examples. *)
Definition parse : string → option value :=
  Stream.parse_table
    [(greeting_text, greeting_event);
     (summarizer_text, summarizer_event);
     (final_text, final_event)].

(** Four frames: a progress update, a data line that is not JSON, a frame
    without a data line, and the final answer. *)
Definition frames : list string :=
  ["data: " +:+ greeting_text;
   "data: {not json";
   "event: ping";
   "data: " +:+ final_text].

(** Their body, read in three chunks that cut through frames. *)
Definition chunks : list string :=
  let body := Stream.serialize frames in
  [slice_to 20 body; slice_to 50 (slice_from 20 body); slice_from 70 body].

(** The error axios raises for a 404 whose body carries a [detail]. *)
Definition not_found : js_error :=
  {| err_name := "AxiosError";
     err_message := "Request failed with status code 404";
     err_response :=
       Some {| resp_status := 404;
               resp_data := VObj [("detail", VStr "Not found")] |};
     err_request := true |}.

(** A stand-in for [JSON.stringify] in examples that never reach it. *)
Definition stringify (v : value) : string := "{}".

(** A [/chat] answer whose [query_result] is not JSON. *)
Definition answer_with_bad_rows : http_response :=
  {| resp_status := 200;
     resp_data := VObj [("final_answer", VStr "42 suppliers");
                        ("query_result", VStr "{not json")] |}.

(** A [/chat] answer whose text is not a string. *)
Definition answer_with_number : http_response :=
  {| resp_status := 200;
     resp_data := VObj [("final_answer", VObj [("text", VNum 5)])] |}.

(** Upload failures: an empty [detail], and the list of validation errors
    the server sends with status 422. *)
Definition upload_failure (status : nat) (body : value) : promise fetch_response :=
  Resolved {| f_ok := false; f_status := status; f_json := Resolved body;
              f_body := None |}.

Definition not_excel : value :=
  VObj [("detail", VStr "Only Excel files are allowed")].

Definition empty_detail : value := VObj [("detail", VStr "")].

Definition validation_errors : value :=
  VObj [("detail", VArr [VObj [("msg", VStr "field required")]])].

(** A [/dashboard] payload without [timeSeries] whose ranking is keyed by
    supplier instead of being an array of rows. *)
Definition keyed_rankings : value :=
  VObj [("summary", VObj [("totalSuppliers", VNum 1)]);
        ("rankings", VObj [("quantityShipped", VObj [("Acme", VNum 10)])])].

(** A [/dashboard] response without [timeSeries], as the server wraps it. *)
Definition summary_only : list (string * value) :=
  [("summary", VObj [("totalSuppliers", VNum 1)]);
   ("rankings",
     VObj [("quantityShipped",
             VArr [VObj [("supplier", VStr "Acme"); ("average", VNum 10)]])])].

Definition wrapped_summary_only : value :=
  VObj [("message", VStr "ok"); ("data", VObj summary_only);
        ("totalSuppliers", VNum 1)].

(** The same body as the bytes of three reads. *)
Definition byte_reads : list (list Byte.byte) :=
  map list_byte_of_string chunks.

(** A widget that has just sent a question. *)
Definition waiting : ChatBot.state :=
  {| ChatBot.messages := [ChatBot.userMessage 1000 "How many suppliers?"];
     ChatBot.isLoading := true;
     ChatBot.isTyping := true;
     ChatBot.progressSteps := [];
     ChatBot.hasNewMessage := false;
     ChatBot.speech := [];
     ChatBot.streams := ["How many suppliers?"];
     ChatBot.now := 1000 |}.

Definition open_chat : ChatBot.render :=
  {| ChatBot.r_isLoading := false; ChatBot.r_isOpen := true;
     ChatBot.r_speechEnabled := false |}.

Definition busy_chat : ChatBot.render :=
  {| ChatBot.r_isLoading := true; ChatBot.r_isOpen := true;
     ChatBot.r_speechEnabled := false |}.

End Examples.

(** Insights model: [handleRemoveInsight] of UnifiedSafetyDashboard.js. *)
Module Insights.

(** [prev.insights.filter((_, idx) => idx !== indexToRemove)], written as
    the index-passing filter of Array.prototype.filter. *)
Fixpoint filter_idx {A} (keep : A → nat → bool) (idx : nat) (l : list A) : list A :=
  match l with
  | [] => []
  | x :: rest =>
      if keep x idx then x :: filter_idx keep (S idx) rest
      else filter_idx keep (S idx) rest
  end.

(** The [aiAnalysis] state: [null] or [{ insights }]. *)
Definition aiAnalysis := option (list value).

(** First state update of [handleRemoveInsight]. *)
Definition removeInsight (indexToRemove : nat) (prev : aiAnalysis) : aiAnalysis :=
  match prev with
  | None => None
  | Some insights =>
      Some (filter_idx (λ _ idx, negb (Nat.eqb idx indexToRemove)) 0 insights)
  end.

(** Body of the [forEach] callback of the second state update.  The keys of
    [insightFeedback] are written by [handleInsightFeedback] with list
    indices, so [Number(k)] is that index and is never NaN. *)
Definition reindex_step (indexToRemove : nat) (idx : nat) (fb : value)
    (updated : gmap nat value) : gmap nat value :=
  if Nat.ltb idx indexToRemove then <[idx := fb]> updated
  else if Nat.ltb indexToRemove idx then <[idx - 1 := fb]> updated
  else updated.

(** Second state update of [handleRemoveInsight]. *)
Definition reindexFeedback (indexToRemove : nat) (prev : gmap nat value)
    : gmap nat value :=
  map_fold (reindex_step indexToRemove) ∅ prev.

(** [handleInsightFeedback]. *)
Definition handleInsightFeedback (index : nat) (feedbackType : value)
    (prev : gmap nat value) : gmap nat value :=
  <[index := feedbackType]> prev.

(** [handleRemoveInsight] on the pair of states it updates. *)
Definition handleRemoveInsight (indexToRemove : nat)
    (st : aiAnalysis * gmap nat value) : aiAnalysis * gmap nat value :=
  (removeInsight indexToRemove st.1, reindexFeedback indexToRemove st.2).

End Insights.

(** ** Lines of a frame *)

Module FrameLines.
Import JsString.

(** A text without a newline. *)
Fixpoint single_line (s : string) : bool :=
  match s with
  | "" => true
  | String c rest => negb (Ascii.eqb c LF) && single_line rest
  end.

(** [lines.join('\n')]. *)
Definition join_lines (lines : list string) : string :=
  String.concat (String LF "") lines.

End FrameLines.

(** ** The chat widget over time *)

Module ChatBotRun.
Import Net JsString ChatBot.

(** The platform's clock moving on. *)
Definition advance (t : Z) (st : state) : state :=
  {| messages := messages st; isLoading := isLoading st;
     isTyping := isTyping st; progressSteps := progressSteps st;
     hasNewMessage := hasNewMessage st; speech := speech st;
     streams := streams st; now := t |}.

(** The render a click on send reaches: the busy flag is the state's. *)
Definition render_at (isOpen speechEnabled : bool) (st : state) : render :=
  {| r_isLoading := isLoading st; r_isOpen := isOpen;
     r_speechEnabled := speechEnabled |}.

(** What happens to the widget: a send from the current render, an event
    or an error of a stream (its callbacks hold the render of the send
    that opened it), and time passing. *)
Inductive action :=
| Send (isOpen speechEnabled : bool) (messageText : string)
| Event (r : render) (evt : value)
| Failure (err : js_error)
| Tick (t : Z).

Definition step (a : action) (st : state) : state :=
  match a with
  | Send isOpen speechEnabled messageText =>
      handleSendMessage (render_at isOpen speechEnabled st) messageText st
  | Event r evt => onStreamEvent r evt st
  | Failure err => onStreamError err st
  | Tick t => advance t st
  end.

Definition run (actions : list action) (st : state) : state :=
  fold_left (λ st a, step a st) actions st.

(** No two neighbours of the list are [===]. *)
Fixpoint no_repeat (steps : list value) : bool :=
  match steps with
  | x :: (y :: _) as rest => negb (strict_eq x y) && no_repeat rest
  | _ => true
  end.

(** An action that does not end a stream: anything but a 'final' event
    and an error. *)
Definition quiet (a : action) : bool :=
  match a with
  | Event _ evt => negb (is_final evt)
  | Failure _ => false
  | _ => true
  end.

Definition is_user (m : ChatMessage) : bool := String.eqb (role m) "user".

End ChatBotRun.

(** ** The chat widget's session ([initializeConversation],
    [handleClearChat], [handleToggleChat]) *)

Module ChatBotSession.
Import Net JsString ChatBot.

Record widget := {
  chat : state;
  sessionId : value;
  isOpen : bool;
  isFullscreen : bool;
  speechEnabled : bool
}.

Definition on_chat (f : state → state) (w : widget) : widget :=
  {| chat := f (chat w); sessionId := sessionId w; isOpen := isOpen w;
     isFullscreen := isFullscreen w; speechEnabled := speechEnabled w |}.

Definition setSessionId (v : value) (w : widget) : widget :=
  {| chat := chat w; sessionId := v; isOpen := isOpen w;
     isFullscreen := isFullscreen w; speechEnabled := speechEnabled w |}.

Definition setIsOpen (b : bool) (w : widget) : widget :=
  {| chat := chat w; sessionId := sessionId w; isOpen := b;
     isFullscreen := isFullscreen w; speechEnabled := speechEnabled w |}.

Definition setIsFullscreen (b : bool) (w : widget) : widget :=
  {| chat := chat w; sessionId := sessionId w; isOpen := isOpen w;
     isFullscreen := b; speechEnabled := speechEnabled w |}.

Definition greeting : value :=
  VStr "Hello! I'm your AI assistant. How can I assist you?".

Definition welcomeMessage (clock : Z) (response : value) : ChatMessage :=
  {| id := clock;
     role := "assistant";
     content := greeting;
     timestamp := clock;
     data_context := opt_get response "data_context";
     chart_data := opt_get response "chart_data";
     isError := false |}.

Definition fallbackMessage (clock : Z) : ChatMessage :=
  {| id := clock;
     role := "assistant";
     content := greeting;
     timestamp := clock;
     data_context := VUndef;
     chart_data := VUndef;
     isError := false |}.

(** The [catch] block of [initializeConversation]. *)
Definition fallbackSession (clock : Z) (w : widget) : widget :=
  setSessionId (VStr ("fallback-session-" +:+ pretty clock))
    (on_chat (setMessages (λ _, [fallbackMessage clock])) w).

(** [initializeConversation], over what [ApiService.startConversation()]
    settled to. *)
Definition initializeConversation (started : promise value) (w : widget)
    : widget :=
  let clock := now (chat w) in
  let w := on_chat (setIsLoading true) w in
  let w := match started with
           | Resolved response =>
               if truthy response && truthy (opt_get response "success")
               then on_chat (setMessages (λ _, [welcomeMessage clock response]))
                      (setSessionId (opt_get response "session_id") w)
               else fallbackSession clock w
           | Rejected _ => fallbackSession clock w
           end in
  on_chat (setIsLoading false) w.

(** The effect on [[isOpen, sessionId]]. *)
Definition openEffect (started : promise value) (w : widget) : widget :=
  if isOpen w && negb (truthy (sessionId w))
  then initializeConversation started w else w.

(** [handleClearChat], over what [clearConversation] and
    [startConversation] settled to. *)
Definition handleClearChat (cleared started : promise value) (w : widget)
    : widget :=
  match (if truthy (sessionId w) then cleared else Resolved VUndef) with
  | Rejected _ => w
  | Resolved _ =>
      initializeConversation started
        (setSessionId VNull (on_chat (setMessages (λ _, [])) w))
  end.

(** [handleToggleChat]. *)
Definition handleToggleChat (w : widget) : widget :=
  let newIsOpen := negb (isOpen w) in
  let w' := setIsFullscreen false (setIsOpen newIsOpen w) in
  if hasNewMessage (chat w) then on_chat (setHasNewMessage false) w' else w'.

(** What the handlers of the current render captured. *)
Definition render_of (w : widget) : render :=
  {| r_isLoading := isLoading (chat w); r_isOpen := isOpen w;
     r_speechEnabled := speechEnabled w |}.

(** [handleSendMessage] of the current render. *)
Definition handleSendMessage (messageText : string) (w : widget) : widget :=
  on_chat (ChatBot.handleSendMessage (render_of w) messageText) w.

End ChatBotSession.

(** ** Example data for the widget's session *)

Module SessionExamples.

(** An open widget that is waiting for the answer to its question. *)
Definition waiting_open : ChatBotSession.widget :=
  {| ChatBotSession.chat := Examples.waiting;
     ChatBotSession.sessionId := VStr "convbi_900";
     ChatBotSession.isOpen := true;
     ChatBotSession.isFullscreen := false;
     ChatBotSession.speechEnabled := false |}.

(** An open widget with nothing in flight. *)
Definition idle_open : ChatBotSession.widget :=
  ChatBotSession.on_chat (ChatBot.onStreamEvent Examples.open_chat Examples.final_event)
    waiting_open.

End SessionExamples.

(** ** Example data for the chart methods *)

Module ChartExamples.

(** A [/dashboard/charts] body whose [charts] is [null] and which carries
    a [success] flag of its own. *)
Definition null_charts : list (string * value) :=
  [("status", VStr "success"); ("charts", VNull); ("success", VStr "yes")].

End ChartExamples.

(** ** The supplier dashboard page ([UnifiedSafetyDashboard]) *)

Module UnifiedSafetyDashboard.
Import Net.

Record state := {
  data : value;
  loading : bool;
  error : value;
  aiEnabled : bool;
  aiAnalysis : value;
  aiLoading : bool;
  aiError : value;
  insightFeedback : gmap nat value;
  loadingMoreInsights : bool
}.

Definition initial : state :=
  {| data := VNull; loading := false; error := VNull; aiEnabled := false;
     aiAnalysis := VNull; aiLoading := false; aiError := VNull;
     insightFeedback := ∅; loadingMoreInsights := false |}.

Definition setData (v : value) (st : state) : state :=
  {| data := v; loading := loading st; error := error st;
     aiEnabled := aiEnabled st; aiAnalysis := aiAnalysis st;
     aiLoading := aiLoading st; aiError := aiError st;
     insightFeedback := insightFeedback st;
     loadingMoreInsights := loadingMoreInsights st |}.

Definition setLoading (b : bool) (st : state) : state :=
  {| data := data st; loading := b; error := error st;
     aiEnabled := aiEnabled st; aiAnalysis := aiAnalysis st;
     aiLoading := aiLoading st; aiError := aiError st;
     insightFeedback := insightFeedback st;
     loadingMoreInsights := loadingMoreInsights st |}.

Definition setError (v : value) (st : state) : state :=
  {| data := data st; loading := loading st; error := v;
     aiEnabled := aiEnabled st; aiAnalysis := aiAnalysis st;
     aiLoading := aiLoading st; aiError := aiError st;
     insightFeedback := insightFeedback st;
     loadingMoreInsights := loadingMoreInsights st |}.

Definition setAiEnabled (b : bool) (st : state) : state :=
  {| data := data st; loading := loading st; error := error st;
     aiEnabled := b; aiAnalysis := aiAnalysis st;
     aiLoading := aiLoading st; aiError := aiError st;
     insightFeedback := insightFeedback st;
     loadingMoreInsights := loadingMoreInsights st |}.

Definition setAiAnalysis (v : value) (st : state) : state :=
  {| data := data st; loading := loading st; error := error st;
     aiEnabled := aiEnabled st; aiAnalysis := v;
     aiLoading := aiLoading st; aiError := aiError st;
     insightFeedback := insightFeedback st;
     loadingMoreInsights := loadingMoreInsights st |}.

Definition setAiLoading (b : bool) (st : state) : state :=
  {| data := data st; loading := loading st; error := error st;
     aiEnabled := aiEnabled st; aiAnalysis := aiAnalysis st;
     aiLoading := b; aiError := aiError st;
     insightFeedback := insightFeedback st;
     loadingMoreInsights := loadingMoreInsights st |}.

Definition setAiError (v : value) (st : state) : state :=
  {| data := data st; loading := loading st; error := error st;
     aiEnabled := aiEnabled st; aiAnalysis := aiAnalysis st;
     aiLoading := aiLoading st; aiError := v;
     insightFeedback := insightFeedback st;
     loadingMoreInsights := loadingMoreInsights st |}.

Definition setLoadingMoreInsights (b : bool) (st : state) : state :=
  {| data := data st; loading := loading st; error := error st;
     aiEnabled := aiEnabled st; aiAnalysis := aiAnalysis st;
     aiLoading := aiLoading st; aiError := aiError st;
     insightFeedback := insightFeedback st;
     loadingMoreInsights := b |}.

(** [e?.message || fallback] for a caught error. *)
Definition message_or (e : js_error) (fallback : string) : value :=
  js_or (VStr (err_message e)) (VStr fallback).

(** [loadData], over what [ApiService.getSupplierDashboardAnalytics()]
    settled to. *)
Definition loadData (r : promise value) (st : state) : state :=
  let st := setError VNull (setLoading true st) in
  let st := match r with
            | Resolved resp => setData resp st
            | Rejected e =>
                setError (message_or e "Failed to load supplier dashboard") st
            end in
  setLoading false st.

(** [fetchSupplierInsights], over what
    [ApiService.getSupplierGeneralInsights(refresh)] settled to. *)
Definition fetchSupplierInsights (r : promise value) (st : state) : state :=
  let st := setAiError VNull (setAiLoading true st) in
  let st := match r with
            | Resolved resp =>
                let insights := js_or (opt_get resp "general_insights") (VArr []) in
                setAiAnalysis (VObj [("insights", insights)]) st
            | Rejected e => setAiError (message_or e "Failed to load insights") st
            end in
  setAiLoading false st.

(** [handleAIToggle]. *)
Definition handleAIToggle (enabled : bool) (r : promise value) (st : state)
    : state :=
  let st := setAiEnabled enabled st in
  if enabled then fetchSupplierInsights r st else st.

(** The elements [[...v]] copies; [None] is the TypeError of spreading a
    value that is not iterable.  Of parsed values, arrays and strings
    are. *)
Definition iterate (v : value) : option (list value) :=
  match v with
  | VArr items => Some items
  | VStr s => Some (map (λ c, VStr (String c "")) (list_ascii_of_string s))
  | _ => None
  end.

(** The state updater of [handleGenerateMoreInsights]. *)
Definition appendInsights (additional prev : value) : option value :=
  old ← iterate (js_or (opt_get prev "insights") (VArr []));
  more ← iterate additional;
  Some (VObj [("insights", VArr (old ++ more))]).

(** [handleGenerateMoreInsights] of a render that captured
    [loadingMoreInsights], over what
    [ApiService.generateSupplierAdditionalInsights()] settled to; [None]
    when the state updater throws, which surfaces in the render that
    applies it. *)
Definition handleGenerateMoreInsights (captured : bool) (r : promise value)
    (st : state) : option state :=
  if captured then Some st
  else
    let st := setLoadingMoreInsights true st in
    match r with
    | Resolved resp =>
        let additional := js_or (opt_get resp "additional_insights") (VArr []) in
        analysis ← appendInsights additional (aiAnalysis st);
        Some (setLoadingMoreInsights false (setAiAnalysis analysis st))
    | Rejected e =>
        Some (setLoadingMoreInsights false
                (setAiError (message_or e "Failed to generate more insights") st))
    end.

(** What the card of the page holds. *)
Inductive card :=
| Spinner
| Charts (v : option SupplierDashboardCharts.view).

(** The page: the text of the error banner, if shown, and the card; the
    charts component renders with the suppliers it has selected. *)
Definition render (st : state) (selectedSuppliers : list value)
    : option value * card :=
  (if truthy (error st) then Some (error st) else None,
   if loading st then Spinner
   else Charts (SupplierDashboardCharts.render (data st) selectedSuppliers)).

End UnifiedSafetyDashboard.

(** ** Example data for the supplier page *)

Module PageExamples.

(** An [/insights] body with two insights. *)
Definition two_insights : value :=
  VObj [("general_insights", VArr [VStr "Late deliveries rose"; VStr "Downtime fell"])].

(** A [/generate_more_insights] body with one more. *)
Definition one_more : value :=
  VObj [("additional_insights", VArr [VStr "Trips are stable"])].

End PageExamples.

(** ** Selecting suppliers *)

(** A parsed value that is not an object or an array. *)
Definition primitive (v : value) : bool :=
  match v with
  | VArr _ | VObj _ => false
  | _ => true
  end.

(** [items.includes(x)]; on parsed values, which hold no [NaN], its
    comparison is [===]. *)
Definition includes (items : list value) (x : value) : bool :=
  existsb (strict_eq x) items.

(** [a ?? b]. *)
Definition nullish_or (a b : value) : value :=
  match a with
  | VUndef | VNull => b
  | _ => a
  end.

(** The supplier dropdown of the first client's [Dashboard]. *)
Module DashboardSelection.
Import Dashboard.

Definition setSelectedSuppliers (selected : list value) (st : state) : state :=
  {| dashboardData := dashboardData st; loading := loading st;
     error := error st;
     availableSuppliers := availableSuppliers st;
     selectedSuppliers := selected |}.

(** [handleSupplierSelection], over [event.target.value]. *)
Definition handleSupplierSelection (selected : list value) (st : state) : state :=
  if includes selected (VStr "All Suppliers")
  then setSelectedSuppliers (availableSuppliers st) st
  else setSelectedSuppliers selected st.

(** [isAllSuppliersSelected]. *)
Definition isAllSuppliersSelected (st : state) : bool :=
  Nat.eqb (length (selectedSuppliers st)) (length (availableSuppliers st))
  && forallb (λ supplier, includes (selectedSuppliers st) supplier)
       (availableSuppliers st).

(** [getDropdownValue]. *)
Definition getDropdownValue (st : state) : list value :=
  if isAllSuppliersSelected st then [VStr "All Suppliers"]
  else selectedSuppliers st.

End DashboardSelection.

(** The supplier dropdown and the monthly series of
    [SupplierDashboardCharts]. *)
Module ChartsSelection.

(** The effect on [[allSuppliers, selectedSuppliers.length]]. *)
Definition defaultSelection (allSuppliers selectedSuppliers : list value)
    : list value :=
  if negb (Nat.eqb (length allSuppliers) 0)
     && Nat.eqb (length selectedSuppliers) 0
  then take 3 allSuppliers else selectedSuppliers.

(** [isAllSelected]. *)
Definition isAllSelected (allSuppliers selectedSuppliers : list value) : bool :=
  Nat.eqb (length selectedSuppliers) (length allSuppliers)
  && forallb (λ s, includes selectedSuppliers s) allSuppliers.

(** [handleSupplierSelection], over [event.target.value]: the new
    selection. *)
Definition handleSupplierSelection (allSuppliers targetValue : list value)
    : list value :=
  if includes targetValue (VStr "__ALL__") then allSuppliers else targetValue.

(** [dropdownValue]. *)
Definition dropdownValue (allSuppliers selectedSuppliers : list value)
    : list value :=
  if isAllSelected allSuppliers selectedSuppliers then [VStr "__ALL__"]
  else selectedSuppliers.

(** The button beside the dropdown,
    [setSelectedSuppliers(isAllSelected ? [] : allSuppliers)]. *)
Definition toggleAll (allSuppliers selectedSuppliers : list value)
    : list value :=
  if isAllSelected allSuppliers selectedSuppliers then [] else allSuppliers.

Definition months : list string :=
  ["Jan"; "Feb"; "Mar"; "Apr"; "May"; "Jun";
   "Jul"; "Aug"; "Sep"; "Oct"; "Nov"; "Dec"].

(** [monthsUpToNow], for what [new Date().getMonth()] returned. *)
Definition monthsUpToNow (currentMonthIndex : nat) : list string :=
  take (currentMonthIndex + 1) months.

(** [toSeriesFromMonthlyObj]. *)
Definition toSeriesFromMonthlyObj (monthlyObj : value) : list value :=
  map (λ m, nullish_or (opt_get monthlyObj m) VNull) months.

(** [toSeriesFromMonthlyObj(analytics?.timeSeries?.[kpi]?.monthlyData ||
    {}).slice(0, monthsUpToNow.length)]. *)
Definition monthlySeries (currentMonthIndex : nat) (analytics : value)
    (kpi : string) : list value :=
  take (length (monthsUpToNow currentMonthIndex))
    (toSeriesFromMonthlyObj
       (js_or (opt_get (opt_get (opt_get analytics "timeSeries") kpi) "monthlyData")
          (VObj []))).

End ChartsSelection.

(** ** The comparison data of the first client's [Dashboard] *)

Module DashboardComparison.
Import Dashboard.

Definition comparisonColors : list string :=
  ["#8884d8"; "#82ca9d"; "#ffc658"; "#ff7300"; "#8dd1e1";
   "#d084d0"; "#ff8042"; "#0088fe"; "#00c49f"; "#ffbb28"].

(** [comparisonColors[index % comparisonColors.length]]. *)
Definition color_at (index : nat) : value :=
  VStr (default "" (comparisonColors !! (index mod length comparisonColors)%nat)).

(** [ranking?.find(item => item.supplier === supplier)], for suppliers
    that are primitive values. *)
Definition find_in (ranking supplier : value) : option value :=
  match ranking with
  | VUndef | VNull => Some VUndef
  | _ => rows ← as_array ranking; SupplierDashboardCharts.find_row supplier rows
  end.

(** The [kpiNames.forEach] of one supplier, over the entries of
    [dashboardData.rankings] in the order of [Object.keys]. *)
Fixpoint addKpis (entries : list (string * value)) (supplier : value)
    (supplierData : list (string * value)) : option (list (string * value)) :=
  match entries with
  | [] => Some supplierData
  | (kpi, ranking) :: rest =>
      kpiData ← find_in ranking supplier;
      addKpis rest supplier
        (if truthy kpiData
         then set_prop kpi
                (js_or (opt_get kpiData "average")
                   (js_or (opt_get kpiData "score") (VNum 0)))
                supplierData
         else supplierData)
  end.

(** [getComparisonData]; [None] when it throws. *)
Definition getComparisonData (st : state) : option (list value) :=
  let rankings := opt_get (dashboardData st) "rankings" in
  if negb (truthy rankings) || Nat.eqb (length (selectedSuppliers st)) 0
  then Some []
  else
    mapM (λ p, supplierData ← addKpis (spread rankings) p.2
                                [("supplier", p.2); ("color", color_at p.1)];
               Some (VObj supplierData))
         (imap pair (selectedSuppliers st)).

End DashboardComparison.

(** ** Example data for the dropdowns *)

Module SelectionExamples.

(** A ranking in which one supplier appears under two KPIs. *)
Definition rankings : value :=
  VObj [("quantityShipped",
          VArr [VObj [("supplier", VStr "Acme"); ("average", VNum 10)];
                VObj [("supplier", VStr "Bolt"); ("average", VNum 7)]]);
        ("trips",
          VArr [VObj [("supplier", VStr "Bolt"); ("average", VNum 3)];
                VObj [("supplier", VStr "Core"); ("average", VNum 2)]])].

Definition suppliers : list value := [VStr "Acme"; VStr "Bolt"; VStr "Core"].

(** The first client's page with these suppliers, two of them selected. *)
Definition two_selected : Dashboard.state :=
  {| Dashboard.dashboardData := VObj [("rankings", rankings)];
     Dashboard.loading := false; Dashboard.error := None;
     Dashboard.availableSuppliers := suppliers;
     Dashboard.selectedSuppliers := [VStr "Core"; VStr "Acme"] |}.

(** A payload with data for two months of shipped quantities. *)
Definition two_months : value :=
  VObj [("timeSeries",
          VObj [("quantityShipped",
                  VObj [("monthlyData",
                          VObj [("Jan", VNum 120); ("Mar", VNum 90)])])])].

End SelectionExamples.

(** ** Example data for the rankings *)

Module RankingExamples.

(** A [/dashboard] payload without [timeSeries] in which a row's
    [average] is an object with a [toString] field of its own. *)
Definition unconvertible_average : value :=
  VObj [("summary", VObj [("totalSuppliers", VNum 1)]);
        ("rankings",
          VObj [("quantityShipped",
                  VArr [VObj [("supplier", VStr "Acme");
                              ("average", VObj [("toString", VNum 1)])]])])].

(** A payload without [timeSeries] that has a [data] field of its own,
    which holds a complete payload. *)
Definition nested_data : value :=
  VObj [("summary", VObj [("totalSuppliers", VNum 1)]);
        ("data",
          VObj [("summary", VObj [("totalSuppliers", VNum 1)]);
                ("timeSeries", VObj [("quantityShipped", VObj [])])])].

End RankingExamples.

(** * Properties *)

Module InsightsFacts.
Import Insights.

Lemma filter_idx_past {A} (l : list A) (k base : nat) :
  k < base → filter_idx (λ _ idx, negb (Nat.eqb idx k)) base l = l.
Proof.
  revert base. induction l as [|x l IH]; intros base Hlt; [done|].
  cbn [filter_idx]. destruct (Nat.eqb_spec base k) as [->|_]; [lia|].
  cbn [negb]. f_equal. apply IH. lia.
Qed.

Lemma filter_idx_shift {A} (l : list A) (k base : nat) :
  filter_idx (λ _ idx, negb (Nat.eqb idx (base + k))) base l = delete k l.
Proof.
  revert k base. induction l as [|x l IH]; intros k base; [done|].
  cbn [filter_idx]. destruct (Nat.eqb_spec base (base + k)) as [E|E]; cbn [negb].
  - assert (k = 0) as -> by lia. rewrite Nat.add_0_r.
    cbn. apply filter_idx_past. lia.
  - destruct k as [|k]; [lia|]. cbn. f_equal.
    replace (base + S k) with (S base + k) by lia. apply IH.
Qed.

Lemma reindex_lookup (k : nat) (prev : gmap nat value) (j : nat) :
  reindexFeedback k prev !! j =
    if Nat.ltb j k then prev !! j else prev !! (S j).
Proof.
  unfold reindexFeedback. revert j.
  apply (map_fold_weak_ind
           (λ r m, ∀ j, r !! j = if Nat.ltb j k then m !! j else m !! (S j))).
  - intros j. rewrite !lookup_empty. by destruct (Nat.ltb j k).
  - intros i x m r Hi IH j. unfold reindex_step.
    destruct (Nat.ltb i k) eqn:Eik; [apply Nat.ltb_lt in Eik|apply Nat.ltb_ge in Eik].
    + destruct (decide (i = j)) as [->|Hne].
      * rewrite lookup_insert_eq. apply Nat.ltb_lt in Eik. rewrite Eik.
        by rewrite lookup_insert_eq.
      * rewrite lookup_insert_ne by done. rewrite IH.
        destruct (Nat.ltb j k) eqn:Ejk.
        -- by rewrite lookup_insert_ne.
        -- apply Nat.ltb_ge in Ejk. rewrite lookup_insert_ne by lia. done.
    + destruct (Nat.ltb k i) eqn:Eki; [apply Nat.ltb_lt in Eki|apply Nat.ltb_ge in Eki].
      * destruct (decide (i - 1 = j)) as [<-|Hne].
        -- rewrite lookup_insert_eq.
           assert (Hge : (Nat.ltb (i - 1) k) = false) by (apply Nat.ltb_ge; lia).
           rewrite Hge. replace (S (i - 1)) with i by lia.
           by rewrite lookup_insert_eq.
        -- rewrite lookup_insert_ne by done. rewrite IH.
           destruct (Nat.ltb j k) eqn:Ejk.
           ++ apply Nat.ltb_lt in Ejk. rewrite lookup_insert_ne by lia. done.
           ++ rewrite lookup_insert_ne by lia. done.
      * assert (i = k) as -> by lia. rewrite IH.
        destruct (Nat.ltb j k) eqn:Ejk.
        -- apply Nat.ltb_lt in Ejk. rewrite lookup_insert_ne by lia. done.
        -- apply Nat.ltb_ge in Ejk. rewrite lookup_insert_ne by lia. done.
Qed.

End InsightsFacts.

(** ** Facts about the string operations *)

Module StringFacts.
Import JsString.

Lemma append_nil (s : string) : "" +:+ s = s.
Proof. reflexivity. Qed.

Lemma append_cons (c : ascii) (s t : string) :
  String c s +:+ t = String c (s +:+ t).
Proof. reflexivity. Qed.

Ltac app_simpl := rewrite ?append_nil, ?append_cons in *.

Lemma append_empty_r (s : string) : s +:+ "" = s.
Proof. induction s as [|c s IH]; app_simpl; congruence. Qed.

Lemma append_assoc (a b c : string) : (a +:+ b) +:+ c = a +:+ (b +:+ c).
Proof. induction a as [|x a IH]; app_simpl; congruence. Qed.

Lemma length_append (a b : string) :
  String.length (a +:+ b) = (String.length a + String.length b)%nat.
Proof. induction a as [|x a IH]; app_simpl; simpl; congruence. Qed.

Lemma startsWith_append (needle s t : string) :
  startsWith needle s = true → startsWith needle (s +:+ t) = true.
Proof.
  revert s. induction needle as [|a needle IH]; intros [|b s] H;
    app_simpl; simpl in *; try done.
  apply andb_true_iff in H as [-> H]. simpl. by apply IH.
Qed.

Lemma startsWith_self (needle t : string) :
  startsWith needle (needle +:+ t) = true.
Proof.
  induction needle as [|a needle IH]; app_simpl; simpl; [by destruct t|].
  rewrite Ascii.eqb_refl. by rewrite IH.
Qed.

(** Whether the delimiter starts at a position depends on the two
    characters there only. *)
Lemma startsWith_sep_cons (c d : ascii) (s : string) :
  startsWith sep (String c (String d s)) = Ascii.eqb LF c && Ascii.eqb LF d.
Proof. simpl. by rewrite andb_true_r. Qed.

Lemma indexOf_sep_append (s t : string) (i : nat) :
  indexOf sep s = Some i → indexOf sep (s +:+ t) = Some i.
Proof.
  revert i. induction s as [|c s IH]; intros i H; [done|].
  cbn [indexOf] in H. app_simpl. cbn [indexOf].
  destruct (startsWith sep (String c s)) eqn:E.
  - apply (startsWith_append _ _ t) in E. app_simpl. by rewrite E.
  - destruct (indexOf sep s) as [j|] eqn:Ej; [|done].
    cbn in H. injection H as <-. rewrite (IH j eq_refl).
    destruct s as [|d s]; [done|]. app_simpl.
    rewrite startsWith_sep_cons. rewrite startsWith_sep_cons in E.
    by rewrite E.
Qed.

Lemma slice_to_append (n : nat) (s t : string) :
  (n <= String.length s)%nat → slice_to n (s +:+ t) = slice_to n s.
Proof.
  revert s. induction n as [|n IH]; intros [|c s] H; app_simpl; simpl in *;
    try done; try lia.
  rewrite IH; [done|lia].
Qed.

Lemma slice_from_append (n : nat) (s t : string) :
  (n <= String.length s)%nat → slice_from n (s +:+ t) = slice_from n s +:+ t.
Proof.
  revert s. induction n as [|n IH]; intros [|c s] H; app_simpl; simpl in *;
    try done; try lia.
  apply IH. lia.
Qed.

Lemma slice_to_length (s t : string) : slice_to (String.length s) (s +:+ t) = s.
Proof. induction s as [|c s IH]; app_simpl; simpl; [by destruct t|congruence]. Qed.

Lemma slice_from_length_append (s t : string) :
  slice_from (String.length s) (s +:+ t) = t.
Proof. induction s as [|c s IH]; app_simpl; simpl; [done|congruence]. Qed.

Lemma slice_from_add (n m : nat) (s : string) :
  slice_from (n + m) s = slice_from m (slice_from n s).
Proof.
  revert s. induction n as [|n IH]; intros [|c s]; simpl; try done.
  by destruct m.
Qed.

Lemma concat_cons (x : string) (xs : list string) :
  String.concat "" (x :: xs) = x +:+ String.concat "" xs.
Proof. destruct xs; [by rewrite append_empty_r|done]. Qed.

Lemma startsWith_sep_head (c : ascii) (f t1 t2 : string) :
  startsWith sep (String c (f +:+ String LF t1)) =
  startsWith sep (String c (f +:+ String LF t2)).
Proof. destruct f; app_simpl; by rewrite !startsWith_sep_cons. Qed.

Lemma delimitable_index (frame rest : string) :
  Stream.delimitable frame = true →
  indexOf sep (frame +:+ sep +:+ rest) = Some (String.length frame).
Proof.
  unfold Stream.delimitable.
  change (sep +:+ rest) with (String LF (String LF rest)).
  induction frame as [|c f IH]; intros H.
  - app_simpl. cbn [indexOf]. rewrite startsWith_sep_cons.
    by rewrite Ascii.eqb_refl.
  - revert H. app_simpl. cbn [indexOf].
    rewrite (startsWith_sep_head c f (String LF rest) "").
    destruct (startsWith sep (String c (f +:+ String LF ""))); [done|].
    destruct (indexOf sep (f +:+ String LF "")) eqn:E; [done|]. intros _.
    rewrite IH; done.
Qed.

End StringFacts.

(** ** Facts about the streaming driver *)

Module StreamFacts.
Import Net JsString Stream StringFacts.

Section Driver.
Context {S : Type}.
Variable JSON_parse : string → option value.
Variable onEvent : option (value → S → S * bool).

Local Abbreviation drain := (drain JSON_parse onEvent).
Local Abbreviation on_frame := (on_frame JSON_parse onEvent).
Local Abbreviation read_loop := (read_loop JSON_parse onEvent).

Lemma drain_none (buffer : string) (w : world) :
  indexOf sep buffer = None → drain buffer w = (w, buffer).
Proof.
  intros H. rewrite drain_equation_1.
  generalize (inspect (indexOf sep buffer)). intros [o Ho].
  destruct o as [i|]; [congruence|done].
Qed.

Lemma drain_some (buffer : string) (w : world) (i : nat) :
  indexOf sep buffer = Some i →
  drain buffer w =
    drain (slice_from (i + 2) buffer) (on_frame (slice_to i buffer) w).
Proof.
  intros H. rewrite drain_equation_1.
  generalize (inspect (indexOf sep buffer)). intros [o Ho].
  destruct o as [j|]; [|congruence].
  assert (j = i) as -> by congruence. done.
Qed.

(** The loop leaves a buffer without a complete frame. *)
Lemma drain_leftover (buffer : string) (w : world) :
  indexOf sep (drain buffer w).2 = None.
Proof.
  remember (String.length buffer) as n eqn:Hn.
  revert buffer w Hn. induction (lt_wf n) as [n _ IH]. intros buffer w ->.
  destruct (indexOf sep buffer) as [i|] eqn:E.
  - rewrite (drain_some _ _ _ E).
    eapply IH; [|reflexivity].
    pose proof (indexOf_sep_bound _ _ E).
    rewrite slice_from_length. lia.
  - by rewrite (drain_none _ _ E).
Qed.

(** Text arriving later does not change how the text already buffered
    was framed. *)
Lemma drain_append (buffer text : string) (w : world) :
  drain (buffer +:+ text) w =
    drain ((drain buffer w).2 +:+ text) (drain buffer w).1.
Proof.
  remember (String.length buffer) as n eqn:Hn.
  revert buffer w Hn. induction (lt_wf n) as [n _ IH]. intros buffer w ->.
  destruct (indexOf sep buffer) as [i|] eqn:E.
  - pose proof (indexOf_sep_bound _ _ E) as Hb.
    rewrite (drain_some _ _ _ (indexOf_sep_append _ text _ E)).
    rewrite (drain_some _ _ _ E).
    rewrite slice_to_append by lia. rewrite slice_from_append by lia.
    eapply IH; [|reflexivity]. rewrite slice_from_length. lia.
  - by rewrite (drain_none _ _ E).
Qed.

(** Reading a run of chunks is reading their concatenation at once. *)
Lemma read_loop_chunks (chunks : list string) (rest : list read_result)
    (buffer : string) (w : world) :
  indexOf sep buffer = None →
  read_loop (map ReadChunk chunks ++ rest) buffer w =
    read_loop rest (drain (buffer +:+ String.concat "" chunks) w).2
                   (drain (buffer +:+ String.concat "" chunks) w).1.
Proof.
  revert buffer w. induction chunks as [|c chunks IH]; intros buffer w Hb.
  - cbn [map app String.concat]. rewrite append_empty_r.
    by rewrite (drain_none _ _ Hb).
  - cbn [map app read_loop Stream.read_loop].
    rewrite IH by apply drain_leftover.
    assert (Hc : String.concat "" (c :: chunks) = c +:+ String.concat "" chunks).
    { destruct chunks; [by rewrite append_empty_r|done]. }
    rewrite Hc. rewrite <- append_assoc.
    by rewrite (drain_append (buffer +:+ c)).
Qed.

(** The texts of a body decoded read by read make up the text of the
    body decoded at once. *)
Lemma decode_reads_concat {D : Type} (decode : D → list Byte.byte → D * string)
    (d : D) (values : list (list Byte.byte)) :
  streaming_decoder decode →
  String.concat "" (decode_reads decode d values) = (decode d (concat values)).2.
Proof.
  intros [Hnil Happ]. revert d.
  induction values as [|bytes values IH]; intros d.
  - cbn. by rewrite Hnil.
  - cbn [decode_reads concat]. rewrite concat_cons, IH, Happ. done.
Qed.

Lemma decode_bytes_streaming : streaming_decoder decode_bytes.
Proof.
  split; [done|]. intros [] a b. unfold decode_bytes. cbn [fst snd]. f_equal.
  induction a as [|x a IH]; [done|].
  change (String (ascii_of_byte x) (string_of_list_byte (a ++ b)%list) =
          String (ascii_of_byte x) (string_of_list_byte a +:+ string_of_list_byte b)).
  by rewrite IH.
Qed.

(** A delimited frame at the head of the buffer is taken whole. *)
Lemma drain_frame (frame rest : string) (w : world) :
  delimitable frame = true →
  drain (frame +:+ sep +:+ rest) w = drain rest (on_frame frame w).
Proof.
  intros Hf. rewrite (drain_some _ _ _ (delimitable_index _ rest Hf)).
  rewrite slice_to_length, slice_from_add, slice_from_length_append.
  done.
Qed.

Lemma drain_serialize (frames : list string) (w : world) :
  forallb delimitable frames = true →
  drain (serialize frames) w = (fold_left (λ w f, on_frame f w) frames w, "").
Proof.
  unfold serialize. revert w.
  induction frames as [|f frames IH]; intros w H.
  - by apply drain_none.
  - cbn [forallb] in H. apply andb_true_iff in H as [Hf H].
    cbn [map fold_left]. rewrite concat_cons, append_assoc.
    rewrite drain_frame by done. by apply IH.
Qed.

(** A property of the callbacks' state that the event callback keeps
    is kept by the loops. *)
Section Invariant.
Variable P : S → Prop.
Hypothesis onEvent_keeps :
  ∀ callback evt s, onEvent = Some callback → P s → P (callback evt s).1.

Lemma on_frame_keeps (frame : string) (w : world) :
  P w.1 → P (on_frame frame w).1.
Proof.
  intros Hw. unfold Stream.on_frame. destruct (isEmpty _); [done|].
  unfold dispatch. destruct (find _ _); [|done].
  destruct (JSON_parse _); [|done].
  destruct onEvent as [callback|] eqn:E; [|done].
  specialize (onEvent_keeps callback v w.1 eq_refl Hw).
  by destruct (callback v w.1).2.
Qed.

Lemma drain_keeps (buffer : string) (w : world) :
  P w.1 → P (drain buffer w).1.1.
Proof.
  remember (String.length buffer) as n eqn:Hn.
  revert buffer w Hn. induction (lt_wf n) as [n _ IH]. intros buffer w -> Hw.
  destruct (indexOf sep buffer) as [i|] eqn:E.
  - rewrite (drain_some _ _ _ E).
    eapply IH; [|reflexivity|by apply on_frame_keeps].
    pose proof (indexOf_sep_bound _ _ E).
    rewrite slice_from_length. lia.
  - by rewrite (drain_none _ _ E).
Qed.

Lemma read_loop_keeps (reads : list read_result) (buffer : string)
    (w : world) :
  P w.1 → P (read_loop reads buffer w).1.1.
Proof.
  revert buffer w. induction reads as [|[text| |err] reads IH];
    intros buffer w Hw; cbn [Stream.read_loop]; try done.
  apply IH. by apply drain_keeps.
Qed.
End Invariant.

End Driver.

(** What a frame does to the recording callback and the warning log. *)
Lemma on_frame_record (JSON_parse : string → option value) (frame : string)
    (seen : list callback_call) (log : list string) :
  on_frame JSON_parse record_event frame (seen, log) =
    match classify JSON_parse frame with
    | WellFormed evt => ((seen ++ [EventCall evt])%list, log)
    | NotJson jsonStr => (seen, (log ++ [jsonStr])%list)
    | NoDataLine => (seen, log)
    end.
Proof.
  unfold on_frame, classify, dispatch.
  destruct (isEmpty (trim frame)) eqn:E.
  - apply String.eqb_eq in E. rewrite E. done.
  - destruct (find _ _); [|done]. by destruct (JSON_parse _).
Qed.

Lemma frames_record (JSON_parse : string → option value)
    (frames : list string) (seen : list callback_call) (log : list string) :
  fold_left (λ w f, on_frame JSON_parse record_event f w) frames (seen, log) =
    ((seen ++ map EventCall (events_of JSON_parse frames))%list,
     (log ++ rejects_of JSON_parse frames)%list).
Proof.
  revert seen log. induction frames as [|f frames IH]; intros seen log.
  - cbn. by rewrite !app_nil_r.
  - cbn [fold_left events_of rejects_of flat_map].
    rewrite on_frame_record.
    destruct (classify JSON_parse f); rewrite IH;
      fold (events_of JSON_parse frames); fold (rejects_of JSON_parse frames);
      cbn [app map]; by rewrite ?map_app, <- ?app_assoc.
Qed.

End StreamFacts.

(** ** Facts about the chat widget *)

Module ChatBotFacts.
Import Net JsString ChatBot.

Lemma final_is_not_update (evt : value) :
  is_final evt = true → strict_eq (opt_get evt "type") (VStr "node_update") = false.
Proof.
  unfold is_final. destruct (opt_get evt "type"); try done.
  cbn. intros H. apply String.eqb_eq in H. by subst.
Qed.

Lemma onStreamEvent_now (r : render) (evt : value) (st : state) :
  now (onStreamEvent r evt st) = now st.
Proof.
  unfold onStreamEvent.
  repeat match goal with |- context [if ?b then _ else _] => destruct b end;
    done.
Qed.

Lemma onStreamEvent_messages (r : render) (evt : value) (st : state) :
  messages (onStreamEvent r evt st) =
    if is_final evt
    then (messages st ++ [aiMessage (now st) (final_data evt)])%list
    else messages st.
Proof.
  unfold onStreamEvent. destruct (is_final evt) eqn:E.
  - rewrite (final_is_not_update _ E). unfold is_final in E. rewrite E.
    unfold final_data.
    repeat match goal with |- context [if ?b then _ else _] => destruct b end;
      done.
  - unfold is_final in E. rewrite E.
    repeat match goal with |- context [if ?b then _ else _] => destruct b end;
      done.
Qed.

Lemma onStreamEvent_final (r : render) (evt : value) (st : state) :
  is_final evt = true →
  progressSteps (onStreamEvent r evt st) = [] ∧
  isLoading (onStreamEvent r evt st) = false ∧
  isTyping (onStreamEvent r evt st) = false.
Proof.
  intros E. unfold onStreamEvent.
  rewrite (final_is_not_update _ E). unfold is_final in E. rewrite E. done.
Qed.

Lemma deliver_now (r : render) (events : list value) (st : state) :
  now (deliver r events st) = now st.
Proof.
  revert st. induction events as [|evt events IH]; intros st; [done|].
  cbn [deliver fold_left]. fold (deliver r events (onStreamEvent r evt st)).
  by rewrite IH, onStreamEvent_now.
Qed.

Lemma deliver_messages (r : render) (events : list value) (st : state) :
  messages (deliver r events st) =
    (messages st ++
     map (λ evt, aiMessage (now st) (final_data evt)) (List.filter is_final events))%list.
Proof.
  revert st. induction events as [|evt events IH]; intros st.
  - cbn. by rewrite app_nil_r.
  - cbn [deliver fold_left]. fold (deliver r events (onStreamEvent r evt st)).
    rewrite IH, onStreamEvent_messages, onStreamEvent_now. cbn [List.filter].
    destruct (is_final evt); [|done]. cbn [map]. by rewrite <- app_assoc.
Qed.

Lemma deliver_snoc (r : render) (events : list value) (evt : value) (st : state) :
  deliver r (events ++ [evt]) st = onStreamEvent r evt (deliver r events st).
Proof. unfold deliver. by rewrite fold_left_app. Qed.

End ChatBotFacts.

(** ** Facts about the chat widget over time *)

Module ChatBotMore.
Import Net JsString ChatBot ChatBotRun ChatBotFacts.

Lemma no_repeat_snoc (steps : list value) (label : value) :
  no_repeat steps = true →
  strict_eq (default VUndef (last steps)) label = false →
  no_repeat (steps ++ [label]) = true.
Proof.
  induction steps as [|x [|y rest] IH]; intros Hs Hl.
  - done.
  - cbn in *. by rewrite Hl.
  - cbn [no_repeat] in Hs. apply andb_true_iff in Hs as [Hxy Hs].
    change ((x :: y :: rest) ++ [label])%list
      with (x :: y :: (rest ++ [label]))%list.
    cbn [no_repeat]. rewrite Hxy. cbn [andb].
    apply (IH Hs). by rewrite last_cons_cons in Hl.
Qed.

Lemma onStreamEvent_streams (r : render) (evt : value) (st : state) :
  streams (onStreamEvent r evt st) = streams st.
Proof.
  unfold onStreamEvent.
  repeat match goal with |- context [if ?b then _ else _] => destruct b end;
    done.
Qed.

Lemma onStreamEvent_quiet (r : render) (evt : value) (st : state) :
  is_final evt = false → isLoading (onStreamEvent r evt st) = isLoading st.
Proof.
  unfold is_final, onStreamEvent. intros ->.
  repeat match goal with |- context [if ?b then _ else _] => destruct b end;
    done.
Qed.

Lemma step_progress (a : action) (st : state) :
  no_repeat (progressSteps st) = true →
  no_repeat (progressSteps (step a st)) = true.
Proof.
  intros H. destruct a as [o s text|r evt|err|t]; cbn [step]; try done.
  - unfold handleSendMessage. by destruct (_ || _).
  - unfold onStreamEvent.
    destruct (strict_eq (opt_get evt "type") (VStr "node_update")).
    + destruct (truthy _); [|done]. cbn [progressSteps setProgressSteps setIsTyping].
      destruct (strict_eq (default VUndef (last (progressSteps st))) _) eqn:E;
        [done|]. by apply no_repeat_snoc.
    + by destruct (strict_eq _ _).
Qed.

(** What one action adds to the transcript and to the opened streams. *)
Lemma step_added (a : action) (st : state) :
  ∃ added opened,
    messages (step a st) = (messages st ++ added)%list ∧
    streams (step a st) = (streams st ++ opened)%list ∧
    (length added <= 1)%nat ∧
    map content (List.filter is_user added) = map VStr opened.
Proof.
  destruct a as [o s text|r evt|err|t]; cbn [step].
  - unfold handleSendMessage. destruct (_ || _).
    + exists [], []. rewrite !app_nil_r. repeat split; cbn; lia.
    + exists [userMessage (now st) text], [text]. repeat split; cbn; lia.
  - rewrite onStreamEvent_messages, onStreamEvent_streams.
    destruct (is_final evt).
    + exists [aiMessage (now st) (final_data evt)], []. rewrite app_nil_r.
      repeat split; cbn; lia.
    + exists [], []. rewrite !app_nil_r. repeat split; cbn; lia.
  - exists [streamErrorMessage (now st)], []. rewrite app_nil_r.
    repeat split; cbn; lia.
  - exists [], []. rewrite !app_nil_r. repeat split; cbn; lia.
Qed.

Lemma step_quiet (a : action) (st : state) :
  isLoading st = true → quiet a = true →
  isLoading (step a st) = true ∧
  messages (step a st) = messages st ∧
  streams (step a st) = streams st.
Proof.
  intros Hbusy Hq. destruct a as [o s text|r evt|err|t]; cbn [step quiet] in *.
  - unfold handleSendMessage, render_at. cbn [r_isLoading].
    by rewrite Hbusy, orb_true_r.
  - apply negb_true_iff in Hq.
    by rewrite onStreamEvent_quiet, onStreamEvent_messages,
      onStreamEvent_streams, Hq.
  - done.
  - done.
Qed.

Lemma step_closing (a : action) (st : state) :
  quiet a = false →
  isLoading (step a st) = false ∧ streams (step a st) = streams st.
Proof.
  intros Hq. destruct a as [o s text|r evt|err|t]; cbn [step quiet] in *;
    try done.
  apply negb_false_iff in Hq.
  split; [by apply ChatBotFacts.onStreamEvent_final|apply onStreamEvent_streams].
Qed.

End ChatBotMore.

(** ** Facts about the chat widget's session *)

Module ChatBotSessionFacts.
Import Net JsString ChatBot ChatBotSession.

Lemma initializeConversation_idle (started : promise value) (w : widget) :
  isLoading (chat (initializeConversation started w)) = false ∧
  streams (chat (initializeConversation started w)) = streams (chat w).
Proof.
  unfold initializeConversation.
  by destruct started as [response|err];
    [destruct (truthy response && truthy (opt_get response "success"))|].
Qed.

Lemma handleClearChat_idle (started : promise value) (w : widget) :
  isLoading (chat (handleClearChat ApiService.clearConversation started w)) = false ∧
  streams (chat (handleClearChat ApiService.clearConversation started w)) =
    streams (chat w).
Proof.
  unfold handleClearChat, ApiService.clearConversation.
  set (cleared := setSessionId VNull (on_chat (setMessages (λ _, [])) w)).
  destruct (initializeConversation_idle started cleared) as [Hidle Hstreams].
  by destruct (truthy (sessionId w)).
Qed.

(** A send of a text that is not blank, from the render of an idle
    widget, opens a stream. *)
Lemma send_when_idle (isOpen speechEnabled : bool) (messageText : string)
    (st : state) :
  isLoading st = false → isEmpty (trim messageText) = false →
  streams (ChatBot.handleSendMessage
             (ChatBotRun.render_at isOpen speechEnabled st) messageText st) =
    (streams st ++ [messageText])%list.
Proof.
  intros Hidle Htext. unfold ChatBot.handleSendMessage, ChatBotRun.render_at.
  cbn [r_isLoading]. by rewrite Htext, Hidle.
Qed.

End ChatBotSessionFacts.

(** ** Facts about conversions *)

Module ConversionFacts.

(** A printable value converts without throwing. *)
Lemma printable_converts :
  ∀ v, printable v = true → ToPrimitive_throws v = false.
Proof.
  fix IH 1. intros [| | | | |items|props]; cbn; try done.
  - induction items as [|x items IHl]; cbn; [done|].
    intros [Hx Hl]%andb_true_iff. rewrite (IH x Hx). cbn. by apply IHl.
  - by destruct (assoc "toString" props).
Qed.

Lemma nonempty_truthy (text : string) : text ≠ "" → truthy (VStr text) = true.
Proof. intros Hne. cbn. by destruct (String.eqb_spec text ""). Qed.

End ConversionFacts.

(** ** Facts about the dashboard views *)

Module DashboardFacts.
Import Net.

Lemma forallb_Forall {A} (f : A → bool) (l : list A) :
  forallb f l = true → Forall (λ x, f x = true) l.
Proof.
  induction l as [|x l IH]; cbn; [constructor|].
  intros H. apply andb_true_iff in H as [Hx Hl]. constructor; auto.
Qed.

Lemma assoc_In (k : string) (props : list (string * value)) (v : value) :
  assoc k props = Some v → In v (map snd props).
Proof.
  induction props as [|[k' v'] props IH]; cbn; [done|].
  destruct (String.eqb k' k); [intros [= ->]; by left|right; auto].
Qed.

Lemma row_ok_member (r : value) (k : string) :
  row_ok r = true → member r k = Some (opt_get r k).
Proof. by destruct r. Qed.

Lemma rows_member (rows : list value) (k : string) :
  forallb row_ok rows = true →
  mapM (λ r, member r k) rows = Some (map (λ r, opt_get r k) rows).
Proof.
  induction rows as [|r rows IH]; cbn; [done|].
  intros H. apply andb_true_iff in H as [Hr Hrows].
  rewrite (row_ok_member _ _ Hr), (IH Hrows). done.
Qed.

Lemma row_ok_average (r : value) :
  row_ok r = true → SupplierDashboardCharts.average_value r = Some ().
Proof.
  intros Hr. unfold SupplierDashboardCharts.average_value.
  rewrite (row_ok_member _ _ Hr). cbn [mbind option_bind].
  assert (H : negb (truthy (opt_get (opt_get r "average") "toFixed"))
              && negb (ToPrimitive_throws (opt_get r "average")) = true)
    by (by destruct r).
  apply andb_true_iff in H as [Hfixed Hthrows].
  apply negb_true_iff in Hfixed, Hthrows. rewrite Hthrows.
  destruct (opt_get r "average"); try done.
  cbn [opt_get] in Hfixed. by rewrite Hfixed.
Qed.

Lemma rows_average (rows : list value) :
  forallb row_ok rows = true →
  is_Some (mapM SupplierDashboardCharts.average_value rows).
Proof.
  intros H. apply mapM_is_Some_2.
  eapply Forall_impl; [apply (forallb_Forall _ _ H)|].
  intros r Hr. cbn. by rewrite (row_ok_average _ Hr).
Qed.

Lemma find_row_ok (supplier : value) (rows : list value) :
  forallb row_ok rows = true →
  is_Some (SupplierDashboardCharts.find_row supplier rows).
Proof.
  induction rows as [|r rows IH]; cbn; [eauto|].
  intros H. apply andb_true_iff in H as [Hr Hrows].
  rewrite (row_ok_member _ _ Hr). cbn.
  destruct (strict_eq _ _); eauto.
Qed.

Lemma forallb_take {A} (f : A → bool) (n : nat) (l : list A) :
  forallb f l = true → forallb f (take n l) = true.
Proof.
  revert n. induction l as [|x l IH]; intros [|n]; cbn; try done.
  intros H. apply andb_true_iff in H as [-> Hl]. by apply IH.
Qed.

(** What the charts read of a ranking that is fit to be read. *)
Lemma ranking_rows (list : value) :
  ranking_ok list = true →
  ∃ rows, as_array (js_or list (VArr [])) = Some rows ∧
          forallb row_ok rows = true.
Proof.
  destruct list; try done; cbn; eauto.
Qed.

Lemma rankings_ok_or (rankings : value) :
  rankings_ok rankings = true → rankings_ok (js_or rankings (VObj [])) = true.
Proof. unfold js_or. by destruct (truthy rankings). Qed.

Lemma rows_of_ok (rankings : value) (kpiName : string) :
  rankings_ok rankings = true →
  ∃ rows, SupplierDashboardCharts.rows_of rankings kpiName = Some rows ∧
          forallb row_ok rows = true.
Proof.
  intros H. unfold SupplierDashboardCharts.rows_of.
  apply ranking_rows.
  destruct rankings as [| | | | | |props]; try done. cbn.
  destruct (assoc kpiName props) as [v|] eqn:E; [|done]. cbn.
  unfold rankings_ok in H. cbn in H.
  apply forallb_Forall in H. rewrite Forall_forall in H.
  apply H. apply list_elem_of_In. by eapply assoc_In.
Qed.

Lemma bind_Some {A B} (m : option A) (f : A → option B) (x : A) :
  m = Some x → is_Some (f x) → is_Some (m ≫= f).
Proof. by intros ->. Qed.

Lemma mapM_total {A B} (f : A → option B) (l : list A) :
  (∀ x, is_Some (f x)) → is_Some (mapM f l).
Proof. intros H. apply mapM_is_Some_2, Forall_forall. intros x _. apply H. Qed.

Lemma rows_supplier_ok (rankings : value) (k : string) :
  rankings_ok rankings = true →
  is_Some (SupplierDashboardCharts.rows_of rankings k
           ≫= mapM (λ r, member r "supplier")).
Proof.
  intros H. destruct (rows_of_ok _ k H) as (rows & Hrows & Hok).
  eapply bind_Some; [done|]. by rewrite (rows_member _ _ Hok).
Qed.

Lemma rows_find_ok (rankings supplier : value) (k : string) :
  rankings_ok rankings = true →
  is_Some (SupplierDashboardCharts.rows_of rankings k
           ≫= SupplierDashboardCharts.find_row supplier).
Proof.
  intros H. destruct (rows_of_ok _ k H) as (rows & Hrows & Hok).
  eapply bind_Some; [done|]. by apply find_row_ok.
Qed.

Lemma buildSupplierBar_ok (rankings : value) (kpiName : string) :
  rankings_ok rankings = true →
  is_Some (SupplierDashboardCharts.buildSupplierBar rankings kpiName).
Proof.
  intros H. unfold SupplierDashboardCharts.buildSupplierBar.
  destruct (rows_of_ok _ kpiName H) as (rows & Hrows & Hok).
  eapply bind_Some; [done|].
  eapply bind_Some; [apply (rows_member _ _ (forallb_take _ 12 _ Hok))|].
  destruct (rows_average _ (forallb_take _ 12 _ Hok)) as [u Hu].
  eapply bind_Some; [done|]. eauto.
Qed.

Lemma allSuppliers_ok (rankings : value) :
  rankings_ok rankings = true →
  is_Some (SupplierDashboardCharts.allSuppliers rankings).
Proof.
  intros H. unfold SupplierDashboardCharts.allSuppliers.
  apply rankings_ok_or in H. unfold rankings_ok in H.
  match goal with |- is_Some (mbind _ ?m) => assert (Hl : is_Some m) end.
  { apply mapM_is_Some_2. eapply Forall_impl; [apply (forallb_Forall _ _ H)|].
    intros list Hlist. unfold compose.
    destruct (ranking_rows _ Hlist) as (rows & Hrows & Hok).
    eapply bind_Some; [done|]. by rewrite (rows_member _ _ Hok). }
  destruct Hl as [lists Hl]. eapply bind_Some; [done|]. eauto.
Qed.

Lemma radarData_ok (rankings : value) (selectedSuppliers : list value) :
  rankings_ok rankings = true →
  is_Some (SupplierDashboardCharts.radarData rankings selectedSuppliers).
Proof.
  intros H. unfold SupplierDashboardCharts.radarData.
  match goal with |- is_Some (mbind _ ?m) => assert (Hf : is_Some m) end.
  { apply mapM_total. intros k. by apply rows_supplier_ok. }
  destruct Hf as [found Hf]. eapply bind_Some; [done|].
  match goal with |- is_Some (mbind _ ?m) => assert (Hs : is_Some m) end.
  { apply mapM_total. intros supplier.
    match goal with |- is_Some (mbind _ ?m) => assert (Hr : is_Some m) end.
    { apply mapM_total. intros k. by apply rows_find_ok. }
    destruct Hr as [raw Hr]. eapply bind_Some; [done|].
    apply mapM_total. intros k.
    destruct (rows_of_ok _ k H) as (rows & Hrows & Hok).
    eapply bind_Some; [done|]. by rewrite (rows_member _ _ Hok). }
  destruct Hs as [series Hs]. eapply bind_Some; [done|]. eauto.
Qed.

Lemma kpiComparisonOption_ok (rankings : value) (selectedSuppliers every : list value) :
  rankings_ok rankings = true →
  is_Some (SupplierDashboardCharts.kpiComparisonOption rankings selectedSuppliers every).
Proof.
  intros H. unfold SupplierDashboardCharts.kpiComparisonOption.
  match goal with |- is_Some (mbind _ ?m) => assert (Hs : is_Some m) end.
  { apply mapM_total. intros k. apply mapM_total. intros supplier.
    by apply rows_find_ok. }
  destruct Hs as [series Hs]. eapply bind_Some; [done|]. eauto.
Qed.

Lemma supplierTrendOption_ok (rankings : value) (selectedSuppliers every : list value) :
  rankings_ok rankings = true →
  is_Some (SupplierDashboardCharts.supplierTrendOption rankings selectedSuppliers every).
Proof.
  intros H. unfold SupplierDashboardCharts.supplierTrendOption.
  match goal with |- is_Some (mbind _ ?m) => assert (Hs : is_Some m) end.
  { apply mapM_total. intros supplier. by apply rows_find_ok. }
  destruct Hs as [series Hs]. eapply bind_Some; [done|]. eauto.
Qed.

(** With rankings fit to be read, the component reaches its guard. *)
Lemma render_reaches_guard (data : value) (selectedSuppliers : list value) :
  let analytics := js_or (opt_get data "data") data in
  rankings_ok (opt_get analytics "rankings") = true →
  SupplierDashboardCharts.render data selectedSuppliers =
    if negb (truthy analytics)
       || negb (truthy (opt_get analytics "summary"))
       || negb (truthy (opt_get analytics "timeSeries"))
    then Some (SupplierDashboardCharts.LoadingAlert "Loading supplier dashboard...")
    else Some SupplierDashboardCharts.ChartsBody.
Proof.
  cbn zeta. intros H. apply rankings_ok_or in H.
  unfold SupplierDashboardCharts.render.
  set (rankings := js_or (opt_get _ "rankings") (VObj [])) in *.
  destruct (buildSupplierBar_ok rankings "quantityShipped" H) as [? ->].
  destruct (buildSupplierBar_ok rankings "partsPerTrip" H) as [? ->].
  destruct (buildSupplierBar_ok rankings "vehicleTAT" H) as [? ->].
  destruct (buildSupplierBar_ok rankings "machineDowntimeHrs" H) as [? ->].
  destruct (buildSupplierBar_ok rankings "okDeliveryPercent" H) as [? ->].
  destruct (buildSupplierBar_ok rankings "machineBreakdowns" H) as [? ->].
  destruct (buildSupplierBar_ok rankings "trips" H) as [? ->].
  destruct (allSuppliers_ok rankings H) as [every ->].
  destruct (radarData_ok rankings selectedSuppliers H) as [? ->].
  cbn [mbind option_bind].
  destruct (kpiComparisonOption_ok rankings selectedSuppliers every H) as [? ->].
  destruct (supplierTrendOption_ok rankings selectedSuppliers every H) as [? ->].
  done.
Qed.

Lemma firstRankingSuppliers_ok (rankings : value) :
  rankings_ok rankings = true →
  is_Some (Dashboard.firstRankingSuppliers rankings).
Proof.
  intros H. unfold Dashboard.firstRankingSuppliers, rankings_ok in *.
  destruct (object_values rankings) as [|first rest]; [eauto|].
  cbn in H. apply andb_true_iff in H as [Hf _].
  destruct first; try done; eauto.
  cbn. rewrite (rows_member _ _ Hf). eauto.
Qed.

End DashboardFacts.

(** * Main results *)

(** C1: removing the insight at index [k] re-maps the feedback: every key
    [j > k] moves to [j - 1] with its value, every key [j < k] keeps its key
    and value, no entry of the result stems from key [k], and the insights
    list afterwards is the original list with the element at index [k]
    deleted. *)
Theorem C1_remove_insight_reindexes_feedback
    (insights : Insights.aiAnalysis) (feedback : gmap nat value) (k : nat) :
  let after := Insights.handleRemoveInsight k (insights, feedback) in
  (∀ j, k < j → after.2 !! (j - 1) = feedback !! j) ∧
  (∀ j, j < k → after.2 !! j = feedback !! j) ∧
  (∀ j v, after.2 !! j = Some v →
     (j < k ∧ feedback !! j = Some v) ∨ ((k ≤ j)%nat ∧ feedback !! S j = Some v)) ∧
  after.1 = delete k <$> insights.
Proof.
  cbn zeta. unfold Insights.handleRemoveInsight. cbn [fst snd].
  repeat split.
  - intros j Hj. rewrite InsightsFacts.reindex_lookup.
    destruct (Nat.ltb_spec (j - 1) k); [lia|]. f_equal. lia.
  - intros j Hj. rewrite InsightsFacts.reindex_lookup.
    destruct (Nat.ltb_spec j k); [done|lia].
  - intros j v. rewrite InsightsFacts.reindex_lookup.
    destruct (Nat.ltb_spec j k); intros Hv; [left|right]; split; auto; lia.
  - destruct insights as [l|]; [|done]. cbn. f_equal.
    apply (InsightsFacts.filter_idx_shift l k 0).
Qed.

Section StreamClaims.
Import Net JsString Stream StringFacts StreamFacts.

Variable JSON_parse : string → option value.

(** C7: the body is split into frames on the double newline, with
    partial frames buffered across reads, and frame parsing is invariant
    under read-chunk boundaries.  Whatever the callbacks and however the
    text of the body is cut into chunks, the stream leaves the callbacks'
    state and the warning log as it does when that text arrives in a
    single chunk; in particular the sequence of calls made to the event
    callback is the same.  The same holds of the bytes of the body, cut
    into reads in any way, for a decoder that decodes in streaming mode.
    And the calls are those of the frames: when the text is a run of
    frames, each followed by the delimiter, then for every cut into
    chunks, also through a frame or through a delimiter, the event
    callback is called once for each frame whose data line parses, with
    the parsed event, in the order of the frames, and the error callback
    is not called. *)
Theorem C7_chunking_invariant (chunks : list string)
    (rest : list read_result) (status : nat) (json : promise value) :
  (∀ (S : Type) (onEvent : option (value → S → S * bool))
     (onError : option (js_error → S → S)) (w : S * list string),
     startChatStream JSON_parse onEvent onError
       (streaming status json (map ReadChunk chunks ++ rest)) w =
     startChatStream JSON_parse onEvent onError
       (streaming status json (ReadChunk (String.concat "" chunks) :: rest)) w) ∧
  calls JSON_parse (streaming status json (map ReadChunk chunks ++ rest)) =
  calls JSON_parse (streaming status json (ReadChunk (String.concat "" chunks) :: rest)) ∧
  (∀ (D : Type) (decode : D → list Byte.byte → D * string) (d : D)
     (values : list (list Byte.byte)),
     streaming_decoder decode →
     chunks = decode_reads decode d values →
     calls JSON_parse (streaming status json (map ReadChunk chunks ++ rest)) =
     calls JSON_parse
       (streaming status json (ReadChunk (decode d (concat values)).2 :: rest))) ∧
  (∀ (frames : list string) (later : list read_result),
     forallb delimitable frames = true →
     String.concat "" chunks = serialize frames →
     calls JSON_parse
       (streaming status json (map ReadChunk chunks ++ ReadDone :: later)) =
       map EventCall (events_of JSON_parse frames) ∧
     calls JSON_parse
       (streaming status json
          (ReadChunk (String.concat "" chunks) :: ReadDone :: later)) =
       map EventCall (events_of JSON_parse frames)).
Proof.
  assert (H : ∀ (S : Type) (onEvent : option (value → S → S * bool))
     (onError : option (js_error → S → S)) (w : S * list string),
     startChatStream JSON_parse onEvent onError
       (streaming status json (map ReadChunk chunks ++ rest)) w =
     startChatStream JSON_parse onEvent onError
       (streaming status json (ReadChunk (String.concat "" chunks) :: rest)) w).
  { intros S onEvent onError w.
    unfold startChatStream, run, run_try, streaming. cbn [f_ok f_body].
    rewrite read_loop_chunks by done.
    change (ReadChunk (String.concat "" chunks) :: rest)
      with (map ReadChunk [String.concat "" chunks] ++ rest)%list.
    rewrite read_loop_chunks by done.
    cbn [String.concat]. done. }
  split; [exact H|]. split; [unfold calls; by rewrite H|]. split.
  - intros D decode d values Hdecode ->. unfold calls. rewrite H.
    by rewrite (decode_reads_concat decode d values Hdecode).
  - intros frames later Hframes Hchunks.
    assert (Hrun : ∀ texts, String.concat "" texts = serialize frames →
              calls JSON_parse
                (streaming status json (map ReadChunk texts ++ ReadDone :: later)) =
              map EventCall (events_of JSON_parse frames)).
    { intros texts Htexts.
      unfold calls, startChatStream, run, run_try, streaming.
      cbn [f_ok f_body]. rewrite read_loop_chunks by done.
      rewrite append_nil, Htexts, drain_serialize by done.
      cbn [read_loop fst snd]. by rewrite frames_record. }
    split; [by apply Hrun|].
    apply (Hrun [String.concat "" chunks]).
    cbn [String.concat]. exact Hchunks.
Qed.

(** C3 (amended): malformed frames do not stop the stream.  Take frames
    that can be delimited (no blank line inside, no newline at the end),
    each followed by the delimiter, and cut the body into chunks in any
    way.  Then the event of every well-formed frame is dispatched, in
    order; a frame whose data line is not JSON is skipped with only a
    logged warning; a frame without a data line is skipped silently; and
    no exception leaves the read loop, whatever the event callback does. *)
Theorem C3_malformed_frames_are_skipped (frames chunks : list string)
    (status : nat) (json : promise value) :
  forallb delimitable frames = true →
  String.concat "" chunks = serialize frames →
  let stream := streaming status json (map ReadChunk chunks ++ [ReadDone]) in
  calls JSON_parse stream = map EventCall (events_of JSON_parse frames) ∧
  warnings JSON_parse stream = rejects_of JSON_parse frames ∧
  ∀ (S : Type) (onEvent : option (value → S → S * bool)) (w : S * list string),
    (run_try JSON_parse onEvent stream w).2 = None.
Proof.
  intros Hframes Hchunks. cbn zeta.
  assert (Hloop : ∀ (S : Type) (onEvent : option (value → S → S * bool))
            (w : S * list string),
            read_loop JSON_parse onEvent (map ReadChunk chunks ++ [ReadDone]) "" w =
            (fold_left (λ w f, on_frame JSON_parse onEvent f w) frames w, LoopDone)).
  { intros S onEvent w. rewrite read_loop_chunks by done.
    rewrite append_nil, Hchunks, drain_serialize by done. done. }
  unfold calls, warnings, startChatStream, run, run_try, streaming.
  cbn [f_ok f_body]. repeat split.
  - rewrite Hloop. cbn [fst snd]. by rewrite frames_record.
  - rewrite Hloop. cbn [fst snd]. by rewrite frames_record.
  - intros S onEvent w. by rewrite Hloop.
Qed.

(** C4: a stream that is aborted or whose transport fails calls the error
    callback exactly once, as its last call.  When [fetch] is rejected, or
    the response is not ok or has no body, that is the only call.  When a
    read is rejected after some chunks, the calls are those of the chunks
    read so far (event calls only) followed by the one error call: the
    loop has stopped, so nothing that would have been read later is
    dispatched, and there is no second request. *)
Theorem C4_one_error_call_and_stop :
  (∀ err, calls JSON_parse (Rejected err) = [ErrorCall err]) ∧
  (∀ resp, f_ok resp = false ∨ f_body resp = None →
     calls JSON_parse (Resolved resp) =
       [ErrorCall (new_Error ("Stream failed with status " +:+ pretty (f_status resp)))]) ∧
  (∀ status json chunks err later,
     let read := calls JSON_parse
                   (streaming status json (map ReadChunk chunks ++ [ReadDone])) in
     calls JSON_parse
       (streaming status json (map ReadChunk chunks ++ ReadFail err :: later)) =
       (read ++ [ErrorCall err])%list ∧
     forallb is_EventCall read = true).
Proof.
  repeat split.
  - intros resp H. unfold calls, startChatStream, run, run_try.
    destruct H as [H|H]; rewrite H; [done|by destruct (f_ok resp)].
  - unfold calls, startChatStream, run, run_try, streaming. cbn [f_ok f_body].
    rewrite !read_loop_chunks by done. done.
  - unfold calls, startChatStream, run, run_try, streaming. cbn [f_ok f_body].
    cbn [snd fst].
    set (r := read_loop _ _ _ _ _).
    assert (Hr : r.2 = LoopDone).
    { unfold r. by rewrite read_loop_chunks. }
    rewrite Hr. cbn [fst].
    apply (read_loop_keeps JSON_parse record_event
             (λ l, forallb is_EventCall l = true)); [|done].
    intros callback evt l [= <-] Hl. cbn.
    by rewrite forallb_app, Hl.
Qed.

End StreamClaims.

(** C7, at an input: the example body read as three runs of bytes that
    cut through its frames. *)
Lemma C7_chunking_invariant_witness :
  Stream.calls Examples.parse
    (Stream.streaming 200 (Net.Resolved VNull)
       (map Net.ReadChunk
          (Stream.decode_reads Stream.decode_bytes () Examples.byte_reads)
        ++ [Net.ReadDone])) =
  Stream.calls Examples.parse
    (Stream.streaming 200 (Net.Resolved VNull)
       [Net.ReadChunk
          (Stream.decode_bytes () (concat Examples.byte_reads)).2;
        Net.ReadDone]) ∧
  Stream.calls Examples.parse
    (Stream.streaming 200 (Net.Resolved VNull)
       (map Net.ReadChunk
          (Stream.decode_reads Stream.decode_bytes () Examples.byte_reads)
        ++ [Net.ReadDone])) =
  [Stream.EventCall Examples.greeting_event; Stream.EventCall Examples.final_event].
Proof.
  pose proof (C7_chunking_invariant Examples.parse
                (Stream.decode_reads Stream.decode_bytes () Examples.byte_reads)
                [Net.ReadDone] 200 (Net.Resolved VNull))
    as (_ & _ & Hbytes & Hframes).
  split.
  - exact (Hbytes unit Stream.decode_bytes () Examples.byte_reads
             StreamFacts.decode_bytes_streaming eq_refl).
  - exact (proj1 (Hframes Examples.frames [] eq_refl eq_refl)).
Defined.

(** C3, at an input: the four example frames, read in three chunks. *)
Lemma C3_malformed_frames_are_skipped_witness :
  let stream := Stream.streaming 200 (Net.Resolved VNull)
                  (map Net.ReadChunk Examples.chunks ++ [Net.ReadDone]) in
  Stream.calls Examples.parse stream =
    map Stream.EventCall (Stream.events_of Examples.parse Examples.frames) ∧
  Stream.warnings Examples.parse stream =
    Stream.rejects_of Examples.parse Examples.frames ∧
  ∀ (S : Type) (onEvent : option (value → S → S * bool)) (w : S * list string),
    (Stream.run_try Examples.parse onEvent stream w).2 = None.
Proof.
  exact (C3_malformed_frames_are_skipped Examples.parse Examples.frames
           Examples.chunks 200 (Net.Resolved VNull) eq_refl eq_refl).
Defined.

(** C3 as stated fails: a frame without a data line is malformed, and it is
    skipped without any warning being logged. *)
Lemma C3_silent_skip_counterexample :
  let stream := Stream.streaming 200 (Net.Resolved VNull)
                  [Net.ReadChunk ("event: ping" +:+ JsString.sep); Net.ReadDone] in
  Stream.classify Examples.parse "event: ping" = Stream.NoDataLine ∧
  Stream.calls Examples.parse stream = [] ∧
  Stream.warnings Examples.parse stream = [].
Proof. vm_compute. done. Qed.

(** C2 (amended): every 'final' event delivered to the event callback
    appends one assistant message carrying its answer, and right after it
    the progress-step list is empty and the busy and typing flags are
    cleared.  So a stream of two progress updates and one 'final' appends
    exactly one assistant message; a 'final' delivered again appends
    again. *)
Theorem C2_each_final_appends_one_message
    (r : ChatBot.render) (events : list value) (st : ChatBot.state) :
  ChatBot.messages (ChatBot.deliver r events st) =
    (ChatBot.messages st ++
     map (λ evt, ChatBot.aiMessage (ChatBot.now st) (ChatBot.final_data evt))
         (List.filter ChatBot.is_final events))%list ∧
  (∀ evt, ChatBot.is_final evt = true →
     let st' := ChatBot.deliver r (events ++ [evt]) st in
     ChatBot.progressSteps st' = [] ∧
     ChatBot.isLoading st' = false ∧
     ChatBot.isTyping st' = false) ∧
  (∀ update1 update2 final,
     ChatBot.is_final update1 = false → ChatBot.is_final update2 = false →
     ChatBot.is_final final = true →
     ChatBot.messages (ChatBot.deliver r [update1; update2; final] st) =
       (ChatBot.messages st ++
        [ChatBot.aiMessage (ChatBot.now st) (ChatBot.final_data final)])%list).
Proof.
  split; [apply ChatBotFacts.deliver_messages|]. split.
  - intros evt Hevt. cbn zeta. rewrite ChatBotFacts.deliver_snoc.
    by apply ChatBotFacts.onStreamEvent_final.
  - intros u1 u2 fin H1 H2 H3. rewrite ChatBotFacts.deliver_messages.
    cbn [List.filter]. by rewrite H1, H2, H3.
Qed.

(** C2 as stated fails: delivering the same 'final' event twice appends two
    assistant messages, and after a 'final' frame the stream goes on
    dispatching the frames that follow. *)
Lemma C2_final_twice_counterexample :
  ChatBot.messages
    (ChatBot.deliver Examples.open_chat
       [Examples.final_event; Examples.final_event] Examples.waiting) =
    [ChatBot.userMessage 1000 "How many suppliers?";
     ChatBot.aiMessage 1000 Examples.final_data;
     ChatBot.aiMessage 1000 Examples.final_data] ∧
  ChatBot.progressSteps
    (ChatBot.chatStream Examples.parse Examples.open_chat
       (Stream.streaming 200 (Net.Resolved VNull)
          [Net.ReadChunk ("data: " +:+ Examples.final_text +:+ JsString.sep +:+
                          "data: " +:+ Examples.greeting_text +:+ JsString.sep);
           Net.ReadDone])
       Examples.waiting).1 = [VStr "Responding"].
Proof. vm_compute. done. Qed.

(** C8 (amended): the busy flag rejects a send, but it does not count the
    streams in flight.  While the flag of the render is set, or when the
    text is empty after trimming, [handleSendMessage] returns with the
    state as it was: no user message is appended, no stream is opened,
    nothing is queued.  So while the widget is busy, sends from the
    current render, progress updates and clock ticks, in any number and
    order, leave it busy with the transcript and the opened streams as
    they were.  But a 'final' event clears the flag whether or not its
    stream has ended, and [handleClearChat] clears it with the stream
    running: after either, a send of a text that is not blank opens
    another stream. *)
Theorem C8_send_rejected_while_busy
    (r : ChatBot.render) (messageText : string) (st : ChatBot.state) :
  ChatBot.r_isLoading r = true ∨ JsString.trim messageText = "" →
  let st' := ChatBot.handleSendMessage r messageText st in
  st' = st ∧
  ChatBot.messages st' = ChatBot.messages st ∧
  ChatBot.streams st' = ChatBot.streams st ∧
  (∀ actions busy,
     ChatBot.isLoading busy = true →
     forallb ChatBotRun.quiet actions = true →
     ChatBot.isLoading (ChatBotRun.run actions busy) = true ∧
     ChatBot.messages (ChatBotRun.run actions busy) = ChatBot.messages busy ∧
     ChatBot.streams (ChatBotRun.run actions busy) = ChatBot.streams busy) ∧
  (∀ captured evt isOpen speechEnabled text busy,
     ChatBot.is_final evt = true →
     JsString.isEmpty (JsString.trim text) = false →
     let answered := ChatBot.onStreamEvent captured evt busy in
     ChatBot.streams
       (ChatBot.handleSendMessage
          (ChatBotRun.render_at isOpen speechEnabled answered) text answered) =
       (ChatBot.streams busy ++ [text])%list) ∧
  (∀ started w text,
     JsString.isEmpty (JsString.trim text) = false →
     ChatBot.streams
       (ChatBotSession.chat
          (ChatBotSession.handleSendMessage text
             (ChatBotSession.handleClearChat ApiService.clearConversation started w))) =
       (ChatBot.streams (ChatBotSession.chat w) ++ [text])%list).
Proof.
  intros H. cbn zeta.
  assert (Hguard : ChatBot.handleSendMessage r messageText st = st).
  { unfold ChatBot.handleSendMessage.
    assert (E : JsString.isEmpty (JsString.trim messageText)
                || ChatBot.r_isLoading r = true).
    { destruct H as [->| ->]; [apply orb_true_r|done]. }
    by rewrite E. }
  rewrite Hguard. split; [done|]. split; [done|]. split; [done|].
  split; [|split].
  - intros actions. induction actions as [|a actions IH]; intros busy Hbusy Hquiet;
      [done|].
    cbn [forallb] in Hquiet. apply andb_true_iff in Hquiet as [Ha Hquiet].
    destruct (ChatBotMore.step_quiet a busy Hbusy Ha) as (H1 & H2 & H3).
    cbn [ChatBotRun.run fold_left].
    destruct (IH _ H1 Hquiet) as (H4 & H5 & H6).
    unfold ChatBotRun.run in *. by rewrite H5, H6, H2, H3.
  - intros captured evt isOpen speechEnabled text busy Hfinal Htext. cbn zeta.
    rewrite ChatBotSessionFacts.send_when_idle;
      [by rewrite ChatBotMore.onStreamEvent_streams| |done].
    by apply ChatBotFacts.onStreamEvent_final.
  - intros started w text Htext.
    destruct (ChatBotSessionFacts.handleClearChat_idle started w) as [Hidle Hstreams].
    unfold ChatBotSession.handleSendMessage, ChatBotSession.render_of.
    cbn [ChatBotSession.on_chat ChatBotSession.chat].
    rewrite <- Hstreams.
    apply (ChatBotSessionFacts.send_when_idle
             (ChatBotSession.isOpen _) (ChatBotSession.speechEnabled _)); done.
Qed.

(** C8, at an input: a second question while the first is in flight. *)
Lemma C8_send_rejected_while_busy_witness :
  let st' := ChatBot.handleSendMessage Examples.busy_chat "And how many trips?"
               Examples.waiting in
  st' = Examples.waiting ∧
  ChatBot.messages st' = ChatBot.messages Examples.waiting ∧
  ChatBot.streams st' = ChatBot.streams Examples.waiting.
Proof.
  pose proof (C8_send_rejected_while_busy Examples.busy_chat "And how many trips?"
                Examples.waiting (or_introl eq_refl)) as (H1 & H2 & H3 & _).
  exact (conj H1 (conj H2 H3)).
Defined.

(** C8 as stated fails: more than one stream can be in flight.  The
    widget of the examples waits for the answer of its first stream.
    Clearing the chat and sending again opens a second stream, though no
    event or error of the first was delivered and nothing cancelled it.
    Likewise after a 'final' event of the first stream a send opens a
    second one, and a progress update that the first stream delivers
    afterwards is still shown. *)
Lemma C8_two_streams_in_flight_counterexample :
  ChatBot.isLoading (ChatBotSession.chat SessionExamples.waiting_open) = true ∧
  ChatBot.streams (ChatBotSession.chat SessionExamples.waiting_open) =
    ["How many suppliers?"] ∧
  ChatBot.streams
    (ChatBotSession.chat
       (ChatBotSession.handleSendMessage "And last month?"
          (ChatBotSession.handleClearChat ApiService.clearConversation
             (ApiService.startConversation 1000) SessionExamples.waiting_open))) =
    ["How many suppliers?"; "And last month?"] ∧
  (let answered := ChatBot.onStreamEvent Examples.open_chat Examples.final_event
                     Examples.waiting in
   let again := ChatBot.handleSendMessage
                  (ChatBotRun.render_at true false answered) "And last month?"
                  answered in
   ChatBot.streams again = ["How many suppliers?"; "And last month?"] ∧
   ChatBot.progressSteps
     (ChatBot.onStreamEvent Examples.open_chat Examples.greeting_event again) =
     [VStr "Responding"]).
Proof. vm_compute. repeat split; done. Qed.

Section ApiClaims.
Import Net.




(** C6 (amended): [uploadAndAnalyzeFile] on a response that is not ok
    rejects with the body's [detail] when that is a non-empty string, and
    with 'File upload failed' when the body has no truthy [detail] or is
    not JSON; on an ok response it settles as [response.json()] does. *)
Theorem C6_upload_rejects_with_detail (response : fetch_response) :
  (f_ok response = false →
   ∀ errorData detail,
     f_json response = Resolved errorData →
     opt_get errorData "detail" = VStr detail → detail ≠ "" →
     ApiService.uploadAndAnalyzeFile (Resolved response) =
       Rejected (new_Error detail)) ∧
  (f_ok response = false →
   (∀ errorData, f_json response = Resolved errorData →
                 truthy (opt_get errorData "detail") = false) →
   ApiService.uploadAndAnalyzeFile (Resolved response) =
     Rejected (new_Error "File upload failed")) ∧
  (f_ok response = true →
   ApiService.uploadAndAnalyzeFile (Resolved response) = f_json response).
Proof.
  unfold ApiService.uploadAndAnalyzeFile. repeat split.
  - intros -> errorData detail -> Hd Hne. cbn [negb].
    assert (Ht : js_or (opt_get errorData "detail") (VStr "File upload failed")
                 = VStr detail).
    { rewrite Hd. unfold js_or. cbn [truthy].
      destruct (String.eqb_spec detail ""); done. }
    destruct errorData; try (rewrite Ht; done); done.
  - intros -> H. cbn [negb]. destruct (f_json response) as [errorData|]; [|done].
    specialize (H errorData eq_refl). unfold js_or. rewrite H.
    by destruct errorData.
  - intros ->. done.
Qed.

(** C6, at an input: the server's refusal of a file that is not Excel. *)
Lemma C6_upload_rejects_with_detail_witness :
  ApiService.uploadAndAnalyzeFile
    (Examples.upload_failure 400 Examples.not_excel) =
    Rejected (new_Error "Only Excel files are allowed").
Proof.
  exact (proj1 (C6_upload_rejects_with_detail
                  {| f_ok := false; f_status := 400;
                     f_json := Resolved Examples.not_excel; f_body := None |})
           eq_refl Examples.not_excel "Only Excel files are allowed"
           eq_refl eq_refl
           (λ H : "Only Excel files are allowed" = "",
              eq_ind "Only Excel files are allowed"%string
                (λ s, match s with "" => False | _ => True end) I _ H)).
Defined.

(** C6 as stated fails when [detail] is present but empty, or is not a
    string: the message is then the generic one, or the printed value. *)
Lemma C6_falsy_detail_counterexample :
  opt_get Examples.empty_detail "detail" = VStr "" ∧
  ApiService.uploadAndAnalyzeFile (Examples.upload_failure 400 Examples.empty_detail) =
    Rejected (new_Error "File upload failed") ∧
  ApiService.uploadAndAnalyzeFile (Examples.upload_failure 422 Examples.validation_errors) =
    Rejected (new_Error "[object Object]").
Proof. repeat split; done. Qed.

End ApiClaims.

Section ChatClaims.
Import Net.

Variable JSON_parse : string → option value.
Variable JSON_stringify : value → string.

Local Abbreviation sendChatMessage :=
  (ApiService.sendChatMessage JSON_parse JSON_stringify).


End ChatClaims.


(** C9 (amended): a [/dashboard] payload that is an object whose
    [timeSeries] is missing or falsy, that has no truthy [data] field of
    its own, and whose rankings (if any) are arrays of rows the charts can
    read, makes both dashboard views return their fallback without
    throwing, whether the payload is the response itself or its [data]
    field: the page of the first client shows 'No dashboard data
    available', and the charts component returns its 'Loading supplier
    dashboard...' alert.  A row can be read when it is not [null] and its
    [average] is neither an object with a truthy [toFixed] nor a value
    whose conversion to a number throws. *)
Theorem C9_missing_timeSeries_falls_back
    (payload : list (string * value)) (body : value) (status : nat)
    (selectedSuppliers : list value) :
  truthy (opt_get (VObj payload) "timeSeries") = false →
  truthy (opt_get (VObj payload) "data") = false →
  rankings_ok (opt_get (VObj payload) "rankings") = true →
  body = VObj payload ∨
    (∃ props, body = VObj props ∧ assoc "data" props = Some (VObj payload)) →
  Dashboard.mounted
    (Net.Resolved {| Net.resp_status := status; Net.resp_data := body |}) =
    Dashboard.NoDashboardData ∧
  SupplierDashboardCharts.render body selectedSuppliers =
    Some (SupplierDashboardCharts.LoadingAlert "Loading supplier dashboard...").
Proof.
  intros Hts Hdata Hrk Hbody.
  assert (Hfalsy : ∀ v k, truthy v = false → opt_get v k = VUndef)
    by (by intros []).
  assert (Hunwrap : js_or (opt_get body "data") body = VObj payload).
  { destruct Hbody as [->|(props & -> & Hp)].
    - unfold js_or. by rewrite Hdata.
    - cbn. by rewrite Hp. }
  split.
  - unfold Dashboard.mounted, Dashboard.fetchDashboardData, Dashboard.fetch_try.
    cbn [LegacyApi.getDashboardData LegacyApi.request Net.resp_data].
    assert (Hm : member body "data" = Some (opt_get body "data"))
      by (destruct Hbody as [->|(props & -> & _)]; done).
    rewrite Hm.
    assert (Hd : js_or (opt_get (opt_get body "data") "data")
                   (js_or (opt_get body "data") body) = VObj payload).
    { destruct Hbody as [->|(props & -> & Hp)].
      - rewrite (Hfalsy _ "data" Hdata). unfold js_or. cbn [truthy].
        by rewrite Hdata.
      - assert (Hget : opt_get (VObj props) "data" = VObj payload)
          by (cbn; by rewrite Hp).
        rewrite Hget. unfold js_or. by rewrite Hdata. }
    rewrite Hd. cbn [member].
    assert (Hview : ∀ st,
              Dashboard.dashboardData st = VObj payload →
              Dashboard.error st = None →
              Dashboard.render (Dashboard.setLoading false st) =
                Dashboard.NoDashboardData).
    { intros st Hst He. unfold Dashboard.render.
      cbn [Dashboard.loading Dashboard.error Dashboard.dashboardData
           Dashboard.setLoading].
      by rewrite He, Hst, Hts, orb_true_r. }
    destruct (truthy (opt_get (VObj payload) "rankings")) eqn:Et.
    + destruct (DashboardFacts.firstRankingSuppliers_ok _ Hrk) as [suppliers ->].
      cbn [fst snd]. by apply Hview.
    + cbn [fst snd]. by apply Hview.
  - rewrite DashboardFacts.render_reaches_guard; rewrite Hunwrap; [|done].
    rewrite Hts. cbn [truthy negb]. by rewrite orb_true_r.
Qed.

(** C9, at an input: the wrapped response of the examples, which has a
    summary and a ranking but no [timeSeries]. *)
Lemma C9_missing_timeSeries_falls_back_witness :
  Dashboard.mounted
    (Net.Resolved {| Net.resp_status := 200;
                     Net.resp_data := Examples.wrapped_summary_only |}) =
    Dashboard.NoDashboardData ∧
  SupplierDashboardCharts.render Examples.wrapped_summary_only [] =
    Some (SupplierDashboardCharts.LoadingAlert "Loading supplier dashboard...").
Proof.
  exact (C9_missing_timeSeries_falls_back Examples.summary_only
           Examples.wrapped_summary_only 200 [] eq_refl eq_refl eq_refl
           (or_intror (ex_intro _ _ (conj eq_refl eq_refl)))).
Defined.

(** C9 as stated fails.  A payload without [timeSeries] whose ranking is
    an object keyed by supplier makes the charts component throw, and
    makes the page of the first client show its error alert instead of
    the 'no data' text.  So does, for the charts, a row whose [average]
    cannot be converted to a number.  And a payload without [timeSeries]
    that has a [data] field of its own is not the payload the views read:
    they show the page body and the charts. *)
Lemma C9_keyed_rankings_counterexample :
  opt_get Examples.keyed_rankings "timeSeries" = VUndef ∧
  SupplierDashboardCharts.render Examples.keyed_rankings [] = None ∧
  Dashboard.mounted
    (Net.Resolved {| Net.resp_status := 200;
                     Net.resp_data := Examples.keyed_rankings |}) =
    Dashboard.ErrorAlert "Failed to load dashboard data" ∧
  opt_get RankingExamples.unconvertible_average "timeSeries" = VUndef ∧
  SupplierDashboardCharts.render RankingExamples.unconvertible_average [] = None ∧
  opt_get RankingExamples.nested_data "timeSeries" = VUndef ∧
  SupplierDashboardCharts.render RankingExamples.nested_data [] =
    Some SupplierDashboardCharts.ChartsBody ∧
  Dashboard.mounted
    (Net.Resolved {| Net.resp_status := 200;
                     Net.resp_data := RankingExamples.nested_data |}) =
    Dashboard.DashboardBody.
Proof. repeat split; done. Qed.

(** * Further properties *)

(** ** Insight list and feedback *)

Module InsightsMore.
Import Insights.

(** One step of the reindexing loop keeps the lookup equation. *)
Lemma reindex_step_lookup (k i : nat) (x : value) (m r : gmap nat value) :
  m !! i = None →
  (∀ j, r !! j = if Nat.ltb j k then m !! j else m !! (S j)) →
  ∀ j, reindex_step k i x r !! j =
       if Nat.ltb j k then <[i:=x]> m !! j else <[i:=x]> m !! (S j).
Proof.
  intros Hi IH j. unfold reindex_step.
  destruct (Nat.ltb_spec i k) as [Hik|Hik]; [|destruct (Nat.ltb_spec k i) as [Hki|Hki]].
  - destruct (decide (i = j)) as [->|Hne].
    + rewrite lookup_insert_eq. apply Nat.ltb_lt in Hik. rewrite Hik.
      by rewrite lookup_insert_eq.
    + rewrite lookup_insert_ne by done. rewrite IH.
      destruct (Nat.ltb_spec j k); rewrite lookup_insert_ne; done || lia.
  - destruct (decide (i - 1 = j)) as [<-|Hne].
    + rewrite lookup_insert_eq. destruct (Nat.ltb_spec (i - 1) k); [lia|].
      replace (S (i - 1)) with i by lia. by rewrite lookup_insert_eq.
    + rewrite lookup_insert_ne by done. rewrite IH.
      destruct (Nat.ltb_spec j k); rewrite lookup_insert_ne; done || lia.
  - assert (i = k) as -> by lia. rewrite IH.
    destruct (Nat.ltb_spec j k); rewrite lookup_insert_ne; done || lia.
Qed.

Lemma removeInsight_delete (k : nat) (insights : list value) :
  removeInsight k (Some insights) = Some (delete k insights).
Proof.
  unfold removeInsight. f_equal.
  apply (InsightsFacts.filter_idx_shift insights k 0).
Qed.

End InsightsMore.

(** X1: removal keeps feedback aligned with its insight.  After the
    insight at index [k] is removed, the insight at every position [j] and
    the feedback at key [j] both come from one and the same original
    position: [j] itself below [k], [j + 1] from [k] on. *)
Theorem X1_removal_keeps_feedback_aligned
    (insights : list value) (feedback : gmap nat value) (k j : nat) :
  let after := Insights.handleRemoveInsight k (Some insights, feedback) in
  let origin := if Nat.ltb j k then j else S j in
  ∃ remaining, after.1 = Some remaining ∧
    remaining !! j = insights !! origin ∧
    after.2 !! j = feedback !! origin.
Proof.
  cbn zeta. unfold Insights.handleRemoveInsight. cbn [fst snd].
  rewrite InsightsMore.removeInsight_delete.
  eexists. split; [reflexivity|].
  rewrite InsightsFacts.reindex_lookup.
  destruct (Nat.ltb_spec j k).
  - split; [by apply list_lookup_delete_lt|done].
  - split; [by apply list_lookup_delete_ge|done].
Qed.

(** X2: tagging an insight and then removing one is removing first and
    tagging the insight where it ends up; a tag on the removed insight
    itself is dropped and changes nothing else. *)
Theorem X2_feedback_commutes_with_removal
    (feedback : gmap nat value) (i k : nat) (feedbackType : value) :
  Insights.reindexFeedback k (Insights.handleInsightFeedback i feedbackType feedback) =
    if Nat.ltb i k then
      Insights.handleInsightFeedback i feedbackType (Insights.reindexFeedback k feedback)
    else if Nat.ltb k i then
      Insights.handleInsightFeedback (i - 1) feedbackType (Insights.reindexFeedback k feedback)
    else Insights.reindexFeedback k feedback.
Proof.
  unfold Insights.handleInsightFeedback. apply map_eq. intros j.
  destruct (Nat.ltb_spec i k) as [Hik|Hik]; [|destruct (Nat.ltb_spec k i) as [Hki|Hki]].
  all: rewrite ?lookup_insert, ?InsightsFacts.reindex_lookup, ?lookup_insert.
  all: repeat case_decide; destruct (Nat.ltb_spec j k); try done; try lia.
Qed.

(** X3: removal neither invents nor loses feedback: the reindexed map has
    as many entries as the original without key [k], that is one less
    exactly when the removed insight had feedback. *)
Theorem X3_removal_drops_one_entry_at_most
    (feedback : gmap nat value) (k : nat) :
  size (Insights.reindexFeedback k feedback) = size (delete k feedback) ∧
  (feedback !! k = None →
   size (Insights.reindexFeedback k feedback) = size feedback) ∧
  (is_Some (feedback !! k) →
   S (size (Insights.reindexFeedback k feedback)) = size feedback).
Proof.
  assert (H : size (Insights.reindexFeedback k feedback) = size (delete k feedback)).
  { unfold Insights.reindexFeedback.
    apply (map_fold_weak_ind
             (λ r m, (∀ j, r !! j = if Nat.ltb j k then m !! j else m !! (S j)) ∧
                     size r = size (delete k m))).
    - split; [intros j; rewrite !lookup_empty; by destruct (Nat.ltb j k)|].
      by rewrite delete_empty.
    - intros i x m r Hi [Hl Hs].
      pose proof (InsightsMore.reindex_step_lookup k i x m r Hi Hl) as Hl'.
      split; [exact Hl'|]. unfold Insights.reindex_step.
      destruct (Nat.ltb_spec i k) as [Hik|Hik]; [|destruct (Nat.ltb_spec k i) as [Hki|Hki]].
      + rewrite map_size_insert_None.
        2:{ rewrite Hl. apply Nat.ltb_lt in Hik. by rewrite Hik. }
        rewrite delete_insert_ne by lia.
        rewrite map_size_insert_None; [by rewrite Hs|].
        rewrite lookup_delete_ne by lia. done.
      + rewrite map_size_insert_None.
        2:{ rewrite Hl. destruct (Nat.ltb_spec (i - 1) k); [lia|].
            by replace (S (i - 1)) with i by lia. }
        rewrite delete_insert_ne by lia.
        rewrite map_size_insert_None; [by rewrite Hs|].
        rewrite lookup_delete_ne by lia. done.
      + assert (i = k) as -> by lia. by rewrite delete_insert_eq. }
  split; [exact H|]. split.
  - intros Hk. rewrite H. by rewrite delete_id.
  - intros [v Hv]. rewrite H.
    rewrite <- (insert_delete_id feedback k v Hv) at 2.
    rewrite map_size_insert_None; [done|]. by rewrite lookup_delete_eq.
Qed.

(** ** The streaming driver *)

Module StreamMore.
Import Net JsString Stream StringFacts StreamFacts FrameLines.

Lemma split_single_line (line : string) :
  single_line line = true → split LF line = [line].
Proof.
  induction line as [|c line IH]; [done|]. cbn [single_line split].
  intros H. apply andb_true_iff in H as [Hc Hl].
  destruct (Ascii.eqb c LF); [done|]. by rewrite (IH Hl).
Qed.

Lemma split_first_line (line rest : string) :
  single_line line = true →
  split LF (line +:+ String LF rest) = line :: split LF rest.
Proof.
  induction line as [|c line IH]; intros H.
  - rewrite append_nil. cbn [split]. by rewrite Ascii.eqb_refl.
  - cbn [single_line] in H. apply andb_true_iff in H as [Hc Hl].
    rewrite append_cons. cbn [split].
    destruct (Ascii.eqb c LF); [done|]. by rewrite (IH Hl).
Qed.

(** Splitting undoes joining. *)
Lemma split_join_lines (line : string) (lines : list string) :
  forallb single_line (line :: lines) = true →
  split LF (join_lines (line :: lines)) = line :: lines.
Proof.
  revert line. induction lines as [|next lines IH]; intros line H.
  - cbn in H. rewrite andb_true_r in H. by apply split_single_line.
  - cbn [forallb] in H. apply andb_true_iff in H as [Hl H].
    unfold join_lines. cbn [String.concat]. rewrite append_cons, append_nil.
    rewrite (split_first_line _ _ Hl). f_equal. by apply IH.
Qed.

Lemma find_skip {A} (p : A → bool) (before : list A) (x : A) (after : list A) :
  forallb (λ y, negb (p y)) before = true → p x = true →
  find p (before ++ x :: after) = Some x.
Proof.
  induction before as [|y before IH]; cbn; intros Hb Hx.
  - by rewrite Hx.
  - apply andb_true_iff in Hb as [Hy Hb]. destruct (p y); [done|]. by apply IH.
Qed.

Section Driver.
Context {S : Type}.
Variable JSON_parse : string → option value.

(** What a frame does to the state of any event callback. *)
Lemma on_frame_state (callback : value → S → S * bool) (frame : string)
    (w : S * list string) :
  (on_frame JSON_parse (Some callback) frame w).1 =
    match classify JSON_parse frame with
    | WellFormed evt => (callback evt w.1).1
    | _ => w.1
    end.
Proof.
  unfold on_frame, classify, dispatch.
  destruct (isEmpty (trim frame)) eqn:E.
  - apply String.eqb_eq in E. rewrite E. done.
  - destruct (find _ _); [|done]. destruct (JSON_parse _); [|done].
    cbn. by destruct (callback v w.1).2.
Qed.

(** What a frame does to the log when the callback does not throw. *)
Lemma on_frame_log (callback : value → S → S * bool) (frame : string)
    (w : S * list string) :
  (∀ evt s, (callback evt s).2 = false) →
  (on_frame JSON_parse (Some callback) frame w).2 =
    match classify JSON_parse frame with
    | NotJson jsonStr => (w.2 ++ [jsonStr])%list
    | _ => w.2
    end.
Proof.
  intros Hc. unfold on_frame, classify, dispatch.
  destruct (isEmpty (trim frame)) eqn:E.
  - apply String.eqb_eq in E. rewrite E. done.
  - destruct (find _ _); [|done]. destruct (JSON_parse _); [|done].
    cbn. by rewrite Hc.
Qed.

Lemma frames_state (callback : value → S → S * bool) (frames : list string)
    (w : S * list string) :
  (fold_left (λ w f, on_frame JSON_parse (Some callback) f w) frames w).1 =
    fold_left (λ s evt, (callback evt s).1) (events_of JSON_parse frames) w.1.
Proof.
  revert w. induction frames as [|f frames IH]; intros w; [done|].
  cbn [fold_left events_of flat_map]. rewrite IH, on_frame_state.
  fold (events_of JSON_parse frames).
  by destruct (classify JSON_parse f).
Qed.

Lemma frames_log (callback : value → S → S * bool) (frames : list string)
    (w : S * list string) :
  (∀ evt s, (callback evt s).2 = false) →
  (fold_left (λ w f, on_frame JSON_parse (Some callback) f w) frames w).2 =
    (w.2 ++ rejects_of JSON_parse frames)%list.
Proof.
  intros Hc. revert w. induction frames as [|f frames IH]; intros w.
  - cbn. by rewrite app_nil_r.
  - cbn [fold_left rejects_of flat_map]. rewrite IH, (on_frame_log _ _ _ Hc).
    fold (rejects_of JSON_parse frames).
    destruct (classify JSON_parse f); cbn [app]; by rewrite <- ?app_assoc.
Qed.

(** The read loop on frames followed by a tail without a delimiter. *)
Lemma read_loop_frames (onEvent : option (value → S → S * bool))
    (frames chunks : list string) (tail : string) (w : S * list string) :
  forallb delimitable frames = true →
  indexOf sep tail = None →
  String.concat "" chunks = serialize frames +:+ tail →
  read_loop JSON_parse onEvent (map ReadChunk chunks ++ [ReadDone]) "" w =
    (fold_left (λ w f, on_frame JSON_parse onEvent f w) frames w, LoopDone).
Proof.
  intros Hframes Htail Hchunks. rewrite read_loop_chunks by done.
  rewrite append_nil, Hchunks, drain_append, drain_serialize by done.
  cbn [fst snd]. rewrite append_nil, drain_none by done. done.
Qed.

End Driver.
End StreamMore.

Section StreamProperties.
Import Net JsString Stream StringFacts StreamFacts FrameLines.

Variable JSON_parse : string → option value.

(** X4: a stream of frames folds the event callback over the events of
    its well-formed frames.  For every event callback, whether or not it
    throws, and every cut of the body into chunks, the state the callback
    is left in is the one reached by calling it on the events of the
    well-formed frames in order: a call that throws does not keep later
    events from being delivered.  When the callback never throws, the
    warning log gains the rejected texts and nothing else. *)
Theorem X4_stream_folds_the_event_callback {S : Type}
    (callback : value → S → S * bool) (onError : option (js_error → S → S))
    (frames chunks : list string) (status : nat) (json : promise value)
    (w : S * list string) :
  forallb delimitable frames = true →
  String.concat "" chunks = serialize frames →
  let result := startChatStream JSON_parse (Some callback) onError
                  (streaming status json (map ReadChunk chunks ++ [ReadDone])) w in
  result.1 = fold_left (λ s evt, (callback evt s).1)
               (events_of JSON_parse frames) w.1 ∧
  ((∀ evt s, (callback evt s).2 = false) →
   result.2 = (w.2 ++ rejects_of JSON_parse frames)%list).
Proof.
  intros Hframes Hchunks. cbn zeta.
  unfold startChatStream, run, run_try, streaming. cbn [f_ok f_body].
  rewrite (StreamMore.read_loop_frames JSON_parse (Some callback) frames chunks "")
    by (try done; by rewrite append_empty_r).
  cbn [fst snd]. split.
  - apply StreamMore.frames_state.
  - intros Hc. by apply StreamMore.frames_log.
Qed.

(** X6: text after the last delimiter is never dispatched.  When the body
    is a run of frames followed by a tail that holds no blank line, the
    stream ends as it does without the tail, for all callbacks; a body
    without any blank line, such as one delimited by carriage returns and
    newlines, changes nothing and logs nothing. *)
Theorem X6_text_after_last_delimiter_is_dropped {S : Type}
    (onEvent : option (value → S → S * bool)) (onError : option (js_error → S → S))
    (frames chunks : list string) (tail : string) (status : nat)
    (json : promise value) (w : S * list string) :
  forallb delimitable frames = true →
  indexOf sep tail = None →
  String.concat "" chunks = serialize frames +:+ tail →
  let result := startChatStream JSON_parse onEvent onError
                  (streaming status json (map ReadChunk chunks ++ [ReadDone])) w in
  result = startChatStream JSON_parse onEvent onError
             (streaming status json [ReadChunk (serialize frames); ReadDone]) w ∧
  (frames = [] → result = w).
Proof.
  intros Hframes Htail Hchunks. cbn zeta.
  unfold startChatStream, run, run_try, streaming. cbn [f_ok f_body].
  rewrite (StreamMore.read_loop_frames JSON_parse onEvent frames chunks tail)
    by done.
  change [ReadChunk (serialize frames); ReadDone]
    with (map ReadChunk [serialize frames] ++ [ReadDone])%list.
  rewrite (StreamMore.read_loop_frames JSON_parse onEvent frames [serialize frames] "")
    by (try done; cbn [String.concat]; by rewrite append_empty_r).
  split; [done|]. by intros ->.
Qed.

(** X7: within the text of a frame, the first line that starts with
    [data: ] decides what is dispatched.  Lines before it that are not data
    lines, and all lines after it, further data lines included, are
    ignored: the frame is handled as that line alone would be. *)
Theorem X7_first_data_line_decides {S : Type}
    (onEvent : option (value → S → S * bool))
    (before after : list string) (dataLine : string) (w : S * list string) :
  forallb single_line (before ++ dataLine :: after) = true →
  forallb (λ line, negb (startsWith "data: " line)) before = true →
  startsWith "data: " dataLine = true →
  dispatch JSON_parse onEvent (join_lines (before ++ dataLine :: after)) w =
    dispatch JSON_parse onEvent dataLine w.
Proof.
  intros Hlines Hbefore Hdata. unfold dispatch.
  assert (Hsplit : split LF (join_lines (before ++ dataLine :: after)) =
                   (before ++ dataLine :: after)%list).
  { destruct before; apply StreamMore.split_join_lines; exact Hlines. }
  rewrite Hsplit, (StreamMore.find_skip _ _ _ _ Hbefore Hdata).
  rewrite StreamMore.split_single_line.
  - cbn [find]. by rewrite Hdata.
  - rewrite forallb_app in Hlines. apply andb_true_iff in Hlines as [_ H].
    cbn [forallb] in H. by apply andb_true_iff in H as [H _].
Qed.


End StreamProperties.

(** X4, at an input: the four example frames in three chunks, with a
    callback that counts its calls and throws on every one. *)
Lemma X4_stream_folds_the_event_callback_witness :
  (Stream.startChatStream Examples.parse (Some (λ _ (n : nat), (S n, true))) None
     (Stream.streaming 200 (Net.Resolved VNull)
        (map Net.ReadChunk Examples.chunks ++ [Net.ReadDone])) (0%nat, [])).1 = 2%nat.
Proof.
  exact (proj1 (X4_stream_folds_the_event_callback Examples.parse
                  (λ _ (n : nat), (S n, true)) None Examples.frames Examples.chunks
                  200 (Net.Resolved VNull) (0%nat, []) eq_refl eq_refl)).
Defined.

(** X6, at an input: the example frames followed by a frame that was
    never terminated. *)
Lemma X6_text_after_last_delimiter_is_dropped_witness :
  Stream.startChatStream Examples.parse Stream.record_event Stream.record_error
    (Stream.streaming 200 (Net.Resolved VNull)
       (map Net.ReadChunk (Examples.chunks ++ ["data: " +:+ Examples.final_text])
        ++ [Net.ReadDone])) ([], []) =
  Stream.startChatStream Examples.parse Stream.record_event Stream.record_error
    (Stream.streaming 200 (Net.Resolved VNull)
       [Net.ReadChunk (Stream.serialize Examples.frames); Net.ReadDone]) ([], []).
Proof.
  exact (proj1 (X6_text_after_last_delimiter_is_dropped Examples.parse
                  Stream.record_event Stream.record_error Examples.frames
                  (Examples.chunks ++ ["data: " +:+ Examples.final_text])
                  ("data: " +:+ Examples.final_text) 200 (Net.Resolved VNull)
                  ([], []) eq_refl eq_refl eq_refl)).
Defined.

(** X7, at an input: an event line, the greeting's data line, and a
    second data line holding the final answer. *)
Lemma X7_first_data_line_decides_witness :
  Stream.dispatch Examples.parse Stream.record_event
    (FrameLines.join_lines
       (["event: message"; "id: 7"] ++
        ("data: " +:+ Examples.greeting_text) :: ["data: " +:+ Examples.final_text]))
    ([], []) =
  Stream.dispatch Examples.parse Stream.record_event
    ("data: " +:+ Examples.greeting_text) ([], []).
Proof.
  exact (X7_first_data_line_decides Examples.parse Stream.record_event
           ["event: message"; "id: 7"] ["data: " +:+ Examples.final_text]
           ("data: " +:+ Examples.greeting_text) ([], []) eq_refl eq_refl eq_refl).
Defined.


(** ** The chat widget over time *)

(** X8: the progress list never shows the same step twice in a row.
    Whatever is sent, whatever events and errors the streams deliver and
    in whatever order, a list of progress steps without two neighbours
    that are [===] stays so; it holds of the empty list every send starts
    from. *)
Theorem X8_progress_steps_never_repeat (actions : list ChatBotRun.action)
    (st : ChatBot.state) :
  ChatBotRun.no_repeat (ChatBot.progressSteps st) = true →
  ChatBotRun.no_repeat (ChatBot.progressSteps (ChatBotRun.run actions st)) = true.
Proof.
  revert st. induction actions as [|a actions IH]; intros st H; [done|].
  cbn [ChatBotRun.run fold_left]. apply IH. by apply ChatBotMore.step_progress.
Qed.

(** X8, at an input: the greeting update delivered twice, then the
    summarizer's. *)
Lemma X8_progress_steps_never_repeat_witness :
  ChatBotRun.no_repeat
    (ChatBot.progressSteps
       (ChatBotRun.run
          [ChatBotRun.Event Examples.open_chat Examples.greeting_event;
           ChatBotRun.Event Examples.open_chat Examples.greeting_event;
           ChatBotRun.Event Examples.open_chat Examples.summarizer_event]
          Examples.waiting)) = true.
Proof.
  exact (X8_progress_steps_never_repeat
           [ChatBotRun.Event Examples.open_chat Examples.greeting_event;
            ChatBotRun.Event Examples.open_chat Examples.greeting_event;
            ChatBotRun.Event Examples.open_chat Examples.summarizer_event]
           Examples.waiting eq_refl).
Defined.

(** X9: sends, stream events and stream errors only ever append to the
    transcript.  After any sequence of them the old transcript is a prefix
    of the new one, at most one message was added per action, and the
    user messages added are exactly the questions of the streams that were
    opened, in order: no send opens a stream without showing the question,
    and none shows a question without opening a stream. *)
Theorem X9_transcript_is_append_only (actions : list ChatBotRun.action)
    (st : ChatBot.state) :
  ∃ added opened,
    ChatBot.messages (ChatBotRun.run actions st) = (ChatBot.messages st ++ added)%list ∧
    ChatBot.streams (ChatBotRun.run actions st) = (ChatBot.streams st ++ opened)%list ∧
    (length added <= length actions)%nat ∧
    map ChatBot.content (List.filter ChatBotRun.is_user added) = map VStr opened.
Proof.
  revert st. induction actions as [|a actions IH]; intros st.
  - exists [], []. by rewrite !app_nil_r.
  - cbn [ChatBotRun.run fold_left].
    destruct (ChatBotMore.step_added a st) as (a1 & o1 & Hm1 & Hs1 & Hl1 & Hu1).
    destruct (IH (ChatBotRun.step a st)) as (a2 & o2 & Hm2 & Hs2 & Hl2 & Hu2).
    exists (a1 ++ a2)%list, (o1 ++ o2)%list.
    unfold ChatBotRun.run in Hm2, Hs2. rewrite Hm2, Hs2, Hm1, Hs1.
    rewrite <- !app_assoc, List.filter_app, !map_app, Hu1, Hu2, length_app.
    repeat split; try done. cbn [length]. lia.
Qed.



(** ** The chat widget's session *)

(** X11: [initializeConversation] always ends with a transcript holding
    the greeting alone and the busy flag off, whatever
    [startConversation] settled to and whatever the widget held before.
    With the session [ApiService.startConversation] returns the session
    id is that session's; when the call is rejected or its result is not
    a success the id is the fallback built from the clock; in both cases
    the id is truthy, so the effect that initialises a widget without a
    session does nothing afterwards.  Running it again changes
    nothing. *)
Theorem X11_initialize_always_greets (started : Net.promise value)
    (w : ChatBotSession.widget) :
  let w' := ChatBotSession.initializeConversation started w in
  let accepted := match started with
                  | Net.Resolved response =>
                      truthy response && truthy (opt_get response "success")
                  | Net.Rejected _ => false
                  end in
  (∃ m, ChatBot.messages (ChatBotSession.chat w') = [m] ∧
        ChatBot.role m = "assistant" ∧
        ChatBot.content m = ChatBotSession.greeting ∧
        ChatBot.isError m = false) ∧
  ChatBot.isLoading (ChatBotSession.chat w') = false ∧
  (accepted = false →
   ChatBotSession.sessionId w' =
     VStr ("fallback-session-" +:+ pretty (ChatBot.now (ChatBotSession.chat w))) ∧
   ∀ again, ChatBotSession.openEffect again w' = w') ∧
  (∀ t, started = ApiService.startConversation t →
   ChatBotSession.sessionId w' = VStr ("convbi_" +:+ pretty t) ∧
   ∀ again, ChatBotSession.openEffect again w' = w') ∧
  ChatBotSession.initializeConversation started w' = w'.
Proof.
  cbn zeta.
  assert (Hfallback : ∀ v again,
            ChatBotSession.sessionId v = VStr ("fallback-session-" +:+
              pretty (ChatBot.now (ChatBotSession.chat w))) →
            ChatBotSession.openEffect again v = v).
  { intros v again Hv. unfold ChatBotSession.openEffect. rewrite Hv.
    cbn. by rewrite andb_false_r. }
  split; [|split; [|split; [|split]]].
  - unfold ChatBotSession.initializeConversation.
    destruct started as [response|err];
      [destruct (truthy response && truthy (opt_get response "success"))|];
      eexists; repeat split.
  - unfold ChatBotSession.initializeConversation.
    by destruct started as [response|err];
      [destruct (truthy response && truthy (opt_get response "success"))|].
  - intros Hno.
    assert (Hid : ChatBotSession.sessionId
                    (ChatBotSession.initializeConversation started w) =
                  VStr ("fallback-session-" +:+
                    pretty (ChatBot.now (ChatBotSession.chat w)))).
    { unfold ChatBotSession.initializeConversation.
      destruct started as [response|err]; [by rewrite Hno|done]. }
    split; [exact Hid|]. intros again. by apply Hfallback.
  - intros t ->. split; [done|].
    intros again. unfold ChatBotSession.openEffect.
    cbn. by rewrite andb_false_r.
  - unfold ChatBotSession.initializeConversation.
    by destruct started as [response|err];
      [destruct (truthy response && truthy (opt_get response "success"))|].
Qed.

(** X12: clearing the chat does not cancel a stream in flight.
    [handleClearChat] replaces the transcript by the greeting and turns
    the busy flag off even while a stream is running; the streams opened
    so far are left as they are.  So the next send of a text that is not
    blank opens another stream beside the one in flight, and the 'final'
    event of the old stream is appended right after the greeting of the
    cleared transcript. *)
Theorem X12_clear_chat_does_not_cancel (started : Net.promise value)
    (w : ChatBotSession.widget) :
  let w' := ChatBotSession.handleClearChat ApiService.clearConversation started w in
  length (ChatBot.messages (ChatBotSession.chat w')) = 1%nat ∧
  ChatBot.isLoading (ChatBotSession.chat w') = false ∧
  ChatBot.streams (ChatBotSession.chat w') = ChatBot.streams (ChatBotSession.chat w) ∧
  (∀ messageText,
     JsString.isEmpty (JsString.trim messageText) = false →
     ChatBot.streams (ChatBotSession.chat (ChatBotSession.handleSendMessage messageText w')) =
       (ChatBot.streams (ChatBotSession.chat w) ++ [messageText])%list) ∧
  (∀ r evt,
     ChatBot.is_final evt = true →
     ChatBot.messages
       (ChatBotSession.chat (ChatBotSession.on_chat (ChatBot.onStreamEvent r evt) w')) =
     (ChatBot.messages (ChatBotSession.chat w') ++
      [ChatBot.aiMessage (ChatBot.now (ChatBotSession.chat w)) (ChatBot.final_data evt)])%list).
Proof.
  cbn zeta.
  set (cleared := ChatBotSession.setSessionId VNull
                    (ChatBotSession.on_chat (ChatBot.setMessages (λ _, [])) w)).
  assert (Hclear : ChatBotSession.handleClearChat ApiService.clearConversation started w =
                   ChatBotSession.initializeConversation started cleared).
  { unfold ChatBotSession.handleClearChat, ApiService.clearConversation.
    by destruct (truthy (ChatBotSession.sessionId w)). }
  rewrite Hclear. clear Hclear.
  assert (H1 : ChatBot.isLoading
                 (ChatBotSession.chat (ChatBotSession.initializeConversation started cleared)) = false).
  { unfold ChatBotSession.initializeConversation.
    by destruct started as [response|err];
      [destruct (truthy response && truthy (opt_get response "success"))|]. }
  assert (H2 : ChatBot.streams
                 (ChatBotSession.chat (ChatBotSession.initializeConversation started cleared)) =
               ChatBot.streams (ChatBotSession.chat w)).
  { unfold ChatBotSession.initializeConversation.
    by destruct started as [response|err];
      [destruct (truthy response && truthy (opt_get response "success"))|]. }
  assert (H3 : ChatBot.now
                 (ChatBotSession.chat (ChatBotSession.initializeConversation started cleared)) =
               ChatBot.now (ChatBotSession.chat w)).
  { unfold ChatBotSession.initializeConversation.
    by destruct started as [response|err];
      [destruct (truthy response && truthy (opt_get response "success"))|]. }
  split; [|split; [|split; [|split]]].
  - unfold ChatBotSession.initializeConversation.
    by destruct started as [response|err];
      [destruct (truthy response && truthy (opt_get response "success"))|].
  - exact H1.
  - exact H2.
  - intros messageText Htext.
    unfold ChatBotSession.handleSendMessage, ChatBot.handleSendMessage,
      ChatBotSession.render_of.
    cbn [ChatBot.r_isLoading ChatBotSession.on_chat ChatBotSession.chat].
    rewrite Htext, H1. cbn [orb].
    cbn [ChatBot.streams ChatBot.openStream ChatBot.setProgressSteps
         ChatBot.setIsTyping ChatBot.setIsLoading ChatBot.setMessages].
    by rewrite H2.
  - intros r evt Hfinal.
    cbn [ChatBotSession.on_chat ChatBotSession.chat].
    by rewrite ChatBotFacts.onStreamEvent_messages, Hfinal, H3.
Qed.

(** X13: whether an answer raises the unread flag depends on the render
    of the send, not on the widget when the answer arrives.  When a text
    that is not blank is sent from an open, idle widget and the chat is
    closed before the answer comes, the 'final' event appends the answer
    but leaves the unread flag off, because the stream's callback holds
    the [isOpen] of the render that sent. *)
Theorem X13_unread_flag_uses_the_render_of_the_send
    (w : ChatBotSession.widget) (messageText : string) (evt : value) :
  ChatBotSession.isOpen w = true →
  ChatBot.isLoading (ChatBotSession.chat w) = false →
  JsString.isEmpty (JsString.trim messageText) = false →
  ChatBot.is_final evt = true →
  let sent := ChatBotSession.handleSendMessage messageText w in
  let closed := ChatBotSession.handleToggleChat sent in
  let answered :=
    ChatBotSession.on_chat
      (ChatBot.onStreamEvent (ChatBotSession.render_of w) evt) closed in
  ChatBotSession.isOpen answered = false ∧
  ChatBot.hasNewMessage (ChatBotSession.chat answered) = false ∧
  ChatBot.messages (ChatBotSession.chat answered) =
    (ChatBot.messages (ChatBotSession.chat w) ++
     [ChatBot.userMessage (ChatBot.now (ChatBotSession.chat w)) messageText;
      ChatBot.aiMessage (ChatBot.now (ChatBotSession.chat w)) (ChatBot.final_data evt)])%list.
Proof.
  intros Hopen Hidle Htext Hfinal. cbn zeta.
  unfold ChatBotSession.handleSendMessage, ChatBot.handleSendMessage,
    ChatBotSession.render_of.
  cbn [ChatBot.r_isLoading]. rewrite Htext, Hidle, Hopen. cbn [orb].
  unfold ChatBotSession.handleToggleChat, ChatBot.onStreamEvent.
  rewrite (ChatBotFacts.final_is_not_update _ Hfinal).
  unfold ChatBot.is_final in Hfinal. rewrite Hfinal.
  unfold ChatBot.final_data.
  cbn [ChatBotSession.on_chat ChatBotSession.chat ChatBotSession.isOpen
       ChatBotSession.setIsOpen ChatBotSession.setIsFullscreen
       ChatBot.hasNewMessage ChatBot.openStream ChatBot.setProgressSteps
       ChatBot.setIsTyping ChatBot.setIsLoading ChatBot.setMessages
       ChatBot.r_isOpen ChatBot.r_speechEnabled].
  rewrite Hopen. cbn [negb].
  destruct (ChatBot.hasNewMessage (ChatBotSession.chat w)) eqn:Hflag;
    destruct (ChatBotSession.speechEnabled w && _);
    cbn; rewrite <- ?app_assoc; done.
Qed.

(** X13, at an input: a question sent from the open widget once its
    first answer has arrived. *)
Lemma X13_unread_flag_uses_the_render_of_the_send_witness :
  let sent := ChatBotSession.handleSendMessage "And last month?"
                SessionExamples.idle_open in
  let closed := ChatBotSession.handleToggleChat sent in
  let answered :=
    ChatBotSession.on_chat
      (ChatBot.onStreamEvent (ChatBotSession.render_of SessionExamples.idle_open)
         Examples.final_event) closed in
  ChatBot.hasNewMessage (ChatBotSession.chat answered) = false.
Proof.
  exact (proj1 (proj2
           (X13_unread_flag_uses_the_render_of_the_send SessionExamples.idle_open
              "And last month?" Examples.final_event eq_refl eq_refl eq_refl eq_refl))).
Defined.

(** ** Chart data and the chart methods *)

Module ObjectFacts.

Lemma assoc_set_prop_eq (k : string) (v : value) (props : list (string * value)) :
  assoc k (set_prop k v props) = Some v.
Proof.
  induction props as [|[k' v'] props IH]; cbn.
  - by rewrite String.eqb_refl.
  - destruct (String.eqb k' k) eqn:E; cbn; [by rewrite String.eqb_refl|].
    by rewrite E.
Qed.

Lemma assoc_set_prop_ne (k k' : string) (v : value) (props : list (string * value)) :
  k' ≠ k → assoc k' (set_prop k v props) = assoc k' props.
Proof.
  intros Hne. induction props as [|[k1 v1] props IH]; cbn.
  - destruct (String.eqb_spec k k'); [congruence|done].
  - destruct (String.eqb_spec k1 k) as [->|Hk]; cbn.
    + destruct (String.eqb_spec k k'); [congruence|].
      destruct (String.eqb_spec k k'); [congruence|done].
    + destruct (String.eqb_spec k1 k'); [done|apply IH].
Qed.

Lemma set_prop_idem (k : string) (v : value) (props : list (string * value)) :
  set_prop k v (set_prop k v props) = set_prop k v props.
Proof.
  induction props as [|[k' v'] props IH]; cbn.
  - by rewrite String.eqb_refl.
  - destruct (String.eqb k' k) eqn:E; cbn; [by rewrite String.eqb_refl|].
    by rewrite E, IH.
Qed.

Lemma assoc_None (k : string) (props : list (string * value)) :
  k ∉ map fst props → assoc k props = None.
Proof.
  induction props as [|[k' v'] props IH]; [done|]. cbn. intros Hk.
  apply not_elem_of_cons in Hk as [Hne Hk].
  destruct (String.eqb_spec k' k); [congruence|by apply IH].
Qed.

Lemma assoc_Some_elem (k : string) (props : list (string * value)) :
  k ∈ map fst props → is_Some (assoc k props).
Proof.
  induction props as [|[k' v'] props IH]; cbn.
  - by intros ?%elem_of_nil.
  - intros [->|Hk]%elem_of_cons.
    + by rewrite String.eqb_refl.
    + destruct (String.eqb k' k); [done|by apply IH].
Qed.

(** The fields of [{ ...fields, ...response }]: the response's own win. *)
Lemma assoc_with_spread (props fields : list (string * value)) (k : string) :
  NoDup (map fst props) →
  assoc k (fold_left (λ acc kv, set_prop kv.1 kv.2 acc) props fields) =
    match assoc k props with
    | Some v => Some v
    | None => assoc k fields
    end.
Proof.
  revert fields. induction props as [|[k1 v1] props IH]; intros fields Hnd;
    [done|].
  cbn [map fst] in Hnd. apply NoDup_cons in Hnd as [Hk1 Hnd].
  cbn [fold_left assoc fst snd]. rewrite (IH _ Hnd).
  destruct (String.eqb_spec k1 k) as [->|Hne].
  - by rewrite (assoc_None _ _ Hk1), assoc_set_prop_eq.
  - rewrite assoc_set_prop_ne by congruence. done.
Qed.

End ObjectFacts.

(** X14: [sanitizeChartData] changes nothing but [displayTitle].  Every
    other property of a chart object reads as before, the title
    included; a string title, or the truthy [text] of an object title, is
    what [displayTitle] becomes; sanitising twice is sanitising once; and
    a value that is falsy or not an object is returned as it is. *)
Theorem X14_sanitize_only_sets_displayTitle (props : list (string * value)) :
  let chart := VObj props in
  let sanitized := ApiService.sanitizeChartData chart in
  (∀ k, k ≠ "displayTitle" → opt_get sanitized k = opt_get chart k) ∧
  (∀ t, opt_get chart "title" = VStr t → opt_get sanitized "displayTitle" = VStr t) ∧
  (∀ fields, opt_get chart "title" = VObj fields →
     truthy (opt_get (VObj fields) "text") = true →
     opt_get sanitized "displayTitle" = opt_get (VObj fields) "text") ∧
  ApiService.sanitizeChartData sanitized = sanitized ∧
  (∀ v, truthy v = false ∨ typeof_object v = false →
     ApiService.sanitizeChartData v = v).
Proof.
  cbn zeta.
  assert (Hshape : ∀ props',
            ApiService.sanitizeChartData (VObj props') =
            let title := default VUndef (assoc "title" props') in
            if truthy title && typeof_object title && truthy (opt_get title "text")
            then VObj (set_prop "displayTitle" (opt_get title "text") props')
            else match title with
                 | VStr _ => VObj (set_prop "displayTitle" title props')
                 | _ => VObj props'
                 end) by done.
  split; [|split; [|split; [|split]]].
  - intros k Hk. rewrite Hshape. cbn zeta.
    destruct (_ && _); [|destruct (default VUndef (assoc "title" props))];
      cbn [opt_get]; by rewrite ?ObjectFacts.assoc_set_prop_ne.
  - intros t Ht. rewrite Hshape. cbn [opt_get] in Ht. cbn zeta. rewrite Ht.
    cbn [truthy typeof_object andb opt_get].
    rewrite andb_false_r. cbn [opt_get]. by rewrite ObjectFacts.assoc_set_prop_eq.
  - intros fields Ht Htext. rewrite Hshape. cbn [opt_get] in Ht. cbn zeta.
    rewrite Ht. cbn [truthy typeof_object andb]. rewrite Htext.
    cbn [opt_get]. by rewrite ObjectFacts.assoc_set_prop_eq.
  - rewrite Hshape. cbn zeta.
    destruct (truthy (default VUndef (assoc "title" props)) &&
              typeof_object (default VUndef (assoc "title" props)) &&
              truthy (opt_get (default VUndef (assoc "title" props)) "text")) eqn:E.
    + rewrite Hshape. cbn zeta.
      rewrite ObjectFacts.assoc_set_prop_ne by done. rewrite E.
      by rewrite ObjectFacts.set_prop_idem.
    + destruct (default VUndef (assoc "title" props)) eqn:Et;
        rewrite Hshape; cbn zeta;
        rewrite ?ObjectFacts.assoc_set_prop_ne by done; rewrite Et, ?E;
        by rewrite ?ObjectFacts.set_prop_idem.
  - intros v [Hv|Hv]; unfold ApiService.sanitizeChartData; rewrite Hv; cbn [negb orb];
      by rewrite ?orb_true_r.
Qed.

(** X15: [getUserCharts] and [addChartToDashboard] never lose or change a
    field of the response body.  For a body that is an object, every one
    of its fields reads the same in the result, its own [success] and
    [charts] included, even when that [charts] is [null]; the computed
    [success] flag and the empty [charts] list appear only when the body
    has no such field of its own.  A body that is [null] makes both
    methods reject with a TypeError. *)
Theorem X15_chart_methods_keep_the_body (status : nat)
    (props : list (string * value)) :
  NoDup (map fst props) →
  let body := Net.Resolved {| Net.resp_status := status; Net.resp_data := VObj props |} in
  let flag := VBool (strict_eq (opt_get (VObj props) "status") (VStr "success")) in
  (∃ out, ApiService.getUserCharts body = Net.Resolved (VObj out) ∧
     (∀ k, k ∈ map fst props → assoc k out = assoc k props) ∧
     ("success" ∉ map fst props → assoc "success" out = Some flag) ∧
     ("charts" ∉ map fst props → assoc "charts" out = Some (VArr []))) ∧
  (∃ out, ApiService.addChartToDashboard body = Net.Resolved (VObj out) ∧
     (∀ k, k ∈ map fst props → assoc k out = assoc k props) ∧
     ("success" ∉ map fst props → assoc "success" out = Some flag) ∧
     ("charts" ∉ map fst props → assoc "charts" out = None)) ∧
  (∀ null_body, Net.resp_data null_body = VNull →
     ApiService.getUserCharts (Net.Resolved null_body) =
       Net.Rejected (ApiService.property_TypeError VNull "status") ∧
     ApiService.addChartToDashboard (Net.Resolved null_body) =
       Net.Rejected (ApiService.property_TypeError VNull "status")).
Proof.
  intros Hnd. cbn zeta. split; [|split].
  - eexists. split; [reflexivity|]. cbn [spread]. split; [|split].
    + intros k Hk. rewrite (ObjectFacts.assoc_with_spread _ _ _ Hnd).
      by destruct (ObjectFacts.assoc_Some_elem _ _ Hk) as [v ->].
    + intros Hk. rewrite (ObjectFacts.assoc_with_spread _ _ _ Hnd).
      by rewrite (ObjectFacts.assoc_None _ _ Hk).
    + intros Hk. rewrite (ObjectFacts.assoc_with_spread _ _ _ Hnd).
      rewrite (ObjectFacts.assoc_None _ _ Hk). cbn [Net.resp_data opt_get].
      by rewrite (ObjectFacts.assoc_None _ _ Hk).
  - eexists. split; [reflexivity|]. cbn [spread]. split; [|split].
    + intros k Hk. rewrite (ObjectFacts.assoc_with_spread _ _ _ Hnd).
      by destruct (ObjectFacts.assoc_Some_elem _ _ Hk) as [v ->].
    + intros Hk. rewrite (ObjectFacts.assoc_with_spread _ _ _ Hnd).
      by rewrite (ObjectFacts.assoc_None _ _ Hk).
    + intros Hk. rewrite (ObjectFacts.assoc_with_spread _ _ _ Hnd).
      by rewrite (ObjectFacts.assoc_None _ _ Hk).
  - intros null_body Hnull.
    unfold ApiService.getUserCharts, ApiService.addChartToDashboard,
      ApiService.api_get, ApiService.api_post, ApiService.response_interceptor.
    by rewrite Hnull.
Qed.

(** X15, at an input: a body whose [charts] is [null] and which has a
    [success] of its own. *)
Lemma X15_chart_methods_keep_the_body_witness :
  ∃ out,
    ApiService.getUserCharts
      (Net.Resolved {| Net.resp_status := 200;
                       Net.resp_data := VObj ChartExamples.null_charts |}) =
      Net.Resolved (VObj out) ∧
    assoc "charts" out = Some VNull ∧
    assoc "success" out = Some (VStr "yes").
Proof.
  assert (Hnd : NoDup (map fst ChartExamples.null_charts)).
  { by apply (bool_decide_unpack (NoDup (map fst ChartExamples.null_charts))). }
  destruct (proj1 (X15_chart_methods_keep_the_body 200 ChartExamples.null_charts Hnd))
    as (out & Hout & Hkeep & _).
  exists out. split; [exact Hout|]. split.
  - rewrite Hkeep; [done|].
    by apply (bool_decide_unpack ("charts" ∈ map fst ChartExamples.null_charts)).
  - rewrite Hkeep; [done|].
    by apply (bool_decide_unpack ("success" ∈ map fst ChartExamples.null_charts)).
Defined.

(** ** The supplier dashboard page *)

(** X16: [loadData] never leaves the page loading, and reports every
    failure.  On success the data is the response body and the error is
    cleared.  On failure the data is kept as it was and the error is a
    truthy text, so the banner is shown: the server's [detail] when that
    is a string that is not empty, and the network message when no
    response was received.  After a failure with no data yet, the page
    shows the banner above the charts' own 'Loading supplier
    dashboard...' alert, for any selection. *)
Theorem X16_loadData_reports_every_failure
    (response : Net.promise Net.http_response)
    (st : UnifiedSafetyDashboard.state) (selectedSuppliers : list value) :
  let st' := UnifiedSafetyDashboard.loadData
               (ApiService.getSupplierDashboardAnalytics response) st in
  UnifiedSafetyDashboard.loading st' = false ∧
  match response with
  | Net.Resolved r =>
      UnifiedSafetyDashboard.data st' = Net.resp_data r ∧
      UnifiedSafetyDashboard.error st' = VNull
  | Net.Rejected e =>
      UnifiedSafetyDashboard.data st' = UnifiedSafetyDashboard.data st ∧
      truthy (UnifiedSafetyDashboard.error st') = true ∧
      (∀ r detail, Net.err_response e = Some r →
         opt_get (Net.resp_data r) "detail" = VStr detail → detail ≠ "" →
         UnifiedSafetyDashboard.error st' = VStr detail) ∧
      (Net.err_response e = None → Net.err_request e = true →
         UnifiedSafetyDashboard.error st' =
           VStr "Network error - please check your connection") ∧
      (UnifiedSafetyDashboard.data st = VNull →
       UnifiedSafetyDashboard.render st' selectedSuppliers =
         (Some (UnifiedSafetyDashboard.error st'),
          UnifiedSafetyDashboard.Charts
            (Some (SupplierDashboardCharts.LoadingAlert
                     "Loading supplier dashboard..."))))
  end.
Proof.
  cbn zeta. split; [by destruct response as [r|e]|].
  destruct response as [r|e]; [done|].
  assert (Htruthy : ∀ err,
            truthy (UnifiedSafetyDashboard.error
                      (UnifiedSafetyDashboard.loadData (Net.Rejected err) st)) = true).
  { intros err. cbn. unfold UnifiedSafetyDashboard.message_or, js_or.
    by destruct (truthy (VStr (Net.err_message err))) eqn:E. }
  unfold ApiService.getSupplierDashboardAnalytics, ApiService.api_get.
  assert (Hrejects : ∃ thrown,
            ApiService.response_interceptor (Net.Rejected e) = Net.Rejected thrown).
  { unfold ApiService.response_interceptor.
    destruct (Net.err_response e);
      [destruct (ToPrimitive_throws _)|destruct (Net.err_request e)]; eauto. }
  destruct Hrejects as [thrown Hthrown].
  split; [|split; [|split; [|split]]].
  - by rewrite Hthrown.
  - rewrite Hthrown. apply Htruthy.
  - intros r detail Hr Hdetail Hne.
    pose proof (ConversionFacts.nonempty_truthy detail Hne) as Ht.
    assert (Hnew : ApiService.response_interceptor (Net.Rejected e) =
                   Net.Rejected (Net.new_Error detail)).
    { unfold ApiService.response_interceptor. rewrite Hr, Hdetail. cbn zeta.
      assert (js_or (VStr detail)
                (js_or (opt_get (Net.resp_data r) "error")
                   (VStr "Server error occurred")) = VStr detail) as ->
        by (unfold js_or; by rewrite Ht).
      done. }
    rewrite Hnew. cbn.
    unfold UnifiedSafetyDashboard.message_or, js_or.
    cbn [Net.err_message Net.new_Error]. by rewrite Ht.
  - intros Hr Hq. unfold ApiService.response_interceptor. by rewrite Hr, Hq.
  - intros Hdata. rewrite Hthrown. unfold UnifiedSafetyDashboard.render.
    assert (Hd : UnifiedSafetyDashboard.data
                   (UnifiedSafetyDashboard.loadData (Net.Rejected thrown) st) = VNull)
      by exact Hdata.
    assert (Hl : UnifiedSafetyDashboard.loading
                   (UnifiedSafetyDashboard.loadData (Net.Rejected thrown) st) = false)
      by done.
    rewrite Htruthy, Hd, Hl.
    by rewrite DashboardFacts.render_reaches_guard.
Qed.

(** X17: generating more insights appends, and keeps feedback aligned.
    After insights were fetched, a generate-more response whose
    [additional_insights] is an array (or absent) leaves the list as the
    fetched insights followed by the new ones: every insight keeps its
    index, and the feedback recorded by index is untouched.  A call made
    while one is in progress changes nothing; a failed call keeps the
    insights and sets a truthy error; in each case the in-progress flag
    ends off. *)
Theorem X17_generate_more_keeps_indices (resp more_resp : value)
    (old more : list value) (st : UnifiedSafetyDashboard.state) :
  js_or (opt_get resp "general_insights") (VArr []) = VArr old →
  js_or (opt_get more_resp "additional_insights") (VArr []) = VArr more →
  UnifiedSafetyDashboard.loadingMoreInsights st = false →
  let fetched := UnifiedSafetyDashboard.fetchSupplierInsights (Net.Resolved resp) st in
  (∃ st',
     UnifiedSafetyDashboard.handleGenerateMoreInsights
       (UnifiedSafetyDashboard.loadingMoreInsights fetched)
       (Net.Resolved more_resp) fetched = Some st' ∧
     UnifiedSafetyDashboard.aiAnalysis st' = VObj [("insights", VArr (old ++ more))] ∧
     (∀ j, (j < length old)%nat → (old ++ more)%list !! j = old !! j) ∧
     UnifiedSafetyDashboard.insightFeedback st' =
       UnifiedSafetyDashboard.insightFeedback st ∧
     UnifiedSafetyDashboard.loadingMoreInsights st' = false) ∧
  (∀ r, UnifiedSafetyDashboard.handleGenerateMoreInsights true r fetched = Some fetched) ∧
  (∀ e, ∃ st',
     UnifiedSafetyDashboard.handleGenerateMoreInsights false (Net.Rejected e) fetched =
       Some st' ∧
     UnifiedSafetyDashboard.aiAnalysis st' = VObj [("insights", VArr old)] ∧
     truthy (UnifiedSafetyDashboard.aiError st') = true ∧
     UnifiedSafetyDashboard.loadingMoreInsights st' = false).
Proof.
  intros Hold Hmore Hflag. cbn zeta. split; [|split].
  - unfold UnifiedSafetyDashboard.fetchSupplierInsights.
    cbn [UnifiedSafetyDashboard.loadingMoreInsights
         UnifiedSafetyDashboard.setAiLoading UnifiedSafetyDashboard.setAiAnalysis
         UnifiedSafetyDashboard.setAiError].
    rewrite Hflag, Hold.
    unfold UnifiedSafetyDashboard.handleGenerateMoreInsights. rewrite Hmore.
    eexists. split; [reflexivity|]. repeat split.
    intros j Hj. by apply lookup_app_l.
  - done.
  - intros e. eexists. split; [reflexivity|].
    unfold UnifiedSafetyDashboard.fetchSupplierInsights.
    cbn [UnifiedSafetyDashboard.aiAnalysis UnifiedSafetyDashboard.aiError
         UnifiedSafetyDashboard.loadingMoreInsights
         UnifiedSafetyDashboard.setLoadingMoreInsights
         UnifiedSafetyDashboard.setAiLoading UnifiedSafetyDashboard.setAiAnalysis
         UnifiedSafetyDashboard.setAiError].
    rewrite Hold. repeat split.
    unfold UnifiedSafetyDashboard.message_or, js_or.
    by destruct (truthy (VStr (Net.err_message e))) eqn:E.
Qed.

(** X17, at an input: two fetched insights and one more. *)
Lemma X17_generate_more_keeps_indices_witness :
  ∃ st',
    UnifiedSafetyDashboard.handleGenerateMoreInsights false
      (Net.Resolved PageExamples.one_more)
      (UnifiedSafetyDashboard.fetchSupplierInsights
         (Net.Resolved PageExamples.two_insights) UnifiedSafetyDashboard.initial) =
      Some st' ∧
    UnifiedSafetyDashboard.aiAnalysis st' =
      VObj [("insights",
             VArr [VStr "Late deliveries rose"; VStr "Downtime fell";
                   VStr "Trips are stable"])].
Proof.
  destruct (proj1
              (X17_generate_more_keeps_indices PageExamples.two_insights
                 PageExamples.one_more
                 [VStr "Late deliveries rose"; VStr "Downtime fell"]
                 [VStr "Trips are stable"] UnifiedSafetyDashboard.initial
                 eq_refl eq_refl eq_refl))
    as (st' & Hrun & Hanalysis & _).
  exists st'. split; [exact Hrun|exact Hanalysis].
Defined.

(** ** Selecting suppliers *)

Module SelectionFacts.

Lemma strict_eq_eq (a b : value) : strict_eq a b = true → a = b.
Proof.
  destruct a, b; cbn; try done.
  - intros H. by rewrite (Bool.eqb_prop _ _ H).
  - intros H%Z.eqb_eq. by subst.
  - intros H%String.eqb_eq. by subst.
Qed.

Lemma strict_eq_refl (a : value) : primitive a = true → strict_eq a a = true.
Proof.
  destruct a; cbn; try done; intros _.
  - by destruct b.
  - apply Z.eqb_refl.
  - apply String.eqb_refl.
Qed.

Lemma includes_elem (items : list value) (x : value) :
  includes items x = true → x ∈ items.
Proof.
  unfold includes. induction items as [|y items IH]; cbn; [done|].
  intros [H|H]%orb_true_iff.
  - rewrite (strict_eq_eq _ _ H). apply list_elem_of_here.
  - apply list_elem_of_further. by apply IH.
Qed.

Lemma elem_includes (items : list value) (x : value) :
  primitive x = true → x ∈ items → includes items x = true.
Proof.
  unfold includes. intros Hx. induction items as [|y items IH]; cbn.
  - by intros ?%elem_of_nil.
  - intros [<-|H]%elem_of_cons.
    + by rewrite strict_eq_refl.
    + rewrite IH by done. apply orb_true_r.
Qed.

(** The test both dropdowns make: the selection is as long as the list of
    suppliers and includes each of them. *)
Lemma all_selected_Permutation (every selected : list value) :
  forallb primitive every = true → NoDup every →
  Nat.eqb (length selected) (length every)
  && forallb (λ s, includes selected s) every = true ↔
  selected ≡ₚ every.
Proof.
  intros Hprim Hnd. split.
  - intros [Hlen Hall]%andb_true_iff. apply Nat.eqb_eq in Hlen.
    symmetry. apply submseteq_length_Permutation; [|lia].
    apply NoDup_submseteq; [done|]. intros x Hx.
    apply includes_elem.
    rewrite forallb_forall in Hall. apply Hall. by apply list_elem_of_In.
  - intros Hperm. apply andb_true_iff. split.
    + apply Nat.eqb_eq. by rewrite Hperm.
    + apply forallb_forall. intros x Hx. apply elem_includes.
      * rewrite forallb_forall in Hprim. by apply Hprim.
      * rewrite Hperm. by apply list_elem_of_In.
Qed.

Lemma dedup_seen (seen l : list value) (y : value) :
  y ∈ SupplierDashboardCharts.dedup seen l → existsb (strict_eq y) seen = false.
Proof.
  revert seen. induction l as [|x l IH]; intros seen; cbn.
  - by intros ?%elem_of_nil.
  - destruct (existsb (strict_eq x) seen) eqn:E; [apply IH|].
    intros [->|H]%elem_of_cons; [done|].
    apply IH in H. cbn in H. by apply orb_false_iff in H as [_ H].
Qed.

Lemma dedup_NoDup (seen l : list value) :
  forallb primitive (SupplierDashboardCharts.dedup seen l) = true →
  NoDup (SupplierDashboardCharts.dedup seen l).
Proof.
  revert seen. induction l as [|x l IH]; intros seen; cbn.
  - intros _. apply NoDup_nil_2.
  - destruct (existsb (strict_eq x) seen) eqn:E; [apply IH|].
    cbn. intros [Hx Hrest]%andb_true_iff. apply NoDup_cons_2.
    + intros H%dedup_seen. cbn in H. by rewrite (strict_eq_refl _ Hx) in H.
    + by apply IH.
Qed.

End SelectionFacts.

(** X18: [fetchDashboardData] of the first client never leaves the
    spinner up, and shows one generic message for every failure.  After
    it the page is not loading; the error is either absent or the text
    'Failed to load dashboard data', in which case the page is that
    alert, whatever the server said.  A rejected request keeps the data
    and the suppliers as they were.  The suppliers are either left as
    they were or replaced together, the selection being the first three
    of those available. *)
Theorem X18_fetch_ends_loading_with_generic_error (r : Net.promise value)
    (st : Dashboard.state) :
  let st' := Dashboard.fetchDashboardData r st in
  Dashboard.loading st' = false ∧
  Dashboard.render st' ≠ Dashboard.LoadingSpinner ∧
  (Dashboard.error st' = None ∨
   (Dashboard.error st' = Some "Failed to load dashboard data" ∧
    Dashboard.render st' = Dashboard.ErrorAlert "Failed to load dashboard data")) ∧
  (∀ e, r = Net.Rejected e →
     Dashboard.error st' = Some "Failed to load dashboard data" ∧
     Dashboard.dashboardData st' = Dashboard.dashboardData st ∧
     Dashboard.availableSuppliers st' = Dashboard.availableSuppliers st ∧
     Dashboard.selectedSuppliers st' = Dashboard.selectedSuppliers st) ∧
  ((Dashboard.availableSuppliers st' = Dashboard.availableSuppliers st ∧
    Dashboard.selectedSuppliers st' = Dashboard.selectedSuppliers st) ∨
   Dashboard.selectedSuppliers st' = take 3 (Dashboard.availableSuppliers st')).
Proof.
  cbn zeta. unfold Dashboard.fetchDashboardData.
  set (start := Dashboard.setError None (Dashboard.setLoading true st)).
  assert (Htry : (Dashboard.error (Dashboard.fetch_try r start).1 = None) ∧
                 ((Dashboard.availableSuppliers (Dashboard.fetch_try r start).1 =
                     Dashboard.availableSuppliers st ∧
                   Dashboard.selectedSuppliers (Dashboard.fetch_try r start).1 =
                     Dashboard.selectedSuppliers st) ∨
                  Dashboard.selectedSuppliers (Dashboard.fetch_try r start).1 =
                    take 3 (Dashboard.availableSuppliers (Dashboard.fetch_try r start).1))).
  { unfold Dashboard.fetch_try. destruct r as [response|e]; [|by split; [|left]].
    destruct (member response "data") as [inner|]; [|by split; [|left]].
    destruct (member _ "rankings") as [rankings|]; [|by split; [|left]].
    destruct (truthy rankings); [|by split; [|left]].
    destruct (Dashboard.firstRankingSuppliers rankings); [|by split; [|left]].
    by split; [|right]. }
  destruct Htry as [Herr Hsup].
  destruct (Dashboard.fetch_try r start) as [tried threw] eqn:Et.
  cbn [fst snd] in *.
  split; [done|]. split; [|split; [|split]].
  - unfold Dashboard.render. cbn. destruct threw; cbn; [done|].
    rewrite Herr. by destruct (_ || _).
  - destruct threw; [right|left; exact Herr]. by split.
  - intros e ->. cbn in Et. by injection Et as <- <-.
  - by destruct threw.
Qed.

(** X19: the first client's dropdown shows 'All Suppliers' exactly when
    the selection is a reordering of the available suppliers.  For
    available suppliers that are primitive values without repetition,
    [isAllSuppliersSelected] holds if and only if the selection is a
    permutation of them; choosing 'All Suppliers' selects them all and the
    dropdown then shows that entry alone; any other choice becomes the
    selection as it is. *)
Theorem X19_all_suppliers_entry_iff_permutation (st : Dashboard.state) :
  forallb primitive (Dashboard.availableSuppliers st) = true →
  NoDup (Dashboard.availableSuppliers st) →
  (DashboardSelection.isAllSuppliersSelected st = true ↔
   Dashboard.selectedSuppliers st ≡ₚ Dashboard.availableSuppliers st) ∧
  (∀ selected,
     includes selected (VStr "All Suppliers") = true →
     Dashboard.selectedSuppliers (DashboardSelection.handleSupplierSelection selected st) =
       Dashboard.availableSuppliers st ∧
     DashboardSelection.getDropdownValue
       (DashboardSelection.handleSupplierSelection selected st) =
       [VStr "All Suppliers"]) ∧
  (∀ selected,
     includes selected (VStr "All Suppliers") = false →
     Dashboard.selectedSuppliers (DashboardSelection.handleSupplierSelection selected st) =
       selected ∧
     DashboardSelection.getDropdownValue
       (DashboardSelection.handleSupplierSelection selected st) =
       if DashboardSelection.isAllSuppliersSelected
            (DashboardSelection.setSelectedSuppliers selected st)
       then [VStr "All Suppliers"] else selected).
Proof.
  intros Hprim Hnd. split; [|split].
  - apply SelectionFacts.all_selected_Permutation; done.
  - intros selected Hall. unfold DashboardSelection.handleSupplierSelection.
    rewrite Hall. split; [done|].
    unfold DashboardSelection.getDropdownValue.
    assert (H : DashboardSelection.isAllSuppliersSelected
                  (DashboardSelection.setSelectedSuppliers
                     (Dashboard.availableSuppliers st) st) = true).
    { apply (SelectionFacts.all_selected_Permutation
               (Dashboard.availableSuppliers st) (Dashboard.availableSuppliers st));
        done. }
    by rewrite H.
  - intros selected Hall. unfold DashboardSelection.handleSupplierSelection.
    by rewrite Hall.
Qed.

(** X19, at an input: three suppliers, two of them selected. *)
Lemma X19_all_suppliers_entry_iff_permutation_witness :
  DashboardSelection.getDropdownValue
    (DashboardSelection.handleSupplierSelection
       [VStr "Acme"; VStr "All Suppliers"] SelectionExamples.two_selected) =
    [VStr "All Suppliers"].
Proof.
  assert (Hnd : NoDup (Dashboard.availableSuppliers SelectionExamples.two_selected)).
  { repeat (apply NoDup_cons_2;
              [rewrite ?elem_of_cons, elem_of_nil; intuition congruence|]).
    apply NoDup_nil_2. }
  exact (proj2 (proj1 (proj2
           (X19_all_suppliers_entry_iff_permutation SelectionExamples.two_selected
              eq_refl Hnd))
           [VStr "Acme"; VStr "All Suppliers"] eq_refl)).
Defined.

(** X20: every point of a monthly series sits under its own month.  For
    any payload and any current month, the series has as many entries as
    the chart has month labels, one more than the month's index; the entry
    at a label's position is the value the payload holds for that month,
    and [null], never [undefined], when it holds none: a missing month is
    a gap and does not shift the months after it. *)
Theorem X20_monthly_series_aligned_with_labels (currentMonthIndex : nat)
    (analytics : value) (kpi : string) :
  (currentMonthIndex <= 11)%nat →
  let monthlyData :=
    js_or (opt_get (opt_get (opt_get analytics "timeSeries") kpi) "monthlyData")
      (VObj []) in
  let series := ChartsSelection.monthlySeries currentMonthIndex analytics kpi in
  length series = length (ChartsSelection.monthsUpToNow currentMonthIndex) ∧
  length series = (currentMonthIndex + 1)%nat ∧
  ∀ i m,
    ChartsSelection.monthsUpToNow currentMonthIndex !! i = Some m →
    series !! i = Some (nullish_or (opt_get monthlyData m) VNull) ∧
    series !! i ≠ Some VUndef.
Proof.
  intros Hidx. cbn zeta. unfold ChartsSelection.monthlySeries.
  set (monthlyData := js_or _ (VObj [])).
  assert (Hlabels : length (ChartsSelection.monthsUpToNow currentMonthIndex) =
                    (currentMonthIndex + 1)%nat).
  { unfold ChartsSelection.monthsUpToNow. rewrite length_take. cbn. lia. }
  assert (Hseries : length (ChartsSelection.toSeriesFromMonthlyObj monthlyData) = 12%nat)
    by done.
  split; [|split].
  - rewrite length_take, Hseries, Hlabels. lia.
  - rewrite length_take, Hseries, Hlabels. lia.
  - intros i m Hm. unfold ChartsSelection.monthsUpToNow in Hm.
    apply lookup_take_Some in Hm as [Hm Hi].
    rewrite Hlabels, lookup_take_lt by done.
    unfold ChartsSelection.toSeriesFromMonthlyObj.
    rewrite list_lookup_fmap, Hm. cbn [fmap option_fmap option_map].
    split; [done|]. by destruct (opt_get monthlyData m).
Qed.

(** X20, at an input: March as the current month, with data for January
    and March only. *)
Lemma X20_monthly_series_aligned_with_labels_witness :
  ChartsSelection.monthlySeries 2 SelectionExamples.two_months "quantityShipped" =
    [VNum 120; VNull; VNum 90] ∧
  ChartsSelection.monthsUpToNow 2 = ["Jan"; "Feb"; "Mar"].
Proof.
  pose proof (X20_monthly_series_aligned_with_labels 2 SelectionExamples.two_months
                "quantityShipped" ltac:(lia)) as (_ & _ & H).
  destruct (H 0%nat "Jan" eq_refl) as [H0 _].
  destruct (H 1%nat "Feb" eq_refl) as [H1 _].
  destruct (H 2%nat "Mar" eq_refl) as [H2 _].
  split; [|done].
  apply list_eq. intros [|[|[|i]]]; [exact H0|exact H1|exact H2|done].
Defined.

(** X21: the charts' supplier list has no repetition, and its dropdown
    shows the all-suppliers entry exactly when the selection is a
    reordering of that list.  When the suppliers read from the rankings
    are primitive values: no supplier is listed twice, however many KPIs
    rank it; [isAllSelected] holds if and only if the selection is a
    permutation of the list; choosing the all-suppliers entry selects
    every supplier; and while there are suppliers the selection does not
    stay empty, so 'Deselect All' ends with the first three selected,
    which is every supplier when there are at most three. *)
Theorem X21_charts_selection (rankings : value)
    (allSuppliers selectedSuppliers : list value) :
  SupplierDashboardCharts.allSuppliers rankings = Some allSuppliers →
  forallb primitive allSuppliers = true →
  NoDup allSuppliers ∧
  (ChartsSelection.isAllSelected allSuppliers selectedSuppliers = true ↔
   selectedSuppliers ≡ₚ allSuppliers) ∧
  (∀ targetValue,
     includes targetValue (VStr "__ALL__") = true →
     ChartsSelection.dropdownValue allSuppliers
       (ChartsSelection.handleSupplierSelection allSuppliers targetValue) =
       [VStr "__ALL__"]) ∧
  (allSuppliers ≠ [] →
   ChartsSelection.defaultSelection allSuppliers selectedSuppliers ≠ [] ∧
   ChartsSelection.defaultSelection allSuppliers
     (ChartsSelection.toggleAll allSuppliers allSuppliers) = take 3 allSuppliers ∧
   ((length allSuppliers <= 3)%nat →
    ChartsSelection.defaultSelection allSuppliers
      (ChartsSelection.toggleAll allSuppliers allSuppliers) = allSuppliers)).
Proof.
  intros Hall Hprim.
  assert (Hnd : NoDup allSuppliers).
  { unfold SupplierDashboardCharts.allSuppliers in Hall.
    destruct (mapM _ _) as [lists|]; [|done]. cbn in Hall.
    injection Hall as <-. by apply SelectionFacts.dedup_NoDup. }
  assert (Hself : ChartsSelection.isAllSelected allSuppliers allSuppliers = true)
    by by apply SelectionFacts.all_selected_Permutation.
  split; [exact Hnd|]. split; [|split].
  - by apply SelectionFacts.all_selected_Permutation.
  - intros targetValue Ht.
    unfold ChartsSelection.handleSupplierSelection, ChartsSelection.dropdownValue.
    by rewrite Ht, Hself.
  - intros Hne.
    assert (Hlen : Nat.eqb (length allSuppliers) 0 = false).
    { destruct allSuppliers; [done|]. done. }
    assert (Hdeselect : ChartsSelection.defaultSelection allSuppliers
                          (ChartsSelection.toggleAll allSuppliers allSuppliers) =
                        take 3 allSuppliers).
    { unfold ChartsSelection.toggleAll, ChartsSelection.defaultSelection.
      by rewrite Hself, Hlen. }
    split; [|split].
    + unfold ChartsSelection.defaultSelection. rewrite Hlen. cbn [negb andb].
      destruct selectedSuppliers; [|done]. cbn. by destruct allSuppliers.
    + exact Hdeselect.
    + intros Hshort. rewrite Hdeselect. by apply take_ge.
Qed.

(** X21, at an input: rankings in which one supplier appears under two
    KPIs. *)
Lemma X21_charts_selection_witness :
  SupplierDashboardCharts.allSuppliers SelectionExamples.rankings =
    Some SelectionExamples.suppliers ∧
  NoDup SelectionExamples.suppliers ∧
  ChartsSelection.defaultSelection SelectionExamples.suppliers
    (ChartsSelection.toggleAll SelectionExamples.suppliers SelectionExamples.suppliers) =
    SelectionExamples.suppliers.
Proof.
  pose proof (X21_charts_selection SelectionExamples.rankings
                SelectionExamples.suppliers [] eq_refl eq_refl)
    as (Hnd & _ & _ & Hrest).
  destruct (Hrest ltac:(done)) as (_ & _ & Hshort).
  split; [done|]. split; [exact Hnd|]. apply Hshort. cbn. lia.
Defined.

(** ** How a stream leaves the widget *)

Module ChatStreamFacts.
Import Net JsString Stream ChatBot StringFacts StreamFacts ChatBotFacts.

Lemma deliver_quiet (r : render) (events : list value) (st : state) :
  List.filter is_final events = [] →
  isLoading (deliver r events st) = isLoading st.
Proof.
  revert st. induction events as [|evt events IH]; intros st H; [done|].
  cbn [List.filter] in H. destruct (is_final evt) eqn:E; [done|].
  cbn [deliver fold_left]. fold (deliver r events (onStreamEvent r evt st)).
  rewrite (IH _ H). by apply ChatBotMore.onStreamEvent_quiet.
Qed.

(** The widget's stream on frames followed by a tail without a
    delimiter. *)
Lemma chatStream_frames (JSON_parse : string → option value) (r : render)
    (frames chunks : list string) (tail : string) (status : nat)
    (json : promise value) (st : state) :
  forallb delimitable frames = true →
  indexOf sep tail = None →
  String.concat "" chunks = serialize frames +:+ tail →
  chatStream JSON_parse r
    (streaming status json (map ReadChunk chunks ++ [ReadDone])) st =
    (deliver r (events_of JSON_parse frames) st, rejects_of JSON_parse frames).
Proof.
  intros Hframes Htail Hchunks.
  unfold chatStream, startChatStream, run, run_try, streaming.
  cbn [f_ok f_body].
  rewrite (StreamMore.read_loop_frames JSON_parse _ frames chunks tail) by done.
  cbn [fst snd]. apply injective_projections.
  - by rewrite StreamMore.frames_state.
  - by rewrite StreamMore.frames_log.
Qed.

(** What the stream's [try] block keeps of the widget: the clock, and the
    transcript as a prefix. *)
Lemma run_try_keeps (JSON_parse : string → option value) (r : render)
    (f : promise fetch_response) (st : state) :
  let mid := (run_try JSON_parse (Some (λ evt st, (onStreamEvent r evt st, false)))
                f (st, [])).1.1 in
  now mid = now st ∧ ∃ earlier, messages mid = (messages st ++ earlier)%list.
Proof.
  cbn zeta. unfold run_try.
  assert (Hst : now st = now st ∧ ∃ earlier, messages st = (messages st ++ earlier)%list).
  { split; [done|]. exists []. by rewrite app_nil_r. }
  destruct f as [resp|err]; [|exact Hst].
  destruct (f_ok resp); [|exact Hst].
  destruct (f_body resp) as [reads|]; [|exact Hst].
  cbn [fst snd].
  apply (read_loop_keeps JSON_parse (Some (λ evt st, (onStreamEvent r evt st, false)))
           (λ s, now s = now st ∧ ∃ earlier, messages s = (messages st ++ earlier)%list));
    [|exact Hst].
  intros callback evt s [= <-] [Hnow [earlier Hm]]. cbn [fst].
  rewrite onStreamEvent_now, onStreamEvent_messages, Hnow, Hm.
  split; [done|]. destruct (is_final evt).
  - eexists. by rewrite <- app_assoc.
  - by exists earlier.
Qed.

End ChatStreamFacts.

(** X22: a stream that ends without a 'final' answer leaves the widget
    busy.  When the body of the stream a send opened holds no well-formed
    'final' frame before its last delimiter, as when the answer's frame
    is not followed by a blank line, the stream ends with the widget
    still busy and the transcript as it was, and every later send is
    rejected. *)
Theorem X22_stream_without_final_leaves_busy
    (JSON_parse : string → option value) (r : ChatBot.render)
    (frames chunks : list string) (tail : string) (status : nat)
    (json : Net.promise value) (st : ChatBot.state) :
  forallb Stream.delimitable frames = true →
  JsString.indexOf JsString.sep tail = None →
  String.concat "" chunks = Stream.serialize frames +:+ tail →
  List.filter ChatBot.is_final (Stream.events_of JSON_parse frames) = [] →
  ChatBot.isLoading st = true →
  let st' := (ChatBot.chatStream JSON_parse r
                (Stream.streaming status json
                   (map Net.ReadChunk chunks ++ [Net.ReadDone])) st).1 in
  ChatBot.isLoading st' = true ∧
  ChatBot.messages st' = ChatBot.messages st ∧
  ∀ isOpen speechEnabled messageText,
    ChatBot.handleSendMessage (ChatBotRun.render_at isOpen speechEnabled st')
      messageText st' = st'.
Proof.
  intros Hframes Htail Hchunks Hquiet Hbusy. cbn zeta.
  rewrite (ChatStreamFacts.chatStream_frames JSON_parse r frames chunks tail)
    by done.
  cbn [fst].
  assert (Hl : ChatBot.isLoading
                 (ChatBot.deliver r (Stream.events_of JSON_parse frames) st) = true)
    by by rewrite ChatStreamFacts.deliver_quiet.
  split; [exact Hl|]. split.
  - rewrite ChatBotFacts.deliver_messages, Hquiet. cbn [map]. by rewrite app_nil_r.
  - intros isOpen speechEnabled messageText.
    unfold ChatBot.handleSendMessage, ChatBotRun.render_at.
    cbn [ChatBot.r_isLoading]. by rewrite Hl, orb_true_r.
Qed.

(** X22, at an input: a progress update, then the answer's frame without
    the blank line after it. *)
Lemma X22_stream_without_final_leaves_busy_witness :
  ChatBot.isLoading
    (ChatBot.chatStream Examples.parse Examples.open_chat
       (Stream.streaming 200 (Net.Resolved VNull)
          (map Net.ReadChunk
             ["data: " +:+ Examples.greeting_text +:+ JsString.sep;
              "data: " +:+ Examples.final_text +:+ String JsString.LF ""]
           ++ [Net.ReadDone])) Examples.waiting).1 = true.
Proof.
  exact (proj1
           (X22_stream_without_final_leaves_busy Examples.parse Examples.open_chat
              ["data: " +:+ Examples.greeting_text]
              ["data: " +:+ Examples.greeting_text +:+ JsString.sep;
               "data: " +:+ Examples.final_text +:+ String JsString.LF ""]
              ("data: " +:+ Examples.final_text +:+ String JsString.LF "")
              200 (Net.Resolved VNull) Examples.waiting
              eq_refl eq_refl eq_refl eq_refl eq_refl)).
Defined.

(** X23: a stream that fails always frees the widget.  Whenever the
    stream's [try] block throws, be it a rejected fetch, a response that
    is not ok or has no body, or a rejected read after any chunks, the
    widget ends idle, not typing and without progress steps; the
    transcript is the old one, then what the events read before the
    failure added, then the stream's error message as the last entry. *)
Theorem X23_failed_stream_frees_the_widget
    (JSON_parse : string → option value) (r : ChatBot.render)
    (f : Net.promise Net.fetch_response) (err : Net.js_error)
    (st : ChatBot.state) :
  (Stream.run_try JSON_parse
     (Some (λ evt st, (ChatBot.onStreamEvent r evt st, false))) f (st, [])).2 =
    Some err →
  let st' := (ChatBot.chatStream JSON_parse r f st).1 in
  ChatBot.isLoading st' = false ∧
  ChatBot.isTyping st' = false ∧
  ChatBot.progressSteps st' = [] ∧
  ∃ earlier,
    ChatBot.messages st' =
      (ChatBot.messages st ++ earlier ++
       [ChatBot.streamErrorMessage (ChatBot.now st)])%list.
Proof.
  intros Hthrew. cbn zeta.
  destruct (ChatStreamFacts.run_try_keeps JSON_parse r f st) as [Hnow [earlier Hm]].
  unfold ChatBot.chatStream, Stream.startChatStream, Stream.run.
  rewrite Hthrew. cbn [fst snd].
  split; [done|]. split; [done|]. split; [done|].
  exists earlier. cbn. by rewrite Hnow, Hm, <- app_assoc.
Qed.

(** X23, at an input: the request of a waiting widget is refused with
    status 503. *)
Lemma X23_failed_stream_frees_the_widget_witness :
  ChatBot.isLoading
    (ChatBot.chatStream Examples.parse Examples.open_chat
       (Net.Resolved {| Net.f_ok := false; Net.f_status := 503;
                        Net.f_json := Net.Resolved VNull; Net.f_body := None |})
       Examples.waiting).1 = false.
Proof.
  exact (proj1
           (X23_failed_stream_frees_the_widget Examples.parse Examples.open_chat
              (Net.Resolved {| Net.f_ok := false; Net.f_status := 503;
                               Net.f_json := Net.Resolved VNull; Net.f_body := None |})
              (Net.new_Error ("Stream failed with status " +:+ pretty 503%nat))
              Examples.waiting eq_refl)).
Defined.

(** ** The comparison data of the first client *)

Module ComparisonFacts.
Import Dashboard DashboardComparison.

Lemma assoc_cons_None (k kpi : string) (v : value) (rest : list (string * value)) :
  assoc k ((kpi, v) :: rest) = None → kpi ≠ k ∧ assoc k rest = None.
Proof. cbn. by destruct (String.eqb_spec kpi k). Qed.

(** What the KPI loop leaves of the row it started from. *)
Lemma addKpis_spec (entries : list (string * value)) (supplier : value)
    (supplierData out : list (string * value)) :
  addKpis entries supplier supplierData = Some out →
  (∀ k, assoc k entries = None → assoc k out = assoc k supplierData) ∧
  (∀ k, is_Some (assoc k out) →
        is_Some (assoc k supplierData) ∨ is_Some (assoc k entries)).
Proof.
  revert supplierData. induction entries as [|[kpi ranking] rest IH];
    intros supplierData H.
  - injection H as <-. split; [done|]. intros k Hk. by left.
  - cbn [addKpis] in H. destruct (find_in ranking supplier) as [kpiData|]; [|done].
    cbn [mbind option_bind] in H. destruct (IH _ H) as [Hkeep Hkeys]. split.
    + intros k [Hne Hk]%assoc_cons_None. rewrite (Hkeep _ Hk).
      destruct (truthy kpiData); [|done].
      apply ObjectFacts.assoc_set_prop_ne. congruence.
    + intros k Hk. cbn [assoc]. destruct (String.eqb_spec kpi k) as [->|Hne];
        [right; eauto|].
      destruct (Hkeys _ Hk) as [Hd|Hr]; [|by right]. left.
      destruct (truthy kpiData); [|done].
      rewrite ObjectFacts.assoc_set_prop_ne in Hd; [done|congruence].
Qed.

Lemma find_row_present (supplier : value) (rows : list value) :
  forallb row_present rows = true →
  is_Some (SupplierDashboardCharts.find_row supplier rows).
Proof.
  induction rows as [|r rows IH]; cbn; [eauto|].
  intros [Hr Hrows]%andb_true_iff.
  assert (Hm : member r "supplier" = Some (opt_get r "supplier"))
    by (by destruct r).
  rewrite Hm. cbn. destruct (strict_eq _ _); eauto.
Qed.

Lemma find_in_ok (ranking supplier : value) :
  ranking_readable ranking = true → is_Some (find_in ranking supplier).
Proof.
  destruct ranking; try done; cbn; eauto.
  apply find_row_present.
Qed.

Lemma addKpis_ok (entries : list (string * value)) (supplier : value)
    (supplierData : list (string * value)) :
  forallb ranking_readable (map snd entries) = true →
  is_Some (addKpis entries supplier supplierData).
Proof.
  revert supplierData. induction entries as [|[kpi ranking] rest IH];
    intros supplierData H; [by eexists|].
  cbn in H. apply andb_true_iff in H as [Hr Hrest].
  cbn [addKpis]. destruct (find_in_ok ranking supplier Hr) as [kpiData ->].
  cbn [mbind option_bind]. by apply IH.
Qed.

End ComparisonFacts.

(** X24: the comparison data has one row per selected supplier, in the
    order of the selection.  Whenever [getComparisonData] returns, its
    result is as long as the selection when there are rankings, and empty
    when there are none; row [i] is an object made for the [i]-th
    selected supplier, carrying that supplier and the [i]-th colour of the
    palette (counted modulo its ten colours) unless a KPI is itself named
    'supplier' or 'color', and no field besides those two and the KPI
    names, so a supplier that no ranking lists still gets its row.  It
    does return when the rankings are an object whose fields are absent
    rankings or arrays without [null] entries. *)
Theorem X24_comparison_row_per_selected_supplier (st : Dashboard.state)
    (rows : list value) :
  DashboardComparison.getComparisonData st = Some rows →
  let rankings := opt_get (Dashboard.dashboardData st) "rankings" in
  length rows = (if truthy rankings then length (Dashboard.selectedSuppliers st)
                 else 0%nat) ∧
  (∀ i row, rows !! i = Some row →
     ∃ props supplier,
       row = VObj props ∧
       Dashboard.selectedSuppliers st !! i = Some supplier ∧
       (assoc "supplier" (spread rankings) = None →
        assoc "supplier" props = Some supplier) ∧
       (assoc "color" (spread rankings) = None →
        assoc "color" props = Some (DashboardComparison.color_at i)) ∧
       (∀ k, is_Some (assoc k props) →
          k = "supplier" ∨ k = "color" ∨ is_Some (assoc k (spread rankings)))) ∧
  (∀ st' props,
     opt_get (Dashboard.dashboardData st') "rankings" = VObj props →
     rankings_readable (VObj props) = true →
     is_Some (DashboardComparison.getComparisonData st')).
Proof.
  intros Hrows. cbn zeta. unfold DashboardComparison.getComparisonData in Hrows.
  set (rankings := opt_get (Dashboard.dashboardData st) "rankings") in *.
  split; [|split].
  - destruct (truthy rankings) eqn:Et; cbn [negb orb] in Hrows.
    + destruct (Nat.eqb _ 0) eqn:El.
      * injection Hrows as <-. apply Nat.eqb_eq in El. by rewrite El.
      * apply length_mapM in Hrows. by rewrite length_imap in Hrows.
    + by injection Hrows as <-.
  - intros i row Hi.
    destruct (negb (truthy rankings) || Nat.eqb _ 0); [by injection Hrows as <-|].
    apply mapM_Some in Hrows.
    destruct (Forall2_lookup_r _ _ _ _ _ Hrows Hi) as ([j supplier] & Hp & Hrow).
    rewrite list_lookup_imap in Hp.
    destruct (Dashboard.selectedSuppliers st !! i) as [s|] eqn:Es; [|done].
    cbn in Hp. injection Hp as <- <-. cbn [fst snd] in Hrow.
    destruct (DashboardComparison.addKpis _ _ _) as [props|] eqn:Ek; [|done].
    cbn in Hrow. injection Hrow as <-.
    destruct (ComparisonFacts.addKpis_spec _ _ _ _ Ek) as [Hkeep Hkeys].
    exists props, s. split; [done|]. split; [done|]. split; [|split].
    + intros Hn. by rewrite (Hkeep _ Hn).
    + intros Hn. by rewrite (Hkeep _ Hn).
    + intros k Hk. destruct (Hkeys _ Hk) as [Hd|Hr]; [|by right; right].
      cbn [assoc] in Hd. destruct (String.eqb_spec "supplier" k); [by left|].
      destruct (String.eqb_spec "color" k); [by right; left|].
      by destruct Hd.
  - intros st' props Hr Hok. unfold DashboardComparison.getComparisonData.
    rewrite Hr. clear Hrows. cbn [truthy negb orb].
    destruct (Nat.eqb (length (Dashboard.selectedSuppliers st')) 0); [eauto|].
    apply DashboardFacts.mapM_total. intros [j supplier]. cbn [fst snd spread].
    destruct (ComparisonFacts.addKpis_ok props supplier
                [("supplier", supplier); ("color", DashboardComparison.color_at j)] Hok)
      as [out ->].
    cbn. eauto.
Qed.

(** X24, at an input: two suppliers selected, one of them ranked under a
    single KPI. *)
Lemma X24_comparison_row_per_selected_supplier_witness :
  DashboardComparison.getComparisonData SelectionExamples.two_selected =
    Some [VObj [("supplier", VStr "Core"); ("color", VStr "#8884d8");
                ("trips", VNum 2)];
          VObj [("supplier", VStr "Acme"); ("color", VStr "#82ca9d");
                ("quantityShipped", VNum 10)]] ∧
  length [VObj [("supplier", VStr "Core"); ("color", VStr "#8884d8");
                ("trips", VNum 2)];
          VObj [("supplier", VStr "Acme"); ("color", VStr "#82ca9d");
                ("quantityShipped", VNum 10)]] = 2%nat.
Proof.
  split; [done|].
  exact (proj1 (X24_comparison_row_per_selected_supplier
                  SelectionExamples.two_selected _ eq_refl)).
Defined.
